(** * Mero: appointment capture, merge, reports and forecast

    A shallow embedding of the logic of [daily_revenue_analysis.py],
    [historical_revenue_analysis.py] and [excel_summary_enhancer.py].

    Python [str] values are sequences of Unicode code points, Python
    [float] values are identified with the rational they denote (IEEE
    rounding is not represented; the [OverflowError] of a conversion or
    division that leaves the range of the floats is), dictionaries keep
    insertion order. *)

From Stdlib Require Import ZArith NArith QArith Qround Qabs Qminmax List String Ascii.
From Stdlib Require Import Permutation Sorted Lia Lqa Bool.
From stdpp Require Import gmap.
Import ListNotations.

Local Open Scope Z_scope.

(** ** Python strings *)

Module PyStr.

(** A [str] is its sequence of code points. *)
Definition pystr := list N.

(** A source literal (all literals of the scripts that matter here are
    ASCII, so a byte is a code point). *)
Definition u (s : string) : pystr :=
  List.map N_of_ascii (list_ascii_of_string s).

Fixpoint eqb (a b : pystr) : bool :=
  match a, b with
  | [], [] => true
  | x :: a', y :: b' => N.eqb x y && eqb a' b'
  | _, _ => false
  end.

(** [a < b] on [str]: lexicographic on code points. *)
Fixpoint ltb (a b : pystr) : bool :=
  match a, b with
  | _, [] => false
  | [], _ :: _ => true
  | x :: a', y :: b' => N.ltb x y || (N.eqb x y && ltb a' b')
  end.

(** [str.isspace] on one code point. *)
Definition isspace (c : N) : bool :=
  ((9 <=? c) && (c <=? 13) || (28 <=? c) && (c <=? 32)
   || (c =? 133) || (c =? 160) || (c =? 5760)
   || (8192 <=? c) && (c <=? 8202)
   || (c =? 8232) || (c =? 8233) || (c =? 8239) || (c =? 8287)
   || (c =? 12288))%N.

Fixpoint lstrip (s : pystr) : pystr :=
  match s with
  | c :: s' => if isspace c then lstrip s' else s
  | [] => []
  end.

(** [s.strip()] *)
Definition strip (s : pystr) : pystr := rev (lstrip (rev (lstrip s))).

End PyStr.

Import PyStr.

(** ** The fragment of [re] the classifiers use *)

Module Re.

(** One position of a pattern: a literal character or a class [[...]]. *)
Inductive atom :=
| Lit (c : N)
| Class (cs : list N).

(** A pattern is an alternation [a1|a2|...] of sequences of atoms. *)
Definition pattern := list (list atom).

Record cstate := {
  done_alts : list (list atom);   (* closed alternatives, reversed *)
  cur_alt : list atom;            (* atoms of the open alternative, reversed *)
  cur_class : option (list N)     (* members of an open class, reversed *)
}.

Definition bar : N := 124.
Definition lbracket : N := 91.
Definition rbracket : N := 93.

Definition cstep (st : cstate) (c : N) : cstate :=
  match cur_class st with
  | Some cs =>
      if N.eqb c rbracket
      then {| done_alts := done_alts st;
              cur_alt := Class (rev cs) :: cur_alt st;
              cur_class := None |}
      else {| done_alts := done_alts st;
              cur_alt := cur_alt st;
              cur_class := Some (c :: cs) |}
  | None =>
      if N.eqb c bar
      then {| done_alts := rev (cur_alt st) :: done_alts st;
              cur_alt := [];
              cur_class := None |}
      else if N.eqb c lbracket
      then {| done_alts := done_alts st;
              cur_alt := cur_alt st;
              cur_class := Some [] |}
      else {| done_alts := done_alts st;
              cur_alt := Lit c :: cur_alt st;
              cur_class := None |}
  end.

(** Reads the pattern syntax that occurs in the scripts: literal
    characters, classes and [|]. *)
Definition compile (src : pystr) : pattern :=
  let st := fold_left cstep src
              {| done_alts := []; cur_alt := []; cur_class := None |} in
  rev (rev (cur_alt st) :: done_alts st).

(** [Py_UNICODE_TOLOWER] on the code points whose lower case an ASCII
    pattern can observe: the capitals, U+0130 (to [i]) and U+212A (to
    [k]); every other code point lowers to something no ASCII pattern
    character matches unless it is that character itself. *)
Definition sre_lower_unicode (x : N) : N :=
  (if (65 <=? x) && (x <=? 90) then x + 32
   else if x =? 304 then 105
   else if x =? 8490 then 107
   else x)%N.

(** [re.IGNORECASE] on a [str] pattern: pattern character [p] against
    subject character [x].  The lowered subject must be the lowered
    pattern character or one of its equivalents ([i]: U+0131, [s]:
    U+017F). *)
Definition ci_match (p x : N) : bool :=
  let lo := sre_lower_unicode p in
  let lx := sre_lower_unicode x in
  (N.eqb lx lo
   || (N.eqb lo 105 && N.eqb lx 305)
   || (N.eqb lo 115 && N.eqb lx 383))%N.

Definition atom_matches (a : atom) (x : N) : bool :=
  match a with
  | Lit c => ci_match c x
  | Class cs => existsb (fun c => ci_match c x) cs
  end.

Fixpoint match_prefix (alt : list atom) (s : pystr) : bool :=
  match alt, s with
  | [], _ => true
  | a :: alt', x :: s' => atom_matches a x && match_prefix alt' s'
  | _ :: _, [] => false
  end.

Definition match_here (p : pattern) (s : pystr) : bool :=
  existsb (fun alt => match_prefix alt s) p.

(** [re.search(p, s, re.IGNORECASE)] as a truth value. *)
Fixpoint search (p : pattern) (s : pystr) : bool :=
  match_here p s
  || match s with
     | [] => false
     | _ :: s' => search p s'
     end.

End Re.

(** ** Category classifier *)

Module Classifier.

(** The loop of [extract_category]: the rules in dictionary order, the
    first one whose pattern is found wins. *)
Fixpoint first_match (rules : list (pystr * pystr)) (service_name : pystr)
  : option pystr :=
  match rules with
  | [] => None
  | (category, pat) :: rest =>
      if Re.search (Re.compile pat) service_name
      then Some category
      else first_match rest service_name
  end.

Definition classify (rules : list (pystr * pystr)) (service_name : pystr)
  : pystr :=
  match first_match rules service_name with
  | Some category => category
  | None => u "Other"
  end.

(** The taxonomy of the specification.  The scripts spell the seventh
    name with a space. *)
Definition category_set : list pystr :=
  [u "Pensat"; u "Epilat"; u "Oxygenera"; u "Laminare"; u "Microneedling";
   u "ProBrows"; u "Pure Solution"; u "Peeling"; u "Tratament"; u "Other"].

End Classifier.

(** ** Decoded JSON and the appointment parser *)

Module Json.

(** What [json.loads] hands to the parser.  Numbers are the integers the
    calendar service sends (type tags, [value], [scale]); a number with a
    fraction or an exponent is not represented.  A dictionary is its
    list of items. *)
#[warnings="-register-all"]
Inductive json :=
| JNull
| JBool (b : bool)
| JInt (z : Z)
| JStr (s : pystr)
| JList (l : list json)
| JDict (d : list (pystr * json)).

(** A Python value a price can be: a decoded JSON value passed through,
    or the [float] made by a true division. *)
Inductive pyval :=
| VJson (j : json)
| VFloat (q : Q).

Fixpoint assoc (k : pystr) (d : list (pystr * json)) : option json :=
  match d with
  | [] => None
  | (k', v) :: d' => if PyStr.eqb k k' then Some v else assoc k d'
  end.

(** [v.get(k, default)]; [None] is the [AttributeError] of a value that
    is not a dictionary. *)
Definition dict_get (d : list (pystr * json)) (k : pystr) (default : json)
  : json :=
  match assoc k d with
  | Some x => x
  | None => default
  end.

Definition get (v : json) (k : pystr) (default : json) : option json :=
  match v with
  | JDict d => Some (dict_get d k default)
  | _ => None
  end.

(** [bool(v)] *)
Definition truthy (v : json) : bool :=
  match v with
  | JNull => false
  | JBool b => b
  | JInt z => negb (z =? 0)
  | JStr s => match s with [] => false | _ => true end
  | JList l => match l with [] => false | _ => true end
  | JDict d => match d with [] => false | _ => true end
  end.

(** The integer a value counts as in arithmetic and ordering ([bool] is a
    subtype of [int]); [None] is the [TypeError] of the other values. *)
Definition as_int (v : json) : option Z :=
  match v with
  | JInt z => Some z
  | JBool b => Some (if b then 1 else 0)
  | _ => None
  end.

(** [v == n] for an integer literal [n] *)
Definition eq_int (v : json) (n : Z) : bool :=
  match as_int v with
  | Some z => z =? n
  | None => false
  end.

(** [v == s] for a string literal [s] *)
Definition eq_str (v : json) (s : pystr) : bool :=
  match v with
  | JStr s' => PyStr.eqb s' s
  | _ => false
  end.

(** [for x in v]: the items of a list, the characters of a string, the
    keys of a dictionary; [None] is the [TypeError] of the rest. *)
Definition iterate (v : json) : option (list json) :=
  match v with
  | JList l => Some l
  | JStr s => Some (List.map (fun c => JStr [c]) s)
  | JDict d => Some (List.map (fun kv => JStr (fst kv)) d)
  | _ => None
  end.

(** A number of this absolute value or more rounds beyond the largest
    [float]. *)
Definition float_limit : Q := inject_Z (2 ^ 1024 - 2 ^ 970).

(** [float(x)] of a number; [None] is the [OverflowError] of an integer
    too large for a [float]. *)
Definition to_float (q : Q) : option Q :=
  if Qle_bool float_limit (Qabs q) then None else Some q.

(** [a / b] on integers, [b] not zero; [None] is the [OverflowError] of
    a quotient too large for a [float].  The time and memory the
    operands take are not represented. *)
Definition truediv (a b : Z) : option Q :=
  to_float (Qred (inject_Z a / inject_Z b)).

End Json.

Import Json.

Module Parser.

(** The dictionary [parse_appointment] builds for one booked service. *)
Record appt := {
  date : json;
  service : pystr;
  category : pystr;
  mega_category : option pystr;
  price : pyval;
  client : pystr
}.

(** Lines 67-79 (daily) and 89-101 (historical): the price of one booked
    service, a dictionary.  [None] is an exception. *)
Definition resolve_price (service : list (pystr * json)) : option pyval :=
  match assoc (u "customPrice") service with
  | Some custom_price =>
      ty ← get custom_price (u "type") JNull;
      if eq_str ty (u "Fixed") then
        fixed ← get custom_price (u "fixed") (JDict []);
        amount_data ← get fixed (u "amount") (JDict []);
        value ← get amount_data (u "value") (JInt 0);
        scale ← get amount_data (u "scale") (JInt 0);
        sc ← as_int scale;
        if 0 <? sc then
          v ← as_int value;
          q ← truediv v (10 ^ sc);
          Some (VFloat q)
        else Some (VJson value)
      else Some (VJson (JInt 0))
  | None =>
      match assoc (u "price") service with
      | Some price_data =>
          ty ← get price_data (u "type") JNull;
          if eq_int ty 1 then
            fixed ← get price_data (u "fixed") (JInt 0);
            Some (VJson fixed)
          else Some (VJson (JInt 0))
      | None => Some (VJson (JInt 0))
      end
  end.

Section Parse.

(** [str(v)] of a value that is not a [str], as the f-string of the
    client name applies it. *)
Variable str_other : json -> pystr.

(** The classifier of the script and, in the historical script, its
    mega-category table. *)
Variable extract_category : pystr -> pystr.
Variable get_mega_category : option (pystr -> pystr).

Definition format (v : json) : pystr :=
  match v with
  | JStr s => s
  | _ => str_other v
  end.

Definition client_name (payload : list (pystr * json)) : option pystr :=
  match assoc (u "client") payload with
  | Some client =>
      firstname ← get client (u "firstname") (JStr []);
      lastname ← get client (u "lastname") (JStr []);
      Some (strip (format firstname ++ u " " ++ format lastname))
  | None => Some []
  end.

(** One turn of the loop over [booked_services]. *)
Definition parse_service (payload : list (pystr * json)) (date_str : json)
    (service : json) : option appt :=
  match service with
  | JDict fields =>
      name ← get service (u "name") (JStr []);
      price ← resolve_price fields;
      service_name ← match name with JStr s => Some s | _ => None end;
      let category := extract_category service_name in
      client ← client_name payload;
      Some {| date := date_str;
              service := service_name;
              category := category;
              mega_category := option_map (fun f => f category) get_mega_category;
              price := price;
              client := client |}
  | _ => None
  end.

(** [parse_appointment(entry)]; [None] is Python's [None], returned for
    an entry that is not an appointment, for a missing date and after
    any exception. *)
Definition parse_appointment (entry : json) : option (list appt) :=
  ty ← get entry (u "type") JNull;
  if negb (eq_int ty 0) then None else
  payload ← get entry (u "payload") (JDict []);
  start ← get entry (u "localStart") (JDict []);
  date_str ← get start (u "dateStr") JNull;
  if negb (truthy date_str) then None else
  booked_services ← get payload (u "bookedServices") (JList []);
  services ← iterate booked_services;
  match payload with
  | JDict fields => mapM (parse_service fields date_str) services
  | _ => None
  end.

End Parse.

End Parser.

(** ** Python built-ins the scripts rely on *)

Module Py.

Section Sorted.
Context {A : Type}.

(** [before b a]: the sort key of [b] is strictly ahead of the key of [a]. *)
Variable before : A -> A -> bool.

Fixpoint insert_sorted (a : A) (l : list A) : list A :=
  match l with
  | [] => [a]
  | b :: l' => if before b a then b :: insert_sorted a l' else a :: l
  end.

(** [sorted(l, key=...)]: stable, an element stays ahead of the later
    elements with an equal key. *)
Definition sorted (l : list A) : list A := fold_right insert_sorted [] l.

End Sorted.

Definition Qltb (a b : Q) : bool := negb (Qle_bool b a).

(** [sum(l)] *)
Definition Qsum (l : list Q) : Q := fold_left Qplus l 0%Q.

Definition mean (l : list Q) : Q := (Qsum l / inject_Z (Z.of_nat (length l)))%Q.

(** [l[-k:]], [Series.tail(k)] *)
Definition tail {A : Type} (k : nat) (l : list A) : list A :=
  skipn (length l - k) l.

(** [median]: the middle of the sorted values, the mean of the two
    middle ones for an even count. *)
Definition median (l : list Q) : Q :=
  let s := sorted Qltb l in
  let n := length l in
  if Nat.even n
  then ((nth (n / 2 - 1) s 0 + nth (n / 2) s 0) / 2)%Q
  else nth (n / 2) s 0%Q.

(** Rounding to the nearest integer, ties to even. *)
Definition round_half_even (q : Q) : Z :=
  let f := Qfloor q in
  match (q - inject_Z f ?= 1 # 2)%Q with
  | Lt => f
  | Gt => f + 1
  | Eq => if Z.even f then f else f + 1
  end.

(** [round(q, n)] and the number shown by the format [.nf]. *)
Definition round_dp (n : nat) (q : Q) : Q :=
  (inject_Z (round_half_even (q * inject_Z (10 ^ Z.of_nat n)))
   / inject_Z (10 ^ Z.of_nat n))%Q.

End Py.

(** ** Captured appointments and rows of the Raw Data sheet *)

Module Store.

(** A captured appointment as the merge holds it: the dictionary of
    [parse_appointment] with a text date and a numeric price. *)
Record appointment := {
  date : pystr;
  client : pystr;
  service : pystr;
  category : pystr;
  mega_category : pystr;
  price : Q
}.

(** The key [run] gives a captured appointment:
    f"{appt['date']}|{appt['client']}|{appt['service']}" *)
Definition key (a : appointment) : pystr :=
  date a ++ u "|" ++ client a ++ u "|" ++ service a.

(** A cell value as [iter_rows(values_only=True)] returns it: [None]
    for the empty cell, a text or a number. *)
Inductive cell :=
| Empty
| Text (s : pystr)
| Number (q : Q).

(** A row of Raw Data as the daily script reads it, the cells [row[0]]
    to [row[4]] of a sheet with five columns or more.  The first four
    are text cells: a text cell is its text, and the empty cell, which
    is read as [None], is the empty text (a saved workbook holds no
    empty text: an empty text is saved as an empty cell).  One of these
    cells holding a number or a date value is not represented.  The
    fifth cell is the price in the five columns the daily script appends
    and the mega-category in the six columns the historical script
    writes. *)
Record row := {
  row_date : pystr;
  row_client : pystr;
  row_service : pystr;
  row_category : pystr;
  row_fifth : cell
}.

(** f"{v}" of the value of a text cell: [None] is formatted as the
    text None. *)
Definition fstring (c : pystr) : pystr :=
  match c with
  | [] => u "None"
  | _ :: _ => c
  end.

(** The key [load_existing_appointments] gives a row:
    f"{row[0]}|{row[1]}|{row[2]}" *)
Definition row_key (r : row) : pystr :=
  fstring (row_date r) ++ u "|" ++ fstring (row_client r)
  ++ u "|" ++ fstring (row_service r).

End Store.

(** ** Category totals, shared by both scripts *)

Module Totals.

(** The value [{"count": ..., "revenue": ...}] of one dictionary entry. *)
Record stats := { count : Z; revenue : Q }.

(** [totals[k]["count"] += 1; totals[k]["revenue"] += p] on a
    [defaultdict]: a new key goes to the end. *)
Fixpoint bump (k : pystr) (p : Q) (t : list (pystr * stats))
  : list (pystr * stats) :=
  match t with
  | [] => [(k, {| count := 0 + 1; revenue := 0 + p |})]
  | (k', s) :: t' =>
      if PyStr.eqb k k'
      then (k', {| count := count s + 1; revenue := (revenue s + p)%Q |}) :: t'
      else (k', s) :: bump k p t'
  end.

Definition accumulate (items : list (pystr * Q)) : list (pystr * stats) :=
  fold_left (fun t kp => bump (fst kp) (snd kp) t) items [].

(** [sum(cat["revenue"] for cat in totals.values())] *)
Definition grand_total_revenue (t : list (pystr * stats)) : Q :=
  Py.Qsum (List.map (fun ks => revenue (snd ks)) t).

(** One row of a totals sheet; [percent_shown] is the number the cell
    text [f"{percent:.1f}%"] displays. *)
Record totals_row := {
  label : pystr;
  appointments : Z;
  total_revenue : Q;
  avg_price : Q;
  percent : Q;
  percent_shown : Q
}.

Definition row_of (grand : Q) (ks : pystr * stats) : totals_row :=
  let st := snd ks in
  let avg := if 0 <? count st
             then (revenue st / inject_Z (count st))%Q else 0%Q in
  let pct := if Py.Qltb 0 grand
             then (revenue st / grand * 100)%Q else 0%Q in
  {| label := fst ks;
     appointments := count st;
     total_revenue := revenue st;
     avg_price := avg;
     percent := pct;
     percent_shown := Py.round_dp 1 pct |}.

(** The data rows of a totals sheet: by revenue, largest first. *)
Definition totals_rows (t : list (pystr * stats)) : list totals_row :=
  List.map (row_of (grand_total_revenue t))
    (Py.sorted (fun b a => Py.Qltb (revenue (snd a)) (revenue (snd b))) t).

End Totals.

(** ** The Monthly Summary sheet of the daily script *)

Module Monthly.

(** [monthly_stats]: per month key, the dictionary of the categories. *)
Fixpoint bump_month (m k : pystr) (p : Q)
    (t : list (pystr * list (pystr * Totals.stats)))
  : list (pystr * list (pystr * Totals.stats)) :=
  match t with
  | [] => [(m, Totals.bump k p [])]
  | (m', categories) :: t' =>
      if PyStr.eqb m m'
      then (m', Totals.bump k p categories) :: t'
      else (m', categories) :: bump_month m k p t'
  end.

(** The statistics loop over (month key, category, price). *)
Definition accumulate (items : list (pystr * pystr * Q))
  : list (pystr * list (pystr * Totals.stats)) :=
  fold_left (fun t i => bump_month (fst (fst i)) (snd (fst i)) (snd i) t)
    items [].

(** A row of the sheet: a category line, the TOTAL line of a month, the
    empty line after it. *)
Inductive sheet_row :=
| CategoryRow (month_name category : pystr) (count : Z) (revenue avg : Q)
| TotalRow (label : pystr) (count : Z) (revenue : Q)
| BlankRow.

(** [sum(cat["count"] for cat in categories.values())] *)
Definition total_count (categories : list (pystr * Totals.stats)) : Z :=
  fold_left Z.add (List.map (fun ks => Totals.count (snd ks)) categories) 0.

Section Sheet.

(** [datetime.strptime(month, "%Y-%m").strftime("%B %Y")]; [None] is
    the [ValueError] of a key that does not parse. *)
Variable month_name : pystr -> option pystr.

Definition category_row (name : pystr) (ks : pystr * Totals.stats)
  : sheet_row :=
  let st := snd ks in
  let avg := if 0 <? Totals.count st
             then (Totals.revenue st / inject_Z (Totals.count st))%Q
             else 0%Q in
  CategoryRow name (fst ks) (Totals.count st) (Totals.revenue st) avg.

(** The lines of one month; [None] when its key does not parse. *)
Definition month_block (mc : pystr * list (pystr * Totals.stats))
  : option (list sheet_row) :=
  let categories := snd mc in
  name ← month_name (fst mc);
  Some (List.map (category_row name)
          (Py.sorted
             (fun b a =>
                Py.Qltb (Totals.revenue (snd a)) (Totals.revenue (snd b)))
             categories)
        ++ [TotalRow (name ++ u " TOTAL")
              (total_count categories) (Totals.grand_total_revenue categories);
            BlankRow]).

(** The data rows of Monthly Summary: the months in ascending order of
    their keys. *)
Definition monthly_rows (t : list (pystr * list (pystr * Totals.stats)))
  : option (list sheet_row) :=
  blocks ← mapM month_block
              (Py.sorted (fun b a => PyStr.ltb (fst b) (fst a)) t);
  Some (concat blocks).

End Sheet.

End Monthly.

(** [daily_revenue_analysis.py] *)
Module Daily.

Definition categories : list (pystr * pystr) :=
  [(u "Pensat", u "Pensat|ProBrows");
   (u "Epilat", u "Epilat");
   (u "Oxygenera", u "Ox[iy]gen[ae]r[ae]|Oxygen");
   (u "Laminare", u "Laminare");
   (u "Microneedling", u "Microneedling|DermaPen");
   (u "ProBrows", u "ProBrows");
   (u "Pure Solution", u "Pure Solution");
   (u "Peeling", u "Peeling");
   (u "Tratament", u "Tratament")].

Definition extract_category (service_name : pystr) : pystr :=
  Classifier.classify categories service_name.



Definition parse_appointment (str_other : json -> pystr) (entry : json)
  : option (list Parser.appt) :=
  Parser.parse_appointment str_other extract_category None entry.

(** [load_existing_appointments]: the keys of the rows of Raw Data that
    have a date. *)
Fixpoint load_existing_appointments (rows : list Store.row)
  : gset pystr :=
  match rows with
  | [] => ∅
  | row :: rest =>
      match Store.row_date row with
      | [] => load_existing_appointments rest
      | _ :: _ => {[ Store.row_key row ]} ∪ load_existing_appointments rest
      end
  end.

(** The loop of [run] that keeps the appointments whose key is not an
    existing one. *)
Definition new_appointments (existing_keys : gset pystr)
    (all_captured_appointments : list Store.appointment)
  : list Store.appointment :=
  List.filter (fun appt => bool_decide (Store.key appt ∉ existing_keys))
    all_captured_appointments.

(** The cells [update_excel_file] appends for one appointment, as the
    saved workbook returns them: an empty text comes back as the empty
    cell, and the texts of a booking are taken to be texts a cell
    returns as written. *)
Definition raw_data_row (appt : Store.appointment) : Store.row :=
  {| Store.row_date := Store.date appt;
     Store.row_client := Store.client appt;
     Store.row_service := Store.service appt;
     Store.row_category := Store.category appt;
     Store.row_fifth := Store.Number (Store.price appt) |}.

(** Raw Data after the loop of [update_excel_file]. *)
Definition append_raw_data (rows : list Store.row)
    (new_appointments : list Store.appointment) : list Store.row :=
  rows ++ List.map raw_data_row
            (Py.sorted (fun b a => PyStr.ltb (Store.date b) (Store.date a))
               new_appointments).

Section WithCalendar.

(** [datetime.strptime(d, "%Y-%m-%d").strftime("%Y-%m")]; [None] is the
    [ValueError] of a text that is not such a date. *)
Variable strptime_month : pystr -> option pystr.

(** [datetime.strptime(month, "%Y-%m").strftime("%B %Y")]; [None] is
    the [ValueError] of a key that does not parse. *)
Variable month_name : pystr -> option pystr.

(** [float(s)] of a text that is not empty; [None] is the [ValueError]
    of a text that is no number. *)
Variable float_text : pystr -> option Q.

(** [float(row[4]) if row[4] else 0] *)
Definition read_price (c : Store.cell) : option Q :=
  match c with
  | Store.Empty => Some 0%Q
  | Store.Text s => match s with [] => Some 0%Q | _ :: _ => float_text s end
  | Store.Number q => if Qeq_bool q 0 then Some 0%Q else to_float q
  end.

(** The first loop of [rebuild_summary_sheets]: date, category and
    price of the rows that have a date. *)
Definition all_appts (rows : list Store.row)
  : option (list (pystr * pystr * Q)) :=
  mapM (fun row =>
          price ← read_price (Store.row_fifth row);
          Some (Store.row_date row, Store.row_category row, price))
    (List.filter
       (fun r => match Store.row_date r with [] => false | _ => true end)
       rows).

(** The statistics loop: month key, category and price. *)
Definition statistics (appts : list (pystr * pystr * Q))
  : option (list (pystr * pystr * Q)) :=
  mapM (fun appt =>
          month_key ← strptime_month (fst (fst appt));
          Some (month_key, snd (fst appt), snd appt))
    appts.

(** [rebuild_summary_sheets]: the data rows of Monthly Summary and of
    Category Totals; [None] is the exception of a fifth cell that is no
    number, of a date or of a month key that does not parse. *)
Definition rebuild_summary_sheets (rows : list Store.row)
  : option (list Monthly.sheet_row * list Totals.totals_row) :=
  appts ← all_appts rows;
  items ← statistics appts;
  monthly ← Monthly.monthly_rows month_name (Monthly.accumulate items);
  Some (monthly,
        Totals.totals_rows
          (Totals.accumulate (List.map (fun i => (snd (fst i), snd i)) items))).

(** [update_excel_file]: the rows saved to the file, [None] when an
    exception leaves the file as it was. *)
Definition update_excel_file (rows : list Store.row)
    (new_appointments : list Store.appointment) : option (list Store.row) :=
  match new_appointments with
  | [] => Some rows
  | _ :: _ =>
      let rows' := append_raw_data rows new_appointments in
      _ ← rebuild_summary_sheets rows';
      Some rows'
  end.

(** The Raw Data sheet on disk after [run]. *)
Definition run (rows : list Store.row)
    (all_captured_appointments : list Store.appointment) : list Store.row :=
  let existing_keys := load_existing_appointments rows in
  let new := new_appointments existing_keys all_captured_appointments in
  match update_excel_file rows new with
  | Some rows' => rows'
  | None => rows
  end.

End WithCalendar.

End Daily.

(** [historical_revenue_analysis.py] *)
Module Historical.

Definition categories : list (pystr * pystr) :=
  [(u "Pensat", u "Pensat");
   (u "ProBrows", u "ProBrows");
   (u "Epilat", u "Epilat");
   (u "Oxygenera", u "Ox[iy]gen[ae]r[ae]|Oxygen");
   (u "Laminare", u "Laminare");
   (u "Microneedling", u "Microneedling");
   (u "DermaPen", u "DermaPen");
   (u "Peeling", u "Peeling");
   (u "Tratament", u "Tratament");
   (u "Pure Solution", u "Pure Solution")].

Definition extract_category (service_name : pystr) : pystr :=
  Classifier.classify categories service_name.

Definition mega_categories : list (pystr * list pystr) :=
  [(u "Spr" ++ [226%N] ++ u "ncene", [u "Pensat"; u "ProBrows"; u "Laminare"]);
   (u "Epilare", [u "Epilat"]);
   (u "Tratamente",
     [u "Oxygenera"; u "Microneedling"; u "DermaPen"; u "Peeling";
      u "Tratament"; u "Pure Solution"])].

Fixpoint mega_lookup (table : list (pystr * list pystr)) (c : pystr) : pystr :=
  match table with
  | [] => u "Altele"
  | (mega_cat, individual_cats) :: rest =>
      if existsb (PyStr.eqb c) individual_cats then mega_cat
      else mega_lookup rest c
  end.

Definition get_mega_category (individual_category : pystr) : pystr :=
  mega_lookup mega_categories individual_category.



Definition parse_appointment (str_other : json -> pystr) (entry : json)
  : option (list Parser.appt) :=
  Parser.parse_appointment str_other extract_category
    (Some get_mega_category) entry.

(** A price as a summand of [revenue]; [None] is the [TypeError] of a
    value that is not a number. *)
Definition number (v : pyval) : option Q :=
  match v with
  | VFloat q => Some q
  | VJson j => z ← as_int j; Some (inject_Z z)
  end.

Section WithCalendar.

Variable strptime_month : pystr -> option pystr.

(** What the statistics loop of [run] reads from one captured
    dictionary; [None] is an exception. *)
Definition reading (appt : Parser.appt) : option (pystr * pystr * Q) :=
  d ← match Parser.date appt with JStr s => Some s | _ => None end;
  _ ← strptime_month d;
  mega ← Parser.mega_category appt;
  p ← number (Parser.price appt);
  Some (Parser.category appt, mega, p).

(** The data rows of the sheets Category Totals and Mega Category
    Totals that [run] writes. *)
Definition run_totals (all_captured_appointments : list Parser.appt)
  : option (list Totals.totals_row * list Totals.totals_row) :=
  readings ← mapM reading all_captured_appointments;
  let category_totals :=
    Totals.accumulate (List.map (fun r => (fst (fst r), snd r)) readings) in
  let mega_category_totals :=
    Totals.accumulate (List.map (fun r => (snd (fst r), snd r)) readings) in
  Some (Totals.totals_rows category_totals,
        Totals.totals_rows mega_category_totals).

End WithCalendar.

End Historical.

(** ** [excel_summary_enhancer.py]: the forecast *)

Module Enhancer.

(** A "Year-Month" label [YYYY-MM], held as its two numbers; the order
    of the labels as text is the order of the pairs. *)
Record yearmonth := { year : Z; month : Z }.

Definition ym_geb (a b : yearmonth) : bool :=
  (year b <? year a) || ((year b =? year a) && (month b <=? month a)).

(** One row of [monthly_data]. *)
Record month_row := {
  year_month : yearmonth;
  monthly_revenue : Q;
  monthly_bookings : Z
}.

Record forecast_row := {
  forecast_month : yearmonth;
  conservative : Q;
  moderate : Q;
  optimistic : Q;
  monthly_growth_rate : Q
}.

Record historical_stats := {
  all_time_average : Q;
  last_3_months_average : Q;
  last_6_months_average : Q;
  baseline_recent_median : Q;
  median_monthly_growth : Q;
  applied_growth_rate : Q
}.

Record forecast_summary := {
  forecast : list forecast_row;
  stats : historical_stats
}.

(** How a call of [create_forecast_sheet] ends: it returns [None], it
    returns a summary, or it raises ([UnboundLocalError]). *)
Inductive outcome :=
| ReturnsNone
| Returns (summary : forecast_summary)
| Raises.

(** Lines 618-642: months with less than half the median bookings are
    dropped. *)
Definition remove_partial_months (monthly_data : list month_row)
  : list month_row :=
  if (3 <=? length monthly_data)%nat then
    let median_bookings :=
      Py.median (List.map (fun r => inject_Z (monthly_bookings r)) monthly_data) in
    let threshold_bookings := (median_bookings * 0.5)%Q in
    let full_months :=
      List.filter
        (fun row => Qle_bool threshold_bookings (inject_Z (monthly_bookings row)))
        monthly_data in
    if (3 <=? length full_months)%nat then full_months
    else List.tl monthly_data
  else monthly_data.

(** Lines 661-668: the month-over-month rates that are kept. *)
Fixpoint growth_rates (recent_revenues : list Q) : list Q :=
  match recent_revenues with
  | prev :: (cur :: _) as rest =>
      if Py.Qltb 0 prev then
        let growth := ((cur - prev) / prev)%Q in
        if Py.Qltb (Qabs growth) 0.3 then growth :: growth_rates rest
        else growth_rates rest
      else growth_rates rest
  | _ => []
  end.

(** Lines 670-683: [capped_growth]. *)
Definition capped_growth (recent_growth_rates : list Q)
    (last_3_avg last_6_avg : Q) : Q :=
  if (3 <=? length recent_growth_rates)%nat then
    let median_growth := Py.median recent_growth_rates in
    Qmax (Qmin median_growth 0.03) (-0.03)
  else if Py.Qltb last_6_avg last_3_avg then 0.01%Q
  else if Py.Qltb last_3_avg (last_6_avg * 0.95) then (-0.01)%Q
  else 0.00%Q.

(** Lines 707-716 *)
Definition start_month_offset (last_data current : yearmonth) : Z :=
  if ym_geb last_data current then 1
  else
    let months_diff :=
      (year current - year last_data) * 12
      + (month current - month last_data) in
    months_diff + 1.

Fixpoint carry_months (fuel : nat) (y m : Z) : yearmonth :=
  if 12 <? m then
    match fuel with
    | S fuel' => carry_months fuel' (y + 1) (m - 12)
    | O => {| year := y; month := m |}
    end
  else {| year := y; month := m |}.

(** [_get_next_month]; the loop runs fewer times than the month number. *)
Definition _get_next_month (ym : yearmonth) (months_ahead : Z) : yearmonth :=
  let m := month ym + months_ahead in
  carry_months (Z.to_nat m) (year ym) m.

(** Lines 722-754: one forecast month. *)
Definition forecast_one (last_data : yearmonth) (baseline growth : Q)
    (offset i : Z) : forecast_row :=
  let months_ahead := i - offset + 1 in
  let mults :=
    if Qle_bool 0 growth then
      (0.95, 1.0 + growth * inject_Z months_ahead,
       1.0 + growth * inject_Z months_ahead * 1.5)%Q
    else
      (1.0 + growth * inject_Z months_ahead * 1.2, 1.0,
       1.02 ^ months_ahead)%Q in
  let conservative_forecast := (baseline * fst (fst mults))%Q in
  let moderate_forecast := (baseline * snd (fst mults))%Q in
  let optimistic_forecast := (baseline * snd mults)%Q in
  let conservative_forecast := Qmin conservative_forecast moderate_forecast in
  let optimistic_forecast := Qmax optimistic_forecast moderate_forecast in
  {| forecast_month := _get_next_month last_data i;
     conservative := Py.round_dp 2 conservative_forecast;
     moderate := Py.round_dp 2 moderate_forecast;
     optimistic := Py.round_dp 2 optimistic_forecast;
     monthly_growth_rate := Py.round_dp 4 growth |}.

(** [create_forecast_sheet], from [monthly_data] on; [current] is the
    month of [datetime.now()]. *)
Definition create_forecast_sheet (current : yearmonth)
    (monthly_data : list month_row) : outcome :=
  let monthly_data := remove_partial_months monthly_data in
  if (6 <=? length monthly_data)%nat then
    let revenues := List.map monthly_revenue monthly_data in
    let stable_period_months := Nat.min 9 (length monthly_data) in
    let recent_revenues := Py.tail stable_period_months revenues in
    let last_3_avg := Py.mean (Py.tail 3 revenues) in
    let last_6_avg := Py.mean (Py.tail 6 revenues) in
    let baseline := Py.median recent_revenues in
    let recent_growth_rates := growth_rates recent_revenues in
    (* [median_growth] is bound in the first branch only *)
    let median_growth :=
      if (3 <=? length recent_growth_rates)%nat
      then Some (Py.median recent_growth_rates) else None in
    let growth := capped_growth recent_growth_rates last_3_avg last_6_avg in
    let all_time_avg := Py.mean revenues in
    let last_data :=
      List.last (List.map year_month monthly_data) current in
    let offset := start_month_offset last_data current in
    let forecast_months :=
      List.map (forecast_one last_data baseline growth offset)
        [offset; offset + 1; offset + 2] in
    let shown_median :=
      if (0 <? length recent_growth_rates)%nat
      then option_map (Py.round_dp 4) median_growth
      else Some 0.0%Q in
    match shown_median with
    | Some shown =>
        Returns
          {| forecast := forecast_months;
             stats :=
               {| all_time_average := Py.round_dp 2 all_time_avg;
                  last_3_months_average := Py.round_dp 2 last_3_avg;
                  last_6_months_average := Py.round_dp 2 last_6_avg;
                  baseline_recent_median := Py.round_dp 2 baseline;
                  median_monthly_growth := shown;
                  applied_growth_rate := Py.round_dp 4 growth |} |}
    | None => Raises
    end
  else ReturnsNone.

End Enhancer.

(** ** [handle_route]: the capture of one calendar response *)

Module Capture.

Fixpoint startswith (prefix s : pystr) : bool :=
  match prefix, s with
  | [], _ => true
  | p :: prefix', c :: s' => N.eqb p c && startswith prefix' s'
  | _ :: _, [] => false
  end.

(** [needle in hay] on two [str]s. *)
Fixpoint contains (needle hay : pystr) : bool :=
  startswith needle hay
  || match hay with
     | [] => false
     | _ :: hay' => contains needle hay'
     end.

Section Route.

(** [parse_appointment] of the script; it catches its own exceptions. *)
Variable parse_appointment : json -> option (list Parser.appt).

(** [if parsed_appts: all_captured_appointments.extend(parsed_appts)] *)
Definition capture_entry (captured : list Parser.appt) (entry : json)
  : list Parser.appt :=
  match parse_appointment entry with
  | Some (a :: rest) => captured ++ a :: rest
  | _ => captured
  end.

Definition capture_entries (entries : list json) (captured : list Parser.appt)
  : list Parser.appt :=
  fold_left capture_entry entries captured.

(** The loop over the calendars.  An exception ([calendar.get] on a
    value that is no dictionary, entries that cannot be iterated) leaves
    the loop; what was captured before stays in the global list. *)
Fixpoint capture_calendars (calendars : list json)
    (captured : list Parser.appt) : list Parser.appt :=
  match calendars with
  | [] => captured
  | calendar :: rest =>
      match get calendar (u "entries") (JList []) ≫= iterate with
      | Some entries =>
          capture_calendars rest (capture_entries entries captured)
      | None => captured
      end
  end.

(** [handle_route]: the global list after the call.  [body] is the
    decoded response, [None] when reading or decoding it raises.  A
    decoded value that is not a dictionary appends nothing: the test
    ["calendars" in json_data] raises, is false, or is followed by an
    index error. *)
Definition handle_route (url : pystr) (body : option json)
    (all_captured_appointments : list Parser.appt) : list Parser.appt :=
  if contains (u "calendars-entries") url then
    match body with
    | Some (JDict json_data) =>
        match assoc (u "calendars") json_data with
        | Some calendars =>
            match iterate calendars with
            | Some cals => capture_calendars cals all_captured_appointments
            | None => all_captured_appointments
            end
        | None => all_captured_appointments
        end
    | _ => all_captured_appointments
    end
  else all_captured_appointments.

End Route.

End Capture.

(** ** [_prepare_raw_data]: the mega-category of a category *)

Module Prepare.

Definition mega_category_map : list (pystr * pystr) :=
  [(u "Pensat", u "Spr" ++ [226%N] ++ u "ncene");
   (u "ProBrows", u "Spr" ++ [226%N] ++ u "ncene");
   (u "Laminare", u "Spr" ++ [226%N] ++ u "ncene");
   (u "Epilat", u "Epilare");
   (u "Oxygenera", u "Tratamente");
   (u "Microneedling", u "Tratamente");
   (u "DermaPen", u "Tratamente");
   (u "Peeling", u "Tratamente");
   (u "Tratament", u "Tratamente");
   (u "Pure Solution", u "Tratamente")].

Fixpoint lookup (x : pystr) (m : list (pystr * pystr)) : option pystr :=
  match m with
  | [] => None
  | (k, v) :: m' => if PyStr.eqb x k then Some v else lookup x m'
  end.

(** [lambda x: mega_category_map.get(x, "Altele")] *)
Definition mega_category (x : pystr) : pystr :=
  match lookup x mega_category_map with
  | Some v => v
  | None => u "Altele"
  end.

End Prepare.

(** ** [load_cookies.py] *)

Module Cookies.

(** [s.lower() == t] for a literal [t] of lower-case ASCII letters: the
    code points that lower to one such letter are the letter, its
    capital and, for [k], U+212A. *)
Fixpoint lower_is (s t : pystr) : bool :=
  match s, t with
  | [], [] => true
  | x :: s', c :: t' =>
      (N.eqb x c || N.eqb (x + 32) c && (65 <=? x)%N && (x <=? 90)%N
       || N.eqb x 8490 && N.eqb c 107)
      && lower_is s' t'
  | _, _ => false
  end.

(** [d[k] = v]: the value of an existing key is replaced in place, a
    new key goes to the end. *)
Fixpoint dict_set (k : pystr) (v : json) (d : list (pystr * json))
  : list (pystr * json) :=
  match d with
  | [] => [(k, v)]
  | (k', v') :: d' =>
      if PyStr.eqb k k' then (k', v) :: d' else (k', v') :: dict_set k v d'
  end.

(** [normalize_cookie] on a dictionary. *)
Definition normalize_dict (cookie : list (pystr * json))
  : list (pystr * json) :=
  let sameSite := dict_get cookie (u "sameSite") JNull in
  if negb (truthy sameSite) then dict_set (u "sameSite") (JStr (u "Lax")) cookie
  else
    match sameSite with
    | JStr s =>
        if lower_is s (u "strict")
        then dict_set (u "sameSite") (JStr (u "Strict")) cookie
        else if lower_is s (u "lax")
        then dict_set (u "sameSite") (JStr (u "Lax")) cookie
        else if lower_is s (u "none")
        then dict_set (u "sameSite") (JStr (u "None")) cookie
        else cookie
    | _ => dict_set (u "sameSite") (JStr (u "Lax")) cookie
    end.

(** [normalize_cookie]; [None] is the [AttributeError] of a value that
    is not a dictionary. *)
Definition normalize_cookie (cookie : json) : option json :=
  match cookie with
  | JDict d => Some (JDict (normalize_dict d))
  | _ => None
  end.

(** [load_cookies_json]: the cookies handed to [context.add_cookies];
    [None] when nothing is added (no file, invalid JSON, an empty file
    content, any exception).  [content] is the decoded file. *)
Definition load_cookies_json (content : option json) : option (list json) :=
  cookies ← content;
  if truthy cookies then
    items ← iterate cookies;
    mapM normalize_cookie items
  else None.

End Cookies.

(** ** [create_client_analysis]: the client tiers *)

Module Clients.

Local Open Scope Q_scope.

(** [Series.quantile(q)], linear interpolation, of a series that is not
    empty. *)
Definition quantile (q : Q) (values : list Q) : Q :=
  let s := Py.sorted Py.Qltb values in
  let n := length values in
  let pos := inject_Z (Z.of_nat (n - 1)) * q in
  let below := Z.to_nat (Qfloor pos) in
  let above := Nat.min (below + 1) (n - 1) in
  let frac := pos - inject_Z (Qfloor pos) in
  nth below s 0 + (nth above s 0 - nth below s 0) * frac.

Inductive tier := VIP | Regular | Occasional | NewLow.

(** [np.select(conditions, choices[:3], default=choices[3])] for one
    client with the total [spent]. *)
Definition client_tier (total_spent : list Q) (spent : Q) : tier :=
  if Qle_bool (quantile 0.8 total_spent) spent then VIP
  else if Qle_bool (quantile 0.5 total_spent) spent then Regular
  else if Qle_bool (quantile 0.2 total_spent) spent then Occasional
  else NewLow.

(** The column Client Tier. *)
Definition client_tiers (total_spent : list Q) : list tier :=
  List.map (client_tier total_spent) total_spent.

End Clients.

(** ** [create_weekly_summary]: moving average and growth *)

Module Weekly.

Local Open Scope Q_scope.

(** [rolling(window=4, min_periods=1).mean().round(2)] at the week of
    index [i]. *)
Definition moving_average (revenues : list Q) (i : nat) : Q :=
  Py.round_dp 2 (Py.mean (Py.tail 4 (firstn (S i) revenues))).

(** The cell Growth vs 4-Week MA of one week; [None] is the empty
    cell. *)
Definition growth_vs_ma (current_revenue ma_revenue : Q) : option Q :=
  if Py.Qltb 0 ma_revenue && Py.Qltb 0 current_revenue
  then Some (Py.round_dp 4 ((current_revenue - ma_revenue) / ma_revenue))
  else None.

(** The two trend columns from the column Total Revenue. *)
Definition trend_columns (revenues : list Q) : list (Q * option Q) :=
  List.map
    (fun i =>
       let ma := moving_average revenues i in
       (ma, growth_vs_ma (nth i revenues 0) ma))
    (seq 0 (length revenues)).

End Weekly.

(** * Vocabulary of the statements and sample data *)

Module ClassifierSpec.

Import Classifier.

(** [category] is what the first rule of [rules] found in [name] gives,
    [Other] when no rule is found. *)
Definition first_rule (rules : list (pystr * pystr)) (name category : pystr)
  : Prop :=
  (exists pre cat pat post,
      rules = pre ++ (cat, pat) :: post
      /\ Re.search (Re.compile pat) name = true
      /\ (forall c p, In (c, p) pre -> Re.search (Re.compile p) name = false)
      /\ category = cat)
  \/ ((forall c p, In (c, p) rules -> Re.search (Re.compile p) name = false)
      /\ category = u "Other").

End ClassifierSpec.

Module ParserSpec.

Import Parser.

(** The price as the specification words it: a custom price of the
    fixed-amount type first, else a simple price of the fixed type,
    else 0. *)
Definition spec_simple_price (fields : list (pystr * json)) : pyval :=
  match assoc (u "price") fields with
  | Some (JDict pd) =>
      if eq_int (dict_get pd (u "type") JNull) 1
      then VJson (dict_get pd (u "fixed") (JInt 0))
      else VJson (JInt 0)
  | _ => VJson (JInt 0)
  end.

Definition spec_price_precedence (fields : list (pystr * json)) : pyval :=
  match assoc (u "customPrice") fields with
  | Some (JDict cp) =>
      if eq_str (dict_get cp (u "type") JNull) (u "Fixed") then
        match dict_get cp (u "fixed") (JDict []) with
        | JDict fx =>
            match dict_get fx (u "amount") (JDict []) with
            | JDict am =>
                match dict_get am (u "value") (JInt 0),
                      dict_get am (u "scale") (JInt 0) with
                | JInt v, JInt sc =>
                    if sc =? 0 then VJson (JInt v)
                    else VFloat (Qred (inject_Z v / 10 ^ sc))
                | _, _ => VJson (JInt 0)
                end
            | _ => VJson (JInt 0)
            end
        | _ => VJson (JInt 0)
        end
      else spec_simple_price fields
  | _ => spec_simple_price fields
  end.

(** A booked service with a percentage custom price and a simple fixed
    price of 100. *)
Definition shadowed_service : list (pystr * json) :=
  [(u "name", JStr (u "Pensat"));
   (u "customPrice", JDict [(u "type", JStr (u "Percent"))]);
   (u "price", JDict [(u "type", JInt 1); (u "fixed", JInt 100)])].

(** The entry of the parser example of the specification. *)
Definition example_entry : json :=
  JDict
    [(u "type", JInt 0);
     (u "localStart", JDict [(u "dateStr", JStr (u "2024-01-05"))]);
     (u "payload",
       JDict
         [(u "client",
            JDict [(u "firstname", JStr (u "Ana"));
                   (u "lastname", JStr (u "Pop"))]);
          (u "bookedServices",
            JList
              [JDict
                 [(u "name", JStr (u "Epilat"));
                  (u "customPrice",
                    JDict
                      [(u "type", JStr (u "Fixed"));
                       (u "fixed",
                         JDict
                           [(u "amount",
                              JDict [(u "value", JInt 15000);
                                     (u "scale", JInt 2)])])])]])])].

(** A booked service with a custom price of the fixed-amount type. *)
Definition custom_service (value scale : Z) : list (pystr * json) :=
  [(u "name", JStr (u "Epilat"));
   (u "customPrice",
     JDict
       [(u "type", JStr (u "Fixed"));
        (u "fixed",
          JDict
            [(u "amount",
               JDict [(u "value", JInt value); (u "scale", JInt scale)])])])].

(** An entry with the value 10^400 and the scale 1. *)
Definition overflow_entry : json :=
  JDict
    [(u "type", JInt 0);
     (u "localStart", JDict [(u "dateStr", JStr (u "2024-01-05"))]);
     (u "payload",
       JDict
         [(u "bookedServices",
            JList [JDict (custom_service (10 ^ 400) 1)])])].

(** The custom price has another type than Fixed, or it has the type
    Fixed and no amount. *)
Definition not_a_fixed_amount (cp : list (pystr * json)) : Prop :=
  eq_str (dict_get cp (u "type") JNull) (u "Fixed") = false
  \/ match assoc (u "fixed") cp with
     | None => True
     | Some (JDict fx) => assoc (u "amount") fx = None
     | Some _ => False
     end.

End ParserSpec.

Module MergeSpec.

Import Store.

(** A captured appointment with a date. *)
Definition dated (a : appointment) : Prop := date a <> [].

(** A row of Raw Data with a date. *)
Definition has_date (r : row) : Prop := row_date r <> [].

(** A captured appointment with a client name and a service name. *)
Definition named (a : appointment) : Prop :=
  client a <> [] /\ service a <> [].

(** The rows of Raw Data that carry a date, which are the rows
    [load_existing_appointments] gives a key. *)
Definition with_date (rows : list row) : list row :=
  List.filter (fun r => match row_date r with [] => false | _ => true end)
    rows.

(** The keys of the sheet. *)
Definition keys_of (rows : list row) : list pystr :=
  List.map row_key (with_date rows).

(** The Raw Data rows that hold the given appointments. *)
Definition sheet_of (l : list appointment) : list row :=
  List.map Daily.raw_data_row l.

(** Two bookings, and a booking without a client name. *)
Definition ana : appointment :=
  {| date := u "2024-01-05"; client := u "Ana Pop"; service := u "Epilat";
     category := u "Epilat"; mega_category := u "Epilare"; price := 150 |}.

Definition ioana : appointment :=
  {| date := u "2024-01-04"; client := u "Ioana Radu"; service := u "Pensat";
     category := u "Pensat"; mega_category := []; price := 60 |}.

Definition walk_in : appointment :=
  {| date := u "2024-01-05"; client := []; service := u "Epilat";
     category := u "Epilat"; mega_category := u "Epilare"; price := 150 |}.

(** The month of a date text that already has the form YYYY-MM-DD. *)
Definition iso_month (d : pystr) : option pystr := Some (firstn 7 d).

(** A month name for the examples: the key itself. *)
Definition plain_name (month : pystr) : option pystr := Some month.

(** [float] on the texts of the examples, none of which is a number. *)
Definition no_number (s : pystr) : option Q := None.

End MergeSpec.

Module TotalsSpec.

Import Totals.
Local Open Scope Q_scope.

(** The summed price of the items filed under [k]. *)
Definition revenue_of (k : pystr) (items : list (pystr * Q)) : Q :=
  Py.Qsum
    (List.map snd (List.filter (fun kp => PyStr.eqb (fst kp) k) items)).

(** The revenue the dictionary holds for [k], 0 for a key it lacks. *)
Fixpoint held (k : pystr) (t : list (pystr * stats)) : Q :=
  match t with
  | [] => 0
  | (k', s) :: t' => if PyStr.eqb k k' then revenue s else held k t'
  end.

(** What the accumulation loop keeps true of the dictionary [t] after
    the items [seen]. *)
Definition summed (seen : list (pystr * Q)) (t : list (pystr * stats)) : Prop :=
  NoDup (List.map fst t)
  /\ (forall k, held k t == revenue_of k seen)
  /\ grand_total_revenue t == Py.Qsum (List.map snd seen).


End TotalsSpec.

Module ReportSpec.

Import Totals.
Local Open Scope Q_scope.

(** Category and price of the rows of Raw Data that carry a date, as
    the daily script reads them; [None] when a fifth cell is no
    number. *)
Definition daily_items (float_text : pystr -> option Q)
    (rows : list Store.row) : option (list (pystr * Q)) :=
  mapM (fun r =>
          p ← Daily.read_price float_text (Store.row_fifth r);
          Some (Store.row_category r, p))
    (MergeSpec.with_date rows).

(** The prices the daily script reads from the rows that carry a
    date. *)
Definition daily_prices (float_text : pystr -> option Q)
    (rows : list Store.row) : option (list Q) :=
  mapM (fun r => Daily.read_price float_text (Store.row_fifth r))
    (MergeSpec.with_date rows).

(** What a successful [rebuild_summary_sheets] has read: for every row
    with a date, in order, its month key, its category and its price. *)
Definition items_read (strptime_month : pystr -> option pystr)
    (float_text : pystr -> option Q) (rows : list Store.row)
    (items : list (pystr * pystr * Q)) : Prop :=
  Forall2
    (fun r i =>
       strptime_month (Store.row_date r) = Some (fst (fst i))
       /\ snd (fst i) = Store.row_category r
       /\ Daily.read_price float_text (Store.row_fifth r) = Some (snd i))
    (MergeSpec.with_date rows) items.

(** An appointment as the historical parser builds it. *)
Definition booking (date name : pystr) (price : Z) : Parser.appt :=
  {| Parser.date := JStr date;
     Parser.service := name;
     Parser.category := Historical.extract_category name;
     Parser.mega_category :=
       Some (Historical.get_mega_category (Historical.extract_category name));
     Parser.price := VJson (JInt price);
     Parser.client := u "Ana Pop" |}.

(** A capture of the historical script: four bookings of three
    categories and two mega-categories. *)
Definition historical_capture : list Parser.appt :=
  [booking (u "2024-01-04") (u "Pensat") 60;
   booking (u "2024-01-05") (u "Epilat scurt") 150;
   booking (u "2024-01-05") (u "Laminare") 100;
   booking (u "2024-02-11") (u "Epilat lung") 90].


End ReportSpec.

Module ForecastSpec.

Import Enhancer.
Local Open Scope Q_scope.

Definition month_of (m : Z) (r : Q) : month_row :=
  {| year_month := {| year := 2024; month := m |};
     monthly_revenue := r;
     monthly_bookings := 40 |}.

(** The nine months of the scenario example of the specification. *)
Definition steady_months : list month_row :=
  [month_of 1 1000; month_of 2 1050; month_of 3 1100; month_of 4 1080;
   month_of 5 1120; month_of 6 1150; month_of 7 1130; month_of 8 1160;
   month_of 9 1180].

(** Six months: three steps of +50%, then two flat steps. *)
Definition ramp_then_flat : list month_row :=
  [month_of 1 1000; month_of 2 1500; month_of 3 2250; month_of 4 3375;
   month_of 5 3375; month_of 6 3375].

Definition ordered (r : forecast_row) : Prop :=
  conservative r <= moderate r /\ moderate r <= optimistic r.

End ForecastSpec.

Module CaptureSpec.

(** A text with no white space at either end. *)
Definition stripped (s : pystr) : Prop :=
  match s with [] => True | c :: _ => isspace c = false end
  /\ match rev s with [] => True | c :: _ => isspace c = false end.

(** What one booked service contributes to an appointment. *)
Definition built_from (str_other : json -> pystr) (cls : pystr -> pystr)
    (mega : option (pystr -> pystr)) (payload : list (pystr * json))
    (date_str : json) (sv : json) (a : Parser.appt) : Prop :=
  exists fields name,
    sv = JDict fields
    /\ dict_get fields (u "name") (JStr []) = JStr name
    /\ Parser.service a = name
    /\ Parser.category a = cls name
    /\ Parser.mega_category a = option_map (fun f => f (cls name)) mega
    /\ Parser.date a = date_str
    /\ Parser.resolve_price fields = Some (Parser.price a)
    /\ Parser.client_name str_other payload = Some (Parser.client a).

(** A calendar of a response: a dictionary whose entries, when it has
    any, are a list. *)
Definition calendar_entries (calendar : json) (entries : list json) : Prop :=
  exists c, calendar = JDict c
            /\ dict_get c (u "entries") (JList []) = JList entries.

(** The appointments an entry adds to the capture. *)
Definition yield (parse : json -> option (list Parser.appt)) (entry : json)
  : list Parser.appt :=
  default [] (parse entry).

(** An entry of type 0, dated 2024-01-05, with one booked service. *)
Definition entry_of (client : list (pystr * json)) (name : pystr) : json :=
  JDict
    [(u "type", JInt 0);
     (u "localStart", JDict [(u "dateStr", JStr (u "2024-01-05"))]);
     (u "payload",
       JDict [(u "client", JDict client);
              (u "bookedServices",
                JList [JDict [(u "name", JStr name);
                              (u "price",
                                JDict [(u "type", JInt 1);
                                       (u "fixed", JInt 80)])]])])].

Definition ana_entry : json :=
  entry_of [(u "firstname", JStr (u " Ana")); (u "lastname", JStr (u "Pop "))]
    (u "Epilat scurt").

(** A response with a break (type 1), an appointment, and a value that
    is no entry at all. *)
Definition sample_response : json :=
  JDict
    [(u "calendars",
       JList
         [JDict [(u "entries",
                   JList [JDict [(u "type", JInt 1)]; ana_entry; JNull])];
          JDict [(u "name", JStr (u "second calendar"))]])].

End CaptureSpec.

Module TaxonomySpec.

(** The ASCII small letters of a text turned into capitals. *)
Definition ascii_upper (s : pystr) : pystr :=
  List.map (fun x => if ((97 <=? x) && (x <=? 122))%N then (x - 32)%N else x) s.

Definition mega_names : list pystr :=
  [u "Spr" ++ [226%N] ++ u "ncene"; u "Epilare"; u "Tratamente"; u "Altele"].

(** The ten category names that the mega-category tables list. *)
Definition listed_categories : list pystr :=
  List.map fst Prepare.mega_category_map.

End TaxonomySpec.

Module AppendSpec.

Import Store.

(** The date of [a] is not after the date of [b]. *)
Definition not_after (a b : appointment) : Prop :=
  PyStr.ltb (date b) (date a) = false.

(** The appointments of one date, in the order of the list. *)
Definition on_date (d : pystr) (l : list appointment) : list appointment :=
  List.filter (fun a => PyStr.eqb (date a) d) l.

(** A later booking of the day of [MergeSpec.ana] and a booking of the
    day before. *)
Definition maria : appointment :=
  {| date := u "2024-01-05"; client := u "Maria Ene"; service := u "Pensat";
     category := u "Pensat"; mega_category := []; price := 60 |}.

Definition elena : appointment :=
  {| date := u "2024-01-03"; client := u "Elena Dinu"; service := u "Peeling";
     category := u "Peeling"; mega_category := []; price := 200 |}.

(** A row whose date cell is not a date. *)
Definition undated_text : row :=
  {| row_date := u "TOTAL"; row_client := []; row_service := [];
     row_category := []; row_fifth := Empty |}.

(** A row of the six columns the historical script writes: its fifth
    cell holds the mega-category. *)
Definition six_column_row : row :=
  {| row_date := u "2024-01-04"; row_client := u "Ioana Radu";
     row_service := u "Pensat"; row_category := u "Pensat";
     row_fifth := Text (Historical.get_mega_category (u "Pensat")) |}.

(** A calendar that accepts the texts of ten characters. *)
Definition ten_chars (d : pystr) : option pystr :=
  if (length d =? 10)%nat then Some (firstn 7 d) else None.

End AppendSpec.

Module RankingSpec.

Import Totals.
Local Open Scope Q_scope.

(** How many items are filed under [k]. *)
Definition occurrences (k : pystr) (items : list (pystr * Q)) : nat :=
  length (List.filter (fun kp => PyStr.eqb (fst kp) k) items).

Definition Zsum (l : list Z) : Z := fold_right Z.add 0%Z l.

(** The rows of a totals sheet built from [items] are ranked: largest
    revenue first, one row for each key that occurs and no other. *)
Definition ranked (items : list (pystr * Q)) (table : list totals_row)
  : Prop :=
  StronglySorted (fun r1 r2 => total_revenue r2 <= total_revenue r1) table
  /\ NoDup (List.map label table)
  /\ forall k, In k (List.map label table) <-> In k (List.map fst items).

(** The counts of a totals sheet built from [items]: each row counts the
    items of its key, at least one; its average times its count is its
    revenue; the counts add up to the number of items. *)
Definition counted (items : list (pystr * Q)) (table : list totals_row)
  : Prop :=
  Forall (fun r =>
            appointments r = Z.of_nat (occurrences (label r) items)
            /\ (1 <= appointments r)%Z
            /\ avg_price r * inject_Z (appointments r) == total_revenue r)
    table
  /\ Zsum (List.map appointments table) = Z.of_nat (length items).

(** The count the dictionary holds for [k], 0 for a key it lacks. *)
Fixpoint held_count (k : pystr) (t : list (pystr * stats)) : Z :=
  match t with
  | [] => 0%Z
  | (k', s) :: t' => if PyStr.eqb k k' then count s else held_count k t'
  end.

End RankingSpec.

Module MonthlySpec.

Import Monthly.

(** Count and revenue of the TOTAL lines of a sheet, top to bottom. *)
Definition total_lines (sheet : list sheet_row) : list (Z * Q) :=
  flat_map (fun r => match r with
                     | TotalRow _ c v => [(c, v)]
                     | _ => []
                     end) sheet.

(** Count and revenue of the category lines of a sheet. *)
Definition category_lines (sheet : list sheet_row) : list (Z * Q) :=
  flat_map (fun r => match r with
                     | CategoryRow _ _ c v _ => [(c, v)]
                     | _ => []
                     end) sheet.

(** Revenue and count held by the whole dictionary of the months. *)
Definition all_revenue (t : list (pystr * list (pystr * Totals.stats))) : Q :=
  Py.Qsum (List.map (fun mc => Totals.grand_total_revenue (snd mc)) t).

Definition all_count (t : list (pystr * list (pystr * Totals.stats))) : Z :=
  RankingSpec.Zsum (List.map (fun mc => total_count (snd mc)) t).

(** A booking of the month after [MergeSpec.ana]. *)
Definition dana : Store.appointment :=
  {| Store.date := u "2024-02-11"; Store.client := u "Dana Ilie";
     Store.service := u "Epilat"; Store.category := u "Epilat";
     Store.mega_category := []; Store.price := 90 |}.

End MonthlySpec.

Module HorizonSpec.

Import Enhancer.

(** The number of a month, counted from year 0. *)
Definition ordinal (ym : yearmonth) : Z := 12 * year ym + month ym.

(** A label with a month from 1 to 12. *)
Definition valid (ym : yearmonth) : Prop := 1 <= month ym <= 12.

(** Nine months with 40 bookings each, the last one with 5. *)
Definition partial_last : list month_row :=
  removelast ForecastSpec.steady_months
  ++ [{| year_month := {| year := 2024; month := 9 |};
         monthly_revenue := 150;
         monthly_bookings := 5 |}].

(** Seven months whose revenue falls by 2% of the first month each
    month. *)
Definition declining : list month_row :=
  List.map (fun m => ForecastSpec.month_of m (inject_Z (1000 - 20 * m)))
    [1; 2; 3; 4; 5; 6; 7].

End HorizonSpec.

Module CookieSpec.

(** The three spellings a browser context accepts. *)
Definition canonical : list json :=
  [JStr (u "Strict"); JStr (u "Lax"); JStr (u "None")].

(** A cookie saved with a lower-case [sameSite]. *)
Definition session_cookie : json :=
  JDict [(u "name", JStr (u "sid")); (u "sameSite", JStr (u "strict"));
         (u "secure", JBool true)].

(** A cookie saved without [sameSite]. *)
Definition plain_cookie : json :=
  JDict [(u "name", JStr (u "lang")); (u "value", JStr (u "ro"))].

End CookieSpec.

Module TierSpec.

Import Clients.

(** The tiers from the lowest to the highest. *)
Definition tier_rank (t : tier) : nat :=
  match t with
  | VIP => 3
  | Regular => 2
  | Occasional => 1
  | NewLow => 0
  end.

(** Total spend of five clients, largest first. *)
Definition five_clients : list Q := [900; 400; 250; 120; 60]%Q.

(** Weekly revenue with one week without bookings. *)
Definition six_weeks : list Q := [300; 450; 0; 380; 410; 520]%Q.

End TierSpec.

(** * Properties *)

(** ** Category classifier *)

Module ClassifierFacts.

Import Classifier ClassifierSpec.

Lemma first_match_some rules name cat :
  first_match rules name = Some cat ->
  exists pre pat post,
    rules = pre ++ (cat, pat) :: post
    /\ Re.search (Re.compile pat) name = true
    /\ (forall c p, In (c, p) pre -> Re.search (Re.compile p) name = false).
Proof.
  induction rules as [|[c p] rest IH]; simpl; [discriminate|].
  destruct (Re.search (Re.compile p) name) eqn:Hs.
  - intros [= <-]. exists [], p, rest. repeat split; auto.
    intros ? ? [].
  - intros H. destruct (IH H) as (pre & pat & post & -> & Hm & Hpre).
    exists ((c, p) :: pre), pat, post. repeat split; auto.
    intros c' p' [[= <- <-]|Hin]; eauto.
Qed.

Lemma first_match_none rules name :
  first_match rules name = None ->
  forall c p, In (c, p) rules -> Re.search (Re.compile p) name = false.
Proof.
  induction rules as [|[c p] rest IH]; simpl; [intros _ ? ? []|].
  destruct (Re.search (Re.compile p) name) eqn:Hs; [discriminate|].
  intros H c' p' [[= <- <-]|Hin]; eauto.
Qed.

Lemma classify_first_rule rules name :
  first_rule rules name (classify rules name).
Proof.
  unfold classify, first_rule.
  destruct (first_match rules name) as [cat|] eqn:Hm.
  - left. destruct (first_match_some _ _ _ Hm) as (pre & pat & post & ? & ? & ?).
    exists pre, cat, pat, post. auto.
  - right. split; [apply first_match_none; exact Hm | reflexivity].
Qed.

Lemma classify_range rules name :
  In (classify rules name) (List.map fst rules ++ [u "Other"]).
Proof.
  unfold classify.
  destruct (first_match rules name) as [cat|] eqn:Hm.
  - destruct (first_match_some _ _ _ Hm) as (pre & pat & post & -> & _ & _).
    apply in_or_app. left. rewrite List.map_app. apply in_or_app. right.
    left. reflexivity.
  - apply in_or_app. right. left. reflexivity.
Qed.

Lemma daily_names_in_set :
  incl (List.map fst Daily.categories ++ [u "Other"]) category_set.
Proof.
  intros c Hc. vm_compute in Hc. vm_compute.
  repeat (destruct Hc as [Hc|Hc]; [subst c; tauto|]). destruct Hc.
Qed.

Lemma historical_names_in_set :
  incl (List.map fst Historical.categories ++ [u "Other"])
       (category_set ++ [u "DermaPen"]).
Proof.
  intros c Hc. vm_compute in Hc. vm_compute.
  repeat (destruct Hc as [Hc|Hc]; [subst c; tauto|]). destruct Hc.
Qed.

Example compile_oxygenera :
  Re.compile (u "Ox[iy]gen[ae]r[ae]|Oxygen")
  = [[Re.Lit 79; Re.Lit 120; Re.Class [105; 121]; Re.Lit 103; Re.Lit 101;
      Re.Lit 110; Re.Class [97; 101]; Re.Lit 114; Re.Class [97; 101]];
     [Re.Lit 79; Re.Lit 120; Re.Lit 121; Re.Lit 103; Re.Lit 101;
      Re.Lit 110]]%N.
Proof. reflexivity. Qed.

Example daily_ignores_case :
  Daily.extract_category (u "PENSAT + vopsit") = u "Pensat"
  /\ Daily.extract_category (u "Tratament oxigenare") = u "Oxygenera"
  /\ Daily.extract_category (u "Masaj") = u "Other".
Proof. repeat split; vm_compute; reflexivity. Qed.

(** U+017F, the long s, is matched by [s] when case is ignored. *)
Example long_s_is_matched :
  Historical.extract_category (u "Pen" ++ [383%N] ++ u "at") = u "Pensat".
Proof. vm_compute. reflexivity. Qed.

Example mega_category_of_pensat :
  Historical.get_mega_category (u "Pensat") = u "Spr" ++ [226%N] ++ u "ncene"
  /\ Historical.get_mega_category (u "Other") = u "Altele".
Proof. split; vm_compute; reflexivity. Qed.

(** C4, as stated, fails for the historical script: a service named
    DermaPen gets the category DermaPen, which is not one of the ten
    names of the taxonomy. *)
Lemma historical_category_outside_taxonomy :
  ~ In (Historical.extract_category (u "DermaPen")) category_set.
Proof.
  vm_compute. intros H.
  repeat (destruct H as [H|H]; [discriminate H|]). exact H.
Qed.

(** C4 (amended): for every service name, both classifiers return the
    category of the first rule of their ordered rule list whose pattern
    is found in the name, and Other when none is found; the daily
    classifier always answers inside the ten-name taxonomy, the
    historical one inside the taxonomy extended with DermaPen. *)
Theorem extract_category_first_rule_and_range (service_name : pystr) :
  first_rule Daily.categories service_name
    (Daily.extract_category service_name)
  /\ In (Daily.extract_category service_name) category_set
  /\ first_rule Historical.categories service_name
       (Historical.extract_category service_name)
  /\ In (Historical.extract_category service_name)
       (category_set ++ [u "DermaPen"]).
Proof.
  unfold Daily.extract_category, Historical.extract_category.
  repeat split.
  - apply classify_first_rule.
  - apply daily_names_in_set, classify_range.
  - apply classify_first_rule.
  - apply historical_names_in_set, classify_range.
Qed.

(** C9: the two classifiers are not equivalent.  On the name ProBrows
    the daily script answers Pensat (its first rule is
    [Pensat|ProBrows]) and the historical one answers ProBrows (its
    first rule is [Pensat] alone and ProBrows is its second rule). *)
Theorem classifiers_disagree :
  Daily.extract_category (u "ProBrows") = u "Pensat"
  /\ Historical.extract_category (u "ProBrows") = u "ProBrows"
  /\ exists service_name,
       Daily.extract_category service_name
       <> Historical.extract_category service_name.
Proof.
  split; [vm_compute; reflexivity|].
  split; [vm_compute; reflexivity|].
  exists (u "ProBrows"). vm_compute. discriminate.
Qed.

End ClassifierFacts.

(** ** Appointment parser *)

Module ParserFacts.

Import Parser ParserSpec.

Lemma to_float_cases (q : Q) :
  ((Qabs q < float_limit)%Q -> to_float q = Some q)
  /\ ((float_limit <= Qabs q)%Q -> to_float q = None).
Proof.
  unfold to_float.
  destruct (Qle_bool float_limit (Qabs q)) eqn:E; split; intros H;
    try reflexivity; exfalso.
  - apply Qle_bool_iff in E. apply (Qlt_not_le _ _ H E).
  - apply Qle_bool_iff in H. congruence.
Qed.

(** A true division of integers gives the quotient when that is within
    the range of the floats, and raises when it is not. *)
Lemma truediv_spec (a b : Z) :
  ((Qabs (inject_Z a / inject_Z b) < float_limit)%Q ->
   exists q, truediv a b = Some q /\ (q == inject_Z a / inject_Z b)%Q)
  /\ ((float_limit <= Qabs (inject_Z a / inject_Z b))%Q ->
      truediv a b = None).
Proof.
  unfold truediv.
  assert (Hr : (Qabs (Qred (inject_Z a / inject_Z b))
                == Qabs (inject_Z a / inject_Z b))%Q)
    by (apply Qabs_wd, Qred_correct).
  split; intros H.
  - eexists. split; [|apply Qred_correct].
    apply to_float_cases. rewrite Hr. exact H.
  - apply to_float_cases. rewrite Hr. exact H.
Qed.

Lemma parse_service_price str_other cls mega payload d fields a :
  parse_service str_other cls mega payload d (JDict fields) = Some a ->
  resolve_price fields = Some (price a).
Proof.
  unfold parse_service. intros H. simplify_option_eq. reflexivity.
Qed.

(** Every appointment of a parsed entry carries the price
    [resolve_price] gives for its booked service. *)
Lemma parse_appointment_prices str_other cls mega entry appts :
  parse_appointment str_other cls mega entry = Some appts ->
  exists payload booked services,
    get entry (u "payload") (JDict []) = Some (JDict payload)
    /\ get (JDict payload) (u "bookedServices") (JList []) = Some booked
    /\ iterate booked = Some services
    /\ Forall2 (fun sv a =>
                  exists fields, sv = JDict fields
                                 /\ resolve_price fields = Some (price a))
         services appts.
Proof.
  unfold parse_appointment. intros H.
  destruct (get entry (u "type") JNull) as [ty|]; [|discriminate].
  cbn [mbind option_bind] in H.
  destruct (negb (eq_int ty 0)); [discriminate|].
  destruct (get entry (u "payload") (JDict [])) as [payload|]; [|discriminate].
  cbn [mbind option_bind] in H.
  destruct (get entry (u "localStart") (JDict [])) as [start|]; [|discriminate].
  cbn [mbind option_bind] in H.
  destruct (get start (u "dateStr") JNull) as [date_str|]; [|discriminate].
  cbn [mbind option_bind] in H.
  destruct (negb (truthy date_str)); [discriminate|].
  destruct (get payload (u "bookedServices") (JList [])) as [booked|] eqn:Hb;
    [|discriminate].
  cbn [mbind option_bind] in H.
  destruct (iterate booked) as [services|] eqn:Hi; [|discriminate].
  cbn [mbind option_bind] in H.
  destruct payload as [| | | | |fields]; try discriminate.
  exists fields, booked, services. repeat split; auto.
  apply mapM_Some_1 in H.
  eapply Forall2_impl; [exact H|].
  intros sv a Hsv. destruct sv as [| | | | |sf]; try discriminate.
  exists sf. split; [reflexivity|]. eapply parse_service_price; eauto.
Qed.

(** C3, as stated, fails: with a custom price that is not of the fixed
    type and a simple fixed price of 100, the specification's precedence
    gives 100 and the parser gives 0. *)
Lemma precedence_fails_on_shadowed_service :
  spec_price_precedence shadowed_service = VJson (JInt 100)
  /\ resolve_price shadowed_service = Some (VJson (JInt 0))
  /\ resolve_price shadowed_service
     <> Some (spec_price_precedence shadowed_service).
Proof.
  split; [vm_compute; reflexivity|].
  split; [vm_compute; reflexivity|].
  vm_compute. discriminate.
Qed.

(** C3 (amended): the price of a booked service is resolved by the keys
    that are present.  With a [customPrice] key: of type Fixed, the price
    is value / 10^scale when scale > 0 and that quotient is within the
    range of the floats, and the value unchanged when scale <= 0; a
    quotient beyond the range of the floats raises, no appointment is
    built for the service and the entry is dropped.  A custom price of
    another type gives the price 0.  Without a [customPrice] key: a
    [price] of type 1 gives its fixed amount (0 when it has none), a
    [price] of another type gives 0, no [price] gives 0.  The example
    entry (value 15000, scale 2) is parsed to one appointment of price
    150 by both scripts, the same entry with the value 10^400 and the
    scale 1 to none. *)
Theorem price_resolution_by_key_presence (fields : list (pystr * json)) :
  (forall cp fx am v sc,
      assoc (u "customPrice") fields = Some (JDict cp) ->
      eq_str (dict_get cp (u "type") JNull) (u "Fixed") = true ->
      assoc (u "fixed") cp = Some (JDict fx) ->
      assoc (u "amount") fx = Some (JDict am) ->
      assoc (u "value") am = Some (JInt v) ->
      assoc (u "scale") am = Some (JInt sc) ->
      (0 < sc ->
       (Qabs (inject_Z v / inject_Z (10 ^ sc)) < float_limit)%Q ->
       exists q, resolve_price fields = Some (VFloat q)
                 /\ (q == inject_Z v / inject_Z (10 ^ sc))%Q)
      /\ (0 < sc ->
          (float_limit <= Qabs (inject_Z v / inject_Z (10 ^ sc)))%Q ->
          resolve_price fields = None
          /\ forall str_other cls mega payload d,
               parse_service str_other cls mega payload d (JDict fields)
               = None)
      /\ (sc <= 0 -> resolve_price fields = Some (VJson (JInt v))))
  /\ (forall cp,
      assoc (u "customPrice") fields = Some (JDict cp) ->
      eq_str (dict_get cp (u "type") JNull) (u "Fixed") = false ->
      resolve_price fields = Some (VJson (JInt 0)))
  /\ (forall pd,
      assoc (u "customPrice") fields = None ->
      assoc (u "price") fields = Some (JDict pd) ->
      resolve_price fields
      = Some (VJson (if eq_int (dict_get pd (u "type") JNull) 1
                     then dict_get pd (u "fixed") (JInt 0)
                     else JInt 0)))
  /\ (assoc (u "customPrice") fields = None ->
      assoc (u "price") fields = None ->
      resolve_price fields = Some (VJson (JInt 0)))
  /\ (forall str_other,
      List.map price
        (default [] (Daily.parse_appointment str_other example_entry))
      = [VFloat 150]
      /\ List.map price
           (default [] (Historical.parse_appointment str_other example_entry))
         = [VFloat 150]
      /\ Daily.parse_appointment str_other overflow_entry = None
      /\ Historical.parse_appointment str_other overflow_entry = None).
Proof.
  repeat apply conj.
  - intros cp fx am v sc Hc Ht Hf Ha Hv Hs.
    assert (Hres : resolve_price fields
                   = (if 0 <? sc
                      then q ← truediv v (10 ^ sc); Some (VFloat q)
                      else Some (VJson (JInt v)))).
    { unfold resolve_price. rewrite Hc. cbn [get mbind option_bind].
      rewrite Ht. unfold dict_get. rewrite Hf. cbn [get mbind option_bind].
      unfold dict_get. rewrite Ha. cbn [get mbind option_bind].
      unfold dict_get. rewrite Hv, Hs. cbn [as_int mbind option_bind].
      reflexivity. }
    rewrite Hres. split; [|split]; intros Hsc.
    + intros Hin. apply Z.ltb_lt in Hsc. rewrite Hsc.
      destruct (proj1 (truediv_spec v (10 ^ sc)) Hin) as (q & -> & Hq).
      exists q. split; [reflexivity|exact Hq].
    + intros Hout. apply Z.ltb_lt in Hsc. rewrite Hsc in *.
      rewrite (proj2 (truediv_spec v (10 ^ sc)) Hout) in *.
      split; [reflexivity|].
      intros str_other cls mega payload d. unfold parse_service.
      cbn [get mbind option_bind]. rewrite Hres. reflexivity.
    + apply Z.ltb_ge in Hsc. rewrite Hsc. reflexivity.
  - intros cp Hc Ht. unfold resolve_price. rewrite Hc.
    cbn [get mbind option_bind]. rewrite Ht. reflexivity.
  - intros pd Hc Hp. unfold resolve_price. rewrite Hc, Hp.
    cbn [get mbind option_bind].
    destruct (eq_int (dict_get pd (u "type") JNull) 1); reflexivity.
  - intros Hc Hp. unfold resolve_price. rewrite Hc, Hp. reflexivity.
  - intros str_other. repeat split; vm_compute; reflexivity.
Qed.

Lemma price_resolution_by_key_presence_witness :
  (exists q, resolve_price (custom_service 15000 2) = Some (VFloat q)
             /\ (q == 150)%Q)
  /\ resolve_price (custom_service (10 ^ 400) 1) = None
  /\ resolve_price shadowed_service = Some (VJson (JInt 0)).
Proof.
  split; [|split].
  - destruct (price_resolution_by_key_presence (custom_service 15000 2))
      as (H & _).
    pose proof (H [(u "type", JStr (u "Fixed"));
                   (u "fixed",
                     JDict [(u "amount",
                              JDict [(u "value", JInt 15000);
                                     (u "scale", JInt 2)])])]
                  [(u "amount",
                     JDict [(u "value", JInt 15000); (u "scale", JInt 2)])]
                  [(u "value", JInt 15000); (u "scale", JInt 2)]
                  15000 2 eq_refl eq_refl eq_refl eq_refl eq_refl eq_refl)
      as (Hin & _).
    destruct Hin as (q & Hq & Hv); [lia|vm_compute; reflexivity|].
    exists q. split; [exact Hq|]. rewrite Hv. vm_compute. reflexivity.
  - destruct (price_resolution_by_key_presence
                (custom_service (10 ^ 400) 1)) as (H & _).
    pose proof (H [(u "type", JStr (u "Fixed"));
                   (u "fixed",
                     JDict [(u "amount",
                              JDict [(u "value", JInt (10 ^ 400));
                                     (u "scale", JInt 1)])])]
                  [(u "amount",
                     JDict [(u "value", JInt (10 ^ 400));
                            (u "scale", JInt 1)])]
                  [(u "value", JInt (10 ^ 400)); (u "scale", JInt 1)]
                  (10 ^ 400) 1 eq_refl eq_refl eq_refl eq_refl eq_refl
                  eq_refl)
      as (_ & Hout & _).
    apply Hout; [lia|vm_compute; discriminate].
  - destruct (price_resolution_by_key_presence shadowed_service)
      as (_ & H & _).
    apply (H [(u "type", JStr (u "Percent"))]); reflexivity.
Defined.

(** C10: the price branch is chosen by the presence of the
    [customPrice] key.  When that key holds a dictionary that is not a
    fixed amount, the price is 0 whatever the [price] field says, in
    [resolve_price] and in every appointment the parser builds for the
    service; and with the key present the result does not depend on the
    rest of the service, so the simple-price branch is reached only
    when the key is absent. *)
Theorem custom_price_key_shadows_simple_price
    (fields cp : list (pystr * json)) :
  assoc (u "customPrice") fields = Some (JDict cp) ->
  not_a_fixed_amount cp ->
  resolve_price fields = Some (VJson (JInt 0))
  /\ (forall str_other cls mega payload d a,
        parse_service str_other cls mega payload d (JDict fields) = Some a ->
        price a = VJson (JInt 0))
  /\ (forall fields',
        assoc (u "customPrice") fields' = Some (JDict cp) ->
        resolve_price fields' = resolve_price fields).
Proof.
  intros Hc Hn.
  assert (Hind : forall f, assoc (u "customPrice") f = Some (JDict cp) ->
                 resolve_price f = Some (VJson (JInt 0))).
  { intros f Hf. unfold resolve_price. rewrite Hf.
    cbn [get mbind option_bind].
    destruct (eq_str (dict_get cp (u "type") JNull) (u "Fixed")) eqn:Ht;
      [|reflexivity].
    destruct Hn as [Hn|Hn]; [congruence|].
    unfold dict_get at 1.
    destruct (assoc (u "fixed") cp) as [[| | | | |fx]|]; try contradiction.
    - cbn [get mbind option_bind]. unfold dict_get. rewrite Hn. reflexivity.
    - reflexivity. }
  split; [auto|]. split.
  - intros str_other cls mega payload d a Ha.
    apply parse_service_price in Ha. rewrite (Hind _ Hc) in Ha.
    congruence.
  - intros fields' Hf. rewrite (Hind _ Hc), (Hind _ Hf). reflexivity.
Qed.

Lemma custom_price_key_shadows_simple_price_witness :
  resolve_price shadowed_service = Some (VJson (JInt 0))
  /\ spec_simple_price shadowed_service = VJson (JInt 100).
Proof.
  split; [|reflexivity].
  refine (proj1 (custom_price_key_shadows_simple_price shadowed_service
                   [(u "type", JStr (u "Percent"))] _ _)).
  - reflexivity.
  - left. reflexivity.
Defined.

(** Every appointment of a parsed entry carries the entry's date, and
    that date is truthy: an entry without one yields nothing. *)
Lemma parse_appointment_dated str_other cls mega entry appts :
  parse_appointment str_other cls mega entry = Some appts ->
  Forall (fun a => truthy (date a) = true) appts.
Proof.
  unfold parse_appointment. intros H.
  destruct (get entry (u "type") JNull) as [ty|]; [|discriminate].
  cbn [mbind option_bind] in H.
  destruct (negb (eq_int ty 0)); [discriminate|].
  destruct (get entry (u "payload") (JDict [])) as [payload|]; [|discriminate].
  cbn [mbind option_bind] in H.
  destruct (get entry (u "localStart") (JDict [])) as [start|]; [|discriminate].
  cbn [mbind option_bind] in H.
  destruct (get start (u "dateStr") JNull) as [date_str|]; [|discriminate].
  cbn [mbind option_bind] in H.
  destruct (truthy date_str) eqn:Ht; [|discriminate].
  cbn [negb] in H.
  destruct (get payload (u "bookedServices") (JList [])) as [booked|];
    [|discriminate].
  cbn [mbind option_bind] in H.
  destruct (iterate booked) as [services|]; [|discriminate].
  cbn [mbind option_bind] in H.
  destruct payload as [| | | | |fields]; try discriminate.
  apply mapM_Some_1 in H.
  induction H as [|sv a svs appts Hsv _ IH]; constructor; [|exact IH].
  unfold parse_service in Hsv. destruct sv; try discriminate.
  simplify_option_eq. exact Ht.
Qed.

End ParserFacts.

(** ** Sorting *)

Module PyFacts.

Lemma insert_sorted_perm {A} (before : A -> A -> bool) a l :
  Permutation (Py.insert_sorted before a l) (a :: l).
Proof.
  induction l as [|b l IH]; simpl; [reflexivity|].
  destruct (before b a); [|reflexivity].
  rewrite IH. apply perm_swap.
Qed.

Lemma sorted_perm {A} (before : A -> A -> bool) l :
  Permutation (Py.sorted before l) l.
Proof.
  induction l as [|a l IH]; simpl; [reflexivity|].
  rewrite insert_sorted_perm. constructor. exact IH.
Qed.

Lemma sorted_length {A} (before : A -> A -> bool) l :
  length (Py.sorted before l) = length l.
Proof. apply Permutation_length, sorted_perm. Qed.

Section SortedOrder.
Context {A : Type} (before : A -> A -> bool).

(** [x] may stand ahead of [y]. *)
Let ahead (x y : A) : Prop := before y x = false.

Hypothesis before_asym : forall x y, before x y = true -> before y x = false.
Hypothesis ahead_trans : forall x y z, ahead x y -> ahead y z -> ahead x z.

Lemma insert_sorted_sorted a l :
  StronglySorted ahead l -> StronglySorted ahead (Py.insert_sorted before a l).
Proof.
  induction 1 as [|b l Hs IH Hb]; simpl.
  - repeat constructor.
  - destruct (before b a) eqn:Hba.
    + constructor; [exact IH|].
      eapply Permutation_Forall;
        [symmetry; apply insert_sorted_perm|].
      constructor; [apply before_asym, Hba|exact Hb].
    + constructor; [constructor; assumption|].
      constructor; [exact Hba|].
      eapply Forall_impl; [exact Hb|].
      intros y Hy. exact (ahead_trans a b y Hba Hy).
Qed.

Lemma sorted_sorted l : StronglySorted ahead (Py.sorted before l).
Proof.
  induction l as [|a l IH]; simpl; [constructor|].
  apply insert_sorted_sorted, IH.
Qed.

End SortedOrder.

(** The values [median] picks from are in ascending order. *)
Lemma sorted_Qltb_ascending (l : list Q) :
  StronglySorted Qle (Py.sorted Py.Qltb l).
Proof.
  assert (H : StronglySorted (fun x y => Py.Qltb y x = false)
                (Py.sorted Py.Qltb l)).
  { apply sorted_sorted.
    - intros x y. unfold Py.Qltb.
      rewrite negb_true_iff, negb_false_iff, <- not_true_iff_false,
        !Qle_bool_iff.
      intros Hxy. apply Qlt_le_weak, Qnot_le_lt, Hxy.
    - intros x y z. unfold Py.Qltb.
      rewrite !negb_false_iff, !Qle_bool_iff. apply Qle_trans. }
  induction H as [|x k _ IH Hx]; constructor; [exact IH|].
  eapply Forall_impl; [exact Hx|].
  intros y. unfold Py.Qltb. rewrite negb_false_iff, Qle_bool_iff. tauto.
Qed.

End PyFacts.

(** ** Deduplication and merge *)

Module MergeFacts.

Import Store MergeSpec.

Lemma elem_of_load_existing rows k :
  k ∈ Daily.load_existing_appointments rows <-> In k (keys_of rows).
Proof.
  unfold keys_of, with_date. induction rows as [|r rows IH]; simpl.
  - split; [set_solver|]. intros [].
  - destruct (row_date r) eqn:Hd.
    + exact IH.
    + rewrite elem_of_union, elem_of_singleton, IH. simpl.
      split; intros [H|H]; auto.
Qed.

Lemma In_new_appointments keys captured a :
  In a (Daily.new_appointments keys captured)
  <-> In a captured /\ key a ∉ keys.
Proof.
  unfold Daily.new_appointments. rewrite filter_In, bool_decide_eq_true.
  reflexivity.
Qed.

Lemma new_appointments_fresh keys a captured :
  key a ∉ keys ->
  Daily.new_appointments keys (a :: captured)
  = a :: Daily.new_appointments keys captured.
Proof.
  intros H. unfold Daily.new_appointments. cbn [List.filter].
  rewrite (bool_decide_eq_true_2 _ H). reflexivity.
Qed.

Lemma NoDup_keys_filter (f : appointment -> bool) l :
  NoDup (List.map key l) -> NoDup (List.map key (List.filter f l)).
Proof.
  induction l as [|a l IH]; simpl; [auto|].
  rewrite NoDup_cons. intros [Hn Hl].
  destruct (f a); simpl; [|auto].
  apply NoDup_cons. split; [|auto].
  rewrite list_elem_of_In, in_map_iff in *.
  intros (b & Hk & Hb). apply Hn. exists b. split; [auto|].
  apply filter_In in Hb. tauto.
Qed.

Lemma fstring_text (s : pystr) : s <> [] -> fstring s = s.
Proof. destruct s; [congruence|reflexivity]. Qed.

(** The row saved for an appointment with a date, a client name and a
    service name is read back with the key of the appointment. *)
Lemma row_key_raw_data_row (a : appointment) :
  dated a -> named a -> row_key (Daily.raw_data_row a) = key a.
Proof.
  intros Hd [Hc Hs]. unfold row_key, key. cbn [Daily.raw_data_row
    row_date row_client row_service].
  rewrite !fstring_text; auto.
Qed.

Lemma keys_of_app rows rows' : keys_of (rows ++ rows') = keys_of rows ++ keys_of rows'.
Proof.
  unfold keys_of, with_date. rewrite List.filter_app, List.map_app.
  reflexivity.
Qed.

(** The keys of the rows saved for named appointments are the keys of
    those that have a date. *)
Lemma In_keys_of_saved (l : list appointment) k :
  Forall named l ->
  In k (keys_of (List.map Daily.raw_data_row l))
  <-> exists a, In a l /\ dated a /\ key a = k.
Proof.
  intros Hn. unfold keys_of, with_date.
  rewrite in_map_iff. split.
  - intros (r & <- & Hr). apply filter_In in Hr. destruct Hr as [Hr Hd].
    apply in_map_iff in Hr. destruct Hr as (a & <- & Ha).
    assert (Hda : dated a).
    { unfold dated. cbn [Daily.raw_data_row row_date] in Hd.
      destruct (date a); [discriminate|discriminate]. }
    exists a. repeat split; auto.
    symmetry. apply row_key_raw_data_row; auto.
    rewrite Forall_forall in Hn. apply Hn, list_elem_of_In, Ha.
  - intros (a & Ha & Hd & <-). exists (Daily.raw_data_row a). split.
    + apply row_key_raw_data_row; auto.
      rewrite Forall_forall in Hn. apply Hn, list_elem_of_In, Ha.
    + apply filter_In. split; [apply in_map, Ha|].
      cbn [Daily.raw_data_row row_date]. unfold dated in Hd.
      destruct (date a); [congruence|reflexivity].
Qed.

Lemma keys_of_saved (l : list appointment) :
  Forall named l ->
  keys_of (List.map Daily.raw_data_row l)
  = List.map key
      (List.filter (fun a => match date a with [] => false | _ => true end) l).
Proof.
  intros Hn. unfold keys_of, with_date.
  induction Hn as [|a l Ha _ IH]; [reflexivity|].
  cbn [List.map List.filter Daily.raw_data_row row_date].
  destruct (date a) eqn:Hd; [exact IH|].
  cbn [List.map]. rewrite IH. f_equal.
  apply (row_key_raw_data_row a); [|exact Ha].
  unfold dated. rewrite Hd. discriminate.
Qed.

(** Appending named appointments whose keys are new and distinct keeps
    the keys of the sheet distinct. *)
Lemma append_raw_data_NoDup rows new :
  NoDup (keys_of rows) ->
  NoDup (List.map key new) ->
  Forall named new ->
  (forall a, In a new -> ~ In (key a) (keys_of rows)) ->
  NoDup (keys_of (Daily.append_raw_data rows new)).
Proof.
  intros Hr Hn Hnamed Hfresh. unfold Daily.append_raw_data.
  set (srt := Py.sorted _ new).
  assert (Hperm : Permutation srt new) by apply PyFacts.sorted_perm.
  assert (Hnamed' : Forall named srt).
  { rewrite Forall_forall in *. intros a Ha. apply Hnamed.
    apply list_elem_of_In. eapply Permutation_in; [exact Hperm|].
    apply list_elem_of_In, Ha. }
  rewrite keys_of_app. apply NoDup_app. repeat split.
  - exact Hr.
  - intros k Hk Hk'. rewrite list_elem_of_In in Hk, Hk'.
    apply (In_keys_of_saved srt k Hnamed') in Hk'.
    destruct Hk' as (a & Ha & _ & <-).
    apply (Hfresh a); [|exact Hk].
    eapply Permutation_in; [exact Hperm|exact Ha].
  - rewrite (keys_of_saved srt Hnamed'). apply NoDup_keys_filter.
    eapply NoDup_Permutation_proper; [|exact Hn].
    apply Permutation_map, Hperm.
Qed.

(** C1, as stated, fails: the sheet has distinct keys, the captured
    sequence holds the same appointment twice, and the sheet after the
    run holds it twice. *)
Lemma duplicate_capture_breaks_uniqueness :
  NoDup (keys_of (sheet_of [ioana]))
  /\ Daily.run iso_month plain_name no_number (sheet_of [ioana]) [ana; ana]
     = sheet_of [ioana; ana; ana]
  /\ ~ NoDup
         (keys_of
            (Daily.run iso_month plain_name no_number (sheet_of [ioana])
               [ana; ana])).
Proof.
  assert (Hrun : Daily.run iso_month plain_name no_number (sheet_of [ioana])
                   [ana; ana]
                 = sheet_of [ioana; ana; ana]).
  { unfold Daily.run.
    assert (Hk : key ana ∉ Daily.load_existing_appointments (sheet_of [ioana])).
    { rewrite elem_of_load_existing. vm_compute.
      intros [H|[]]. discriminate. }
    rewrite !(new_appointments_fresh _ _ _ Hk).
    change (Daily.new_appointments _ []) with (@nil appointment).
    vm_compute. reflexivity. }
  split.
  - vm_compute. apply NoDup_singleton.
  - split; [exact Hrun|]. rewrite Hrun. vm_compute.
    rewrite !NoDup_cons. intros (_ & Hn & _). apply Hn. left.
Qed.

(** C1 (amended): when the keys of the sheet are distinct, the keys of
    the captured appointments are distinct and every captured
    appointment has a client name and a service name, the sheet after
    the run (the captured appointments with a new key appended in date
    order, or the sheet unchanged) still has distinct keys. *)
Theorem run_keeps_keys_distinct
    (strptime_month month_name : pystr -> option pystr)
    (float_text : pystr -> option Q)
    (rows : list row) (captured : list appointment) :
  NoDup (keys_of rows) ->
  NoDup (List.map key captured) ->
  Forall named captured ->
  NoDup
    (keys_of (Daily.run strptime_month month_name float_text rows captured)).
Proof.
  intros Hrows Hcap Hnamed. unfold Daily.run.
  set (new := Daily.new_appointments _ captured).
  assert (Happ : NoDup (keys_of (Daily.append_raw_data rows new))).
  { apply append_raw_data_NoDup; auto.
    - apply NoDup_keys_filter. exact Hcap.
    - rewrite Forall_forall in *. intros a Ha. apply Hnamed.
      apply list_elem_of_In. apply list_elem_of_In in Ha.
      apply In_new_appointments in Ha. tauto.
    - intros a Ha Hk. apply In_new_appointments in Ha.
      destruct Ha as [_ Ha]. apply Ha, elem_of_load_existing, Hk. }
  unfold Daily.update_excel_file. destruct new as [|a new']; [exact Hrows|].
  destruct (Daily.rebuild_summary_sheets _ _ _ _); simpl; auto.
Qed.

Lemma run_keeps_keys_distinct_witness :
  Daily.run iso_month plain_name no_number (sheet_of [ioana]) [ana]
  = sheet_of [ioana; ana]
  /\ NoDup
       (keys_of
          (Daily.run iso_month plain_name no_number (sheet_of [ioana]) [ana])).
Proof.
  split.
  - unfold Daily.run.
    assert (Hk : key ana ∉ Daily.load_existing_appointments (sheet_of [ioana])).
    { rewrite elem_of_load_existing. vm_compute.
      intros [H|[]]. discriminate. }
    rewrite (new_appointments_fresh _ _ _ Hk).
    change (Daily.new_appointments _ []) with (@nil appointment).
    vm_compute. reflexivity.
  - apply run_keeps_keys_distinct.
    + vm_compute. apply NoDup_singleton.
    + apply NoDup_singleton.
    + repeat constructor; discriminate.
Defined.

Lemma new_appointments_nil keys captured :
  (forall a, In a captured -> key a ∈ keys) ->
  Daily.new_appointments keys captured = [].
Proof.
  intros H.
  destruct (Daily.new_appointments keys captured) as [|a l] eqn:Hm;
    [reflexivity|].
  exfalso.
  assert (Ha : In a (a :: l)) by (left; reflexivity).
  rewrite <- Hm in Ha. apply In_new_appointments in Ha.
  destruct Ha as [Hin Hnot]. apply Hnot, H, Hin.
Qed.

(** Run after run: once a run has saved the sheet, the next run over
    the same captured appointments, when they have a date, a client
    name and a service name, finds nothing new. *)
Lemma second_run_finds_nothing strptime_month month_name float_text
    rows captured rows' :
  Forall dated captured ->
  Forall named captured ->
  Daily.update_excel_file strptime_month month_name float_text rows
    (Daily.new_appointments (Daily.load_existing_appointments rows) captured)
  = Some rows' ->
  Daily.new_appointments (Daily.load_existing_appointments rows') captured
  = [].
Proof.
  intros Hd Hn. unfold Daily.update_excel_file.
  set (keys := Daily.load_existing_appointments rows).
  destruct (Daily.new_appointments keys captured) as [|a new'] eqn:Hnew.
  - intros [= <-]. exact Hnew.
  - intros H. apply bind_Some in H. destruct H as (_ & _ & [= <-]).
    apply new_appointments_nil. intros b Hin.
    apply elem_of_load_existing. unfold Daily.append_raw_data.
    rewrite keys_of_app. apply in_or_app.
    destruct (decide (key b ∈ keys)) as [Hk|Hk].
    + left. apply elem_of_load_existing, Hk.
    + right. rewrite <- Hnew.
      set (srt := Py.sorted _ (Daily.new_appointments keys captured)).
      assert (Hperm : Permutation srt (Daily.new_appointments keys captured))
        by apply PyFacts.sorted_perm.
      assert (Hb : In b srt).
      { eapply Permutation_in; [symmetry; exact Hperm|].
        apply In_new_appointments. auto. }
      rewrite Forall_forall in Hd, Hn.
      apply In_keys_of_saved.
      * apply Forall_forall. intros c Hc. apply Hn.
        apply list_elem_of_In.
        assert (Hc' : In c (Daily.new_appointments keys captured)).
        { eapply Permutation_in; [exact Hperm|].
          apply list_elem_of_In, Hc. }
        apply In_new_appointments in Hc'. tauto.
      * exists b. repeat split; [exact Hb|].
        apply Hd, list_elem_of_In, Hin.
Qed.

(** C2 fails on a booking without a client name.  The row saved for it
    has an empty client cell, which is read back as [None] and keyed
    with the text None: the second merge takes the booking for a new
    one, and a second run appends it again. *)
Theorem walk_in_is_appended_again :
  List.map Parser.client
    (default []
       (Daily.parse_appointment (fun _ => [])
          (CaptureSpec.entry_of [] (u "Epilat"))))
  = [[]]
  /\ (let keys := Daily.load_existing_appointments (sheet_of [ioana]) in
      Daily.new_appointments keys [walk_in] = [walk_in]
      /\ Daily.new_appointments
           (keys ∪ Daily.load_existing_appointments
                     (sheet_of (Daily.new_appointments keys [walk_in])))
           [walk_in]
         = [walk_in])
  /\ Daily.run iso_month plain_name no_number (sheet_of [ioana]) [walk_in]
     = sheet_of [ioana; walk_in]
  /\ Daily.run iso_month plain_name no_number
       (Daily.run iso_month plain_name no_number (sheet_of [ioana]) [walk_in])
       [walk_in]
     = sheet_of [ioana; walk_in; walk_in].
Proof.
  assert (Hk : key walk_in
               ∉ Daily.load_existing_appointments (sheet_of [ioana])).
  { rewrite elem_of_load_existing. vm_compute. intros [H|[]]. discriminate. }
  assert (Hk' : key walk_in
                ∉ Daily.load_existing_appointments
                    (sheet_of [ioana; walk_in])).
  { rewrite elem_of_load_existing. vm_compute.
    intros [H|[H|[]]]; discriminate. }
  assert (Hnew : Daily.new_appointments
                   (Daily.load_existing_appointments (sheet_of [ioana]))
                   [walk_in] = [walk_in]).
  { rewrite (new_appointments_fresh _ _ _ Hk). reflexivity. }
  assert (Hrun : Daily.run iso_month plain_name no_number (sheet_of [ioana])
                   [walk_in]
                 = sheet_of [ioana; walk_in]).
  { unfold Daily.run. rewrite Hnew. vm_compute. reflexivity. }
  split; [vm_compute; reflexivity|].
  split; [|split].
  - cbv zeta. split; [exact Hnew|]. rewrite Hnew.
    apply new_appointments_fresh.
    rewrite elem_of_union. intros [H|H]; [exact (Hk H)|].
    rewrite elem_of_load_existing in H. vm_compute in H.
    destruct H as [H|[]]. discriminate.
  - exact Hrun.
  - rewrite Hrun. unfold Daily.run.
    rewrite (new_appointments_fresh _ _ _ Hk').
    change (Daily.new_appointments _ []) with (@nil appointment).
    vm_compute. reflexivity.
Qed.

End MergeFacts.

(** ** Sums and rounding *)

Module NumFacts.

Local Open Scope Q_scope.

Lemma fold_left_Qplus_acc (l : list Q) (a : Q) :
  fold_left Qplus l a == a + fold_left Qplus l 0.
Proof.
  revert a. induction l as [|x l IH]; intros a; simpl.
  - lra.
  - rewrite (IH (a + x)), (IH (0 + x)). lra.
Qed.

Lemma Qsum_cons (x : Q) (l : list Q) : Py.Qsum (x :: l) == x + Py.Qsum l.
Proof.
  unfold Py.Qsum. simpl. rewrite fold_left_Qplus_acc. lra.
Qed.

Lemma Qsum_nil : Py.Qsum [] == 0.
Proof. reflexivity. Qed.

Lemma Qsum_app (l k : list Q) : Py.Qsum (l ++ k) == Py.Qsum l + Py.Qsum k.
Proof.
  induction l as [|x l IH]; simpl.
  - rewrite Qsum_nil. lra.
  - rewrite !Qsum_cons, IH. lra.
Qed.

Lemma Qsum_perm (l k : list Q) : Permutation l k -> Py.Qsum l == Py.Qsum k.
Proof.
  induction 1 as [|x l k _ IH|x y l|l k m _ IH1 _ IH2].
  - reflexivity.
  - rewrite !Qsum_cons, IH. reflexivity.
  - rewrite !Qsum_cons. lra.
  - rewrite IH1. exact IH2.
Qed.





Lemma round_half_even_mono (x y : Q) :
  x <= y -> (Py.round_half_even x <= Py.round_half_even y)%Z.
Proof.
  intros Hxy.
  assert (Hf := Qfloor_resp_le _ _ Hxy).
  assert (Hx : (Qfloor x <= Py.round_half_even x <= Qfloor x + 1)%Z).
  { unfold Py.round_half_even.
    destruct (_ ?= _); [destruct (Z.even _)| |]; lia. }
  assert (Hy : (Qfloor y <= Py.round_half_even y <= Qfloor y + 1)%Z).
  { unfold Py.round_half_even.
    destruct (_ ?= _); [destruct (Z.even _)| |]; lia. }
  destruct (Z.eq_dec (Qfloor x) (Qfloor y)) as [Heq|Hne]; [|lia].
  clear Hx Hy Hf. unfold Py.round_half_even. rewrite <- Heq.
  destruct (x - inject_Z (Qfloor x) ?= 1 # 2) eqn:Hcx;
    destruct (y - inject_Z (Qfloor x) ?= 1 # 2) eqn:Hcy;
    try (destruct (Z.even (Qfloor x))); try lia; exfalso;
    repeat match goal with
      | H : (_ ?= _) = Eq |- _ => apply Qeq_alt in H
      | H : (_ ?= _) = Lt |- _ => apply Qlt_alt in H
      | H : (_ ?= _) = Gt |- _ => apply Qgt_alt in H
      end; lra.
Qed.

Lemma pow10_pos (n : nat) : 0 < inject_Z (10 ^ Z.of_nat n).
Proof.
  change 0 with (inject_Z 0). rewrite <- Zlt_Qlt.
  apply Z.pow_pos_nonneg; lia.
Qed.

Lemma round_dp_mono (n : nat) (x y : Q) :
  x <= y -> Py.round_dp n x <= Py.round_dp n y.
Proof.
  intros Hxy. unfold Py.round_dp.
  assert (Hp := pow10_pos n).
  apply Qmult_le_compat_r.
  - rewrite <- Zle_Qle. apply round_half_even_mono.
    apply Qmult_le_compat_r; [exact Hxy|lra].
  - apply Qlt_le_weak, Qinv_lt_0_compat. exact Hp.
Qed.


Lemma round_dp_zero (n : nat) : Py.round_dp n 0 == 0.
Proof.
  unfold Py.round_dp.
  change (Py.round_half_even (0 * inject_Z (10 ^ Z.of_nat n))) with 0%Z.
  assert (Hp := pow10_pos n). field. lra.
Qed.

End NumFacts.

(** ** Category totals and the percentage column *)

Module TotalsFacts.

Import Totals NumFacts TotalsSpec.
Local Open Scope Q_scope.

Lemma eqb_eq (a b : pystr) : PyStr.eqb a b = true <-> a = b.
Proof.
  revert b. induction a as [|x a IH]; intros [|y b]; simpl;
    try (split; [discriminate|discriminate]); [tauto|].
  rewrite andb_true_iff, N.eqb_eq, IH. split.
  - intros [-> ->]. reflexivity.
  - intros [= -> ->]. auto.
Qed.

Lemma eqb_refl (a : pystr) : PyStr.eqb a a = true.
Proof. apply eqb_eq. reflexivity. Qed.

Lemma held_bump k' k p t :
  held k' (bump k p t) == held k' t + (if PyStr.eqb k k' then p else 0).
Proof.
  induction t as [|[k0 s] t IH]; simpl.
  - destruct (PyStr.eqb k k') eqn:E.
    + apply eqb_eq in E. subst k'. rewrite eqb_refl. simpl. lra.
    + destruct (PyStr.eqb k' k) eqn:E'; [|lra].
      apply eqb_eq in E'. subst k'. rewrite eqb_refl in E. discriminate.
  - destruct (PyStr.eqb k k0) eqn:E0; simpl.
    + apply eqb_eq in E0. subst k0.
      destruct (PyStr.eqb k' k) eqn:E'.
      * apply eqb_eq in E'. subst k'. rewrite eqb_refl. simpl. lra.
      * destruct (PyStr.eqb k k') eqn:E''; [|lra].
        apply eqb_eq in E''. subst k'. rewrite eqb_refl in E'. discriminate.
    + destruct (PyStr.eqb k' k0) eqn:E'; [|exact IH].
      apply eqb_eq in E'. subst k'. rewrite E0. lra.
Qed.

Lemma keys_bump k p t :
  List.map fst (bump k p t)
  = if existsb (PyStr.eqb k) (List.map fst t)
    then List.map fst t else List.map fst t ++ [k].
Proof.
  induction t as [|[k0 s] t IH]; simpl; [reflexivity|].
  destruct (PyStr.eqb k k0); simpl; [reflexivity|].
  rewrite IH. destruct (existsb _ _); reflexivity.
Qed.

Lemma NoDup_bump k p t :
  NoDup (List.map fst t) -> NoDup (List.map fst (bump k p t)).
Proof.
  intros H. rewrite keys_bump.
  destruct (existsb (PyStr.eqb k) (List.map fst t)) eqn:E; [exact H|].
  apply NoDup_app. repeat split; [exact H| |apply NoDup_singleton].
  intros x Hx Hk. apply list_elem_of_singleton in Hk. subst x.
  assert (existsb (PyStr.eqb k) (List.map fst t) = true); [|congruence].
  apply existsb_exists. exists k. split; [|apply eqb_refl].
  apply list_elem_of_In. exact Hx.
Qed.

Lemma grand_bump k p t :
  grand_total_revenue (bump k p t) == grand_total_revenue t + p.
Proof.
  unfold grand_total_revenue. induction t as [|[k0 s] t IH]; simpl.
  - rewrite Qsum_cons, !Qsum_nil. simpl. lra.
  - destruct (PyStr.eqb k k0); simpl; rewrite !Qsum_cons; simpl.
    + lra.
    + rewrite IH. lra.
Qed.

Lemma revenue_of_snoc k items kp :
  revenue_of k (items ++ [kp])
  == revenue_of k items + (if PyStr.eqb (fst kp) k then snd kp else 0).
Proof.
  unfold revenue_of. rewrite List.filter_app, List.map_app, Qsum_app. simpl.
  destruct (PyStr.eqb (fst kp) k); simpl.
  - rewrite Qsum_cons, Qsum_nil. lra.
  - rewrite Qsum_nil. lra.
Qed.

Lemma summed_step seen t kp :
  summed seen t -> summed (seen ++ [kp]) (bump (fst kp) (snd kp) t).
Proof.
  intros (Hn & Hh & Hg). repeat split.
  - apply NoDup_bump, Hn.
  - intros k. rewrite held_bump, revenue_of_snoc, Hh. reflexivity.
  - rewrite grand_bump, List.map_app, Qsum_app, Hg. simpl.
    rewrite Qsum_cons, Qsum_nil. lra.
Qed.

Lemma summed_fold items seen t :
  summed seen t ->
  summed (seen ++ items)
    (fold_left (fun t kp => bump (fst kp) (snd kp) t) items t).
Proof.
  revert seen t. induction items as [|kp items IH]; intros seen t H; simpl.
  - rewrite app_nil_r. exact H.
  - replace (seen ++ kp :: items) with ((seen ++ [kp]) ++ items)
      by (rewrite <- app_assoc; reflexivity).
    apply IH, summed_step, H.
Qed.

Lemma summed_accumulate items : summed items (accumulate items).
Proof.
  apply (summed_fold items [] []). repeat split. constructor.
Qed.


Lemma Qltb_lt (a b : Q) : Py.Qltb a b = true <-> a < b.
Proof.
  unfold Py.Qltb. rewrite negb_true_iff, <- not_true_iff_false, Qle_bool_iff.
  split; [apply Qnot_le_lt|apply Qlt_not_le].
Qed.

Lemma Qltb_ge (a b : Q) : Py.Qltb a b = false <-> b <= a.
Proof.
  unfold Py.Qltb. rewrite negb_false_iff, Qle_bool_iff. reflexivity.
Qed.


End TotalsFacts.

(** ** The Category Totals sheets of the two scripts *)

Module ReportFacts.

Import Totals TotalsSpec TotalsFacts MergeSpec ReportSpec.
Local Open Scope Q_scope.

Lemma rebuild_summary_sheets_inv strptime_month month_name float_text
    rows sheet table :
  Daily.rebuild_summary_sheets strptime_month month_name float_text rows
  = Some (sheet, table) ->
  exists items,
    items_read strptime_month float_text rows items
    /\ Monthly.monthly_rows month_name (Monthly.accumulate items) = Some sheet
    /\ table
       = totals_rows
           (accumulate (List.map (fun i => (snd (fst i), snd i)) items)).
Proof.
  unfold Daily.rebuild_summary_sheets. intros H.
  apply bind_Some in H. destruct H as (appts & Ha & H).
  apply bind_Some in H. destruct H as (items & Hi & H).
  apply bind_Some in H. destruct H as (monthly & Hm & [= <- <-]).
  exists items. split; [|split; [exact Hm|reflexivity]].
  unfold Daily.all_appts in Ha. fold (with_date rows) in Ha.
  unfold Daily.statistics in Hi. unfold items_read.
  apply mapM_Some_1 in Ha. apply mapM_Some_1 in Hi. clear Hm.
  revert items Hi. induction Ha as [|r a l appts Hra _ IH]; intros items Hi.
  - inversion Hi. constructor.
  - inversion Hi as [|a' i appts' items' Hai Hrest]; subst.
    constructor; [|apply IH, Hrest].
    destruct (Daily.read_price float_text (Store.row_fifth r)) as [p|];
      [|discriminate].
    cbn [mbind option_bind] in Hra. injection Hra as <-.
    cbn [fst snd] in Hai.
    destruct (strptime_month (Store.row_date r)) as [m|]; [|discriminate].
    cbn [mbind option_bind] in Hai. injection Hai as <-.
    repeat split; reflexivity.
Qed.

Lemma items_read_daily_items strptime_month float_text rows items :
  items_read strptime_month float_text rows items ->
  daily_items float_text rows
  = Some (List.map (fun i => (snd (fst i), snd i)) items)
  /\ daily_prices float_text rows = Some (List.map snd items)
  /\ length items = length (with_date rows).
Proof.
  unfold items_read, daily_items, daily_prices. intros H.
  split; [|split].
  - apply mapM_Some_2.
    induction H as [|r i l items (_ & Hc & Hp) _ IH]; constructor; auto.
    rewrite Hp. cbn [mbind option_bind]. rewrite Hc. reflexivity.
  - apply mapM_Some_2.
    induction H as [|r i l items (_ & Hc & Hp) _ IH]; constructor; auto.
  - symmetry. eapply Forall2_length, H.
Qed.

Lemma rebuild_summary_sheets_rows strptime_month month_name float_text
    rows sheet table :
  Daily.rebuild_summary_sheets strptime_month month_name float_text rows
  = Some (sheet, table) ->
  exists items,
    daily_items float_text rows = Some items
    /\ length items = length (with_date rows)
    /\ table = totals_rows (accumulate items).
Proof.
  intros H. apply rebuild_summary_sheets_inv in H.
  destruct H as (items & Hr & _ & ->).
  apply items_read_daily_items in Hr. destruct Hr as (Hd & _ & Hl).
  eexists. split; [exact Hd|]. split; [|reflexivity].
  rewrite length_map. exact Hl.
Qed.

(** A summary that is rebuilt has read every row with a date: its date
    parses and [float] reads its fifth cell. *)
Lemma rebuild_summary_sheets_reads strptime_month month_name float_text
    rows r :
  is_Some
    (Daily.rebuild_summary_sheets strptime_month month_name float_text rows) ->
  In r rows -> has_date r ->
  is_Some (strptime_month (Store.row_date r))
  /\ is_Some (Daily.read_price float_text (Store.row_fifth r)).
Proof.
  intros [[sheet table] H] Hin Hd.
  apply rebuild_summary_sheets_inv in H. destruct H as (items & Hr & _).
  assert (Hw : In r (with_date rows)).
  { apply filter_In. split; [exact Hin|]. unfold has_date in Hd.
    destruct (Store.row_date r); [congruence|reflexivity]. }
  unfold items_read in Hr. clear Hin Hd.
  induction Hr as [|r' i l items (Hs & _ & Hp) _ IH]; [destruct Hw|].
  destruct Hw as [->|Hw]; [|exact (IH Hw)].
  rewrite Hs, Hp. split; eexists; reflexivity.
Qed.

Lemma In_months_bump m m' k p t :
  In m (List.map fst (Monthly.bump_month m' k p t)) ->
  m = m' \/ In m (List.map fst t).
Proof.
  induction t as [|[m0 cats] t IH]; simpl.
  - intros [<-|[]]. left. reflexivity.
  - destruct (PyStr.eqb m' m0); simpl; intros [<-|H]; auto.
    destruct (IH H); auto.
Qed.

Lemma In_months_accumulate m (items : list (pystr * pystr * Q)) :
  In m (List.map fst (Monthly.accumulate items)) ->
  In m (List.map (fun i => fst (fst i)) items).
Proof.
  unfold Monthly.accumulate.
  assert (Hgen : forall t,
            In m (List.map fst
                    (fold_left
                       (fun t i =>
                          Monthly.bump_month (fst (fst i)) (snd (fst i))
                            (snd i) t) items t)) ->
            In m (List.map fst t)
            \/ In m (List.map (fun i => fst (fst i)) items)).
  { induction items as [|i items IH]; intros t H; simpl in *; [auto|].
    destruct (IH _ H) as [H1|H1]; [|auto].
    apply In_months_bump in H1. destruct H1 as [->|H1]; auto. }
  intros H. destruct (Hgen [] H) as [[]|H1]. exact H1.
Qed.

(** The summary is rebuilt whenever every row with a date has a date
    that parses, a month that parses and a fifth cell that [float]
    reads. *)
Lemma rebuild_summary_sheets_total strptime_month month_name float_text rows :
  Forall (fun r =>
            (exists m, strptime_month (Store.row_date r) = Some m
                       /\ is_Some (month_name m))
            /\ is_Some (Daily.read_price float_text (Store.row_fifth r)))
    (with_date rows) ->
  is_Some
    (Daily.rebuild_summary_sheets strptime_month month_name float_text rows).
Proof.
  intros H. unfold Daily.rebuild_summary_sheets, Daily.all_appts.
  fold (with_date rows).
  assert (Hitems : exists items,
            (mapM (fun row =>
                     price ← Daily.read_price float_text (Store.row_fifth row);
                     Some (Store.row_date row, Store.row_category row, price))
               (with_date rows)
             ≫= Daily.statistics strptime_month) = Some items
            /\ Forall (fun i => is_Some (month_name (fst (fst i)))) items).
  { induction H as [|r l ((m & Hm & Hn) & [p Hp]) _ (items & Hi & Hf)].
    - exists []. split; [reflexivity|constructor].
    - exists ((m, Store.row_category r, p) :: items).
      apply bind_Some in Hi. destruct Hi as (appts & Ha & Hs).
      split; [|constructor; [exact Hn|exact Hf]].
      cbn [mapM]. rewrite Hp. cbn [mbind option_bind]. rewrite Ha.
      cbn [mbind option_bind mret option_ret].
      unfold Daily.statistics in *. cbn [mapM fst snd]. rewrite Hm.
      cbn [mbind option_bind]. rewrite Hs. reflexivity. }
  destruct Hitems as (items & Hi & Hf).
  apply bind_Some in Hi. destruct Hi as (appts & -> & Hs).
  cbn [mbind option_bind]. rewrite Hs. cbn [mbind option_bind].
  assert (Hm : is_Some
                 (Monthly.monthly_rows month_name (Monthly.accumulate items))).
  { unfold Monthly.monthly_rows.
    set (srt := Py.sorted _ (Monthly.accumulate items)).
    assert (Hb : is_Some (mapM (Monthly.month_block month_name) srt)).
    { apply mapM_is_Some_2. apply Forall_forall. intros mc Hmc.
      assert (Hin : In (fst mc) (List.map fst (Monthly.accumulate items))).
      { apply in_map. eapply Permutation_in; [apply PyFacts.sorted_perm|].
        apply list_elem_of_In, Hmc. }
      apply In_months_accumulate, in_map_iff in Hin.
      destruct Hin as (i & Hk & Hi).
      rewrite Forall_forall in Hf.
      destruct (Hf i) as [name Hname]; [apply list_elem_of_In, Hi|].
      change (is_Some (Monthly.month_block month_name mc)).
      unfold Monthly.month_block. cbv zeta. rewrite <- Hk, Hname.
      eexists. reflexivity. }
    destruct Hb as [blocks ->]. eexists. reflexivity. }
  destruct Hm as [monthly ->]. eexists. reflexivity.
Qed.

(** [run_totals] gives its tables exactly when [reading] reads every
    captured appointment. *)
Lemma run_totals_is_Some strptime_month captured :
  is_Some (Historical.run_totals strptime_month captured)
  <-> Forall (fun a => is_Some (Historical.reading strptime_month a)) captured.
Proof.
  unfold Historical.run_totals. split.
  - intros [t H]. apply bind_Some in H. destruct H as (readings & Hr & _).
    apply mapM_Some_1 in Hr.
    induction Hr as [|a r l k Har _ IH]; constructor; [|exact IH].
    rewrite Har. eexists. reflexivity.
  - intros H. apply mapM_is_Some_2 in H. destruct H as [readings ->].
    eexists. reflexivity.
Qed.



End ReportFacts.

(** ** Forecast *)

Module ForecastFacts.

Import Enhancer NumFacts TotalsFacts ForecastSpec.
Local Open Scope Q_scope.

Lemma forecast_one_ordered last_data baseline growth offset i :
  ordered (forecast_one last_data baseline growth offset i).
Proof.
  unfold ordered, forecast_one. cbn [conservative moderate optimistic].
  split; apply round_dp_mono; [apply Q.le_min_r|apply Q.le_max_r].
Qed.

(** What a returned summary holds. *)
Lemma create_forecast_sheet_returns current monthly_data summary :
  create_forecast_sheet current monthly_data = Returns summary ->
  let kept := remove_partial_months monthly_data in
  let revenues := List.map monthly_revenue kept in
  let recent := Py.tail (Nat.min 9 (length kept)) revenues in
  let growth :=
    capped_growth (growth_rates recent)
      (Py.mean (Py.tail 3 revenues)) (Py.mean (Py.tail 6 revenues)) in
  let last_data := List.last (List.map year_month kept) current in
  let offset := start_month_offset last_data current in
  (6 <= length kept)%nat
  /\ forecast summary
     = List.map (forecast_one last_data (Py.median recent) growth offset)
         [offset; offset + 1; offset + 2]%Z
  /\ applied_growth_rate (stats summary) = Py.round_dp 4 growth.
Proof.
  unfold create_forecast_sheet. intros H.
  destruct (6 <=? length (remove_partial_months monthly_data))%nat eqn:Hlen;
    [|discriminate].
  apply Nat.leb_le in Hlen.
  destruct (if (0 <? length _)%nat then _ else _); [|discriminate].
  injection H as <-. cbn [forecast stats applied_growth_rate].
  repeat split. exact Hlen.
Qed.

(** C5: every forecast that is returned has exactly three months, and
    in each of them Conservative <= Moderate <= Optimistic, whatever the
    sign of the growth rate. *)
Theorem forecast_scenarios_ordered (current : yearmonth)
    (monthly_data : list month_row) (summary : forecast_summary) :
  create_forecast_sheet current monthly_data = Returns summary ->
  length (forecast summary) = 3%nat /\ Forall ordered (forecast summary).
Proof.
  intros H. apply create_forecast_sheet_returns in H.
  destruct H as (_ & -> & _). split; [reflexivity|].
  do 3 (constructor; [apply forecast_one_ordered|]). constructor.
Qed.

Lemma forecast_scenarios_ordered_witness :
  exists summary,
    create_forecast_sheet {| year := 2024; month := 9 |} steady_months
    = Returns summary
    /\ List.map moderate (forecast summary) = [1149.87; 1179.73; 1209.60]
    /\ Forall ordered (forecast summary).
Proof.
  eexists. split; [vm_compute; reflexivity|].
  split; [vm_compute; reflexivity|].
  apply (forecast_scenarios_ordered {| year := 2024; month := 9 |}
           steady_months).
  vm_compute. reflexivity.
Defined.

(** C7: with fewer than six months left after the partial months are
    removed, the call returns [None]: no summary and no exception; with
    six or more it does not return [None]. *)
Theorem insufficient_data_returns_none (current : yearmonth)
    (monthly_data : list month_row) :
  ((length (remove_partial_months monthly_data) < 6)%nat ->
   create_forecast_sheet current monthly_data = ReturnsNone
   /\ create_forecast_sheet current monthly_data <> Raises
   /\ forall summary,
        create_forecast_sheet current monthly_data <> Returns summary)
  /\ ((6 <= length (remove_partial_months monthly_data))%nat ->
      create_forecast_sheet current monthly_data <> ReturnsNone).
Proof.
  unfold create_forecast_sheet. split; intros Hlen.
  - apply Nat.leb_gt in Hlen. rewrite Hlen.
    repeat split; [discriminate|intros ?; discriminate].
  - apply Nat.leb_le in Hlen. rewrite Hlen.
    destruct (if (0 <? length _)%nat then _ else _); discriminate.
Qed.

Lemma insufficient_data_returns_none_witness :
  create_forecast_sheet {| year := 2024; month := 6 |}
    (firstn 5 steady_months)
  = ReturnsNone.
Proof.
  apply (insufficient_data_returns_none {| year := 2024; month := 6 |}
           (firstn 5 steady_months)).
  vm_compute. lia.
Defined.

Lemma remove_partial_months_length monthly_data :
  (length (remove_partial_months monthly_data) <= length monthly_data)%nat.
Proof.
  unfold remove_partial_months.
  destruct (3 <=? length monthly_data)%nat; [|lia].
  destruct (3 <=? length (List.filter _ monthly_data))%nat.
  - apply List.filter_length_le.
  - destruct monthly_data; simpl; lia.
Qed.

(** A history of fewer than six months is never forecast. *)
Lemma short_history_returns_none current monthly_data :
  (length monthly_data < 6)%nat ->
  create_forecast_sheet current monthly_data = ReturnsNone.
Proof.
  intros H. unfold create_forecast_sheet.
  assert (Hl := remove_partial_months_length monthly_data).
  destruct (Nat.leb_spec 6 (length (remove_partial_months monthly_data)));
    [lia|reflexivity].
Qed.

(** Every rate that is kept is within 30% on either side. *)
Lemma growth_rates_within_30 (recent_revenues : list Q) (r : Q) :
  In r (growth_rates recent_revenues) -> Qabs r < 0.3.
Proof.
  induction recent_revenues as [|prev rest IH]; [intros []|].
  destruct rest as [|cur rest']; [intros []|].
  cbn [growth_rates].
  destruct (Py.Qltb 0 prev); [|exact IH].
  destruct (Py.Qltb (Qabs ((cur - prev) / prev)) 0.3) eqn:Hlt; [|exact IH].
  intros [<-|Hin]; [apply Qltb_lt, Hlt|exact (IH Hin)].
Qed.

(** Lines 670-683 compute the applied growth rate of the specification:
    the clamped median of three or more kept rates, else +1%, -1% or 0%
    from the two averages; the result is within 3% on either side. *)
Lemma capped_growth_cases (rates : list Q) (last_3_avg last_6_avg : Q) :
  ((3 <= length rates)%nat ->
   capped_growth rates last_3_avg last_6_avg
   = Qmax (Qmin (Py.median rates) 0.03) (-0.03))
  /\ ((length rates < 3)%nat -> last_6_avg < last_3_avg ->
      capped_growth rates last_3_avg last_6_avg = 0.01)
  /\ ((length rates < 3)%nat -> last_3_avg <= last_6_avg ->
      last_3_avg < last_6_avg * 0.95 ->
      capped_growth rates last_3_avg last_6_avg = -0.01)
  /\ ((length rates < 3)%nat -> last_3_avg <= last_6_avg ->
      last_6_avg * 0.95 <= last_3_avg ->
      capped_growth rates last_3_avg last_6_avg = 0.00)
  /\ -0.03 <= capped_growth rates last_3_avg last_6_avg <= 0.03.
Proof.
  unfold capped_growth. repeat apply conj.
  - intros H. apply Nat.leb_le in H. rewrite H. reflexivity.
  - intros H H1. apply Nat.leb_gt in H. apply Qltb_lt in H1.
    rewrite H, H1. reflexivity.
  - intros H H1 H2. apply Nat.leb_gt in H. apply Qltb_ge in H1.
    apply Qltb_lt in H2. rewrite H, H1, H2. reflexivity.
  - intros H H1 H2. apply Nat.leb_gt in H. apply Qltb_ge in H1.
    apply Qltb_ge in H2. rewrite H, H1, H2. reflexivity.
  - destruct (3 <=? length rates)%nat.
    + apply Q.le_max_r.
    + destruct (Py.Qltb last_6_avg last_3_avg); [vm_compute; discriminate|].
      destruct (Py.Qltb last_3_avg _); vm_compute; discriminate.
  - destruct (3 <=? length rates)%nat.
    + apply Q.max_lub; [apply Q.le_min_r|vm_compute; discriminate].
    + destruct (Py.Qltb last_6_avg last_3_avg); [vm_compute; discriminate|].
      destruct (Py.Qltb last_3_avg _); vm_compute; discriminate.
Qed.

(** With six or more months, the call raises exactly when one or two
    rates are kept: [median_growth] is read for the summary although it
    was bound only for three or more rates. *)
Lemma create_forecast_sheet_raises current monthly_data :
  let kept := remove_partial_months monthly_data in
  let recent :=
    Py.tail (Nat.min 9 (length kept)) (List.map monthly_revenue kept) in
  create_forecast_sheet current monthly_data = Raises
  <-> (6 <= length kept)%nat
      /\ (0 < length (growth_rates recent) < 3)%nat.
Proof.
  cbv zeta. unfold create_forecast_sheet.
  set (kept := remove_partial_months monthly_data).
  set (rates := growth_rates _).
  destruct (6 <=? length kept)%nat eqn:Hlen.
  - apply Nat.leb_le in Hlen.
    destruct (Nat.ltb_spec 0 (length rates));
      destruct (Nat.leb_spec 3 (length rates)); cbn [option_map];
      (split; [try discriminate; intros _; lia | try reflexivity; lia]).
  - apply Nat.leb_gt in Hlen. split; [discriminate|lia].
Qed.

(** C6, the failing input: after three steps of +50% and two flat
    steps, two rates are kept, the growth rate of lines 670-683 is the
    specified +1%, and the call raises instead of returning it. *)
Theorem growth_fallback_is_computed_then_lost :
  let current := {| year := 2024; month := 7 |} in
  let revenues := List.map monthly_revenue ramp_then_flat in
  remove_partial_months ramp_then_flat = ramp_then_flat
  /\ length (growth_rates revenues) = 2%nat
  /\ capped_growth (growth_rates revenues)
       (Py.mean (Py.tail 3 revenues)) (Py.mean (Py.tail 6 revenues))
     = 0.01
  /\ create_forecast_sheet current ramp_then_flat = Raises.
Proof.
  cbv zeta. repeat split; vm_compute; reflexivity.
Qed.

End ForecastFacts.

(** ** More on the parser and the capture *)

Module CaptureFacts.

Import Parser Capture CaptureSpec.

Lemma Forall2_In_r {A B} (P : A -> B -> Prop) l k y :
  Forall2 P l k -> In y k -> exists x, In x l /\ P x y.
Proof.
  induction 1 as [|x y' l k Hxy _ IH]; [intros []|].
  intros [<-|Hin].
  - exists x. split; [left; reflexivity|exact Hxy].
  - destruct (IH Hin) as (x' & ? & ?). exists x'. split; [right|]; auto.
Qed.

Lemma lstrip_head (s : pystr) :
  match lstrip s with [] => True | c :: _ => isspace c = false end.
Proof.
  induction s as [|c s IH]; simpl; [exact I|].
  destruct (isspace c) eqn:E; [exact IH|exact E].
Qed.

Lemma lstrip_suffix (s : pystr) : exists pre, s = pre ++ lstrip s.
Proof.
  induction s as [|c s [pre IH]]; simpl; [exists []; reflexivity|].
  destruct (isspace c).
  - exists (c :: pre). simpl. rewrite <- IH. reflexivity.
  - exists []. reflexivity.
Qed.

Lemma strip_stripped (s : pystr) : stripped (strip s).
Proof.
  unfold stripped, strip. rewrite rev_involutive.
  split; [|apply lstrip_head].
  destruct (lstrip_suffix (rev (lstrip s))) as [pre Hpre].
  assert (Hh := lstrip_head s).
  set (t := lstrip s) in *. set (r := lstrip (rev t)) in *.
  assert (Ht : t = rev r ++ rev pre).
  { rewrite <- rev_app_distr, <- Hpre, rev_involutive. reflexivity. }
  destruct (rev r) as [|c k] eqn:Hr; [exact I|].
  rewrite Ht in Hh. exact Hh.
Qed.

Lemma parse_service_built str_other cls mega payload d sv a :
  parse_service str_other cls mega payload d sv = Some a ->
  built_from str_other cls mega payload d sv a.
Proof.
  unfold parse_service, built_from. intros H.
  destruct sv as [| | | | |fields]; try discriminate.
  cbn [get mbind option_bind] in H.
  destruct (resolve_price fields) as [pr|] eqn:Hp; [|discriminate].
  cbn [mbind option_bind] in H.
  destruct (dict_get fields (u "name") (JStr [])) as [| | |name| |] eqn:Hn;
    try discriminate.
  cbn [mbind option_bind] in H.
  destruct (client_name str_other payload) as [cl|] eqn:Hc; [|discriminate].
  injection H as <-. exists fields, name. cbn. repeat split; auto.
Qed.

(** X1: an entry is parsed only when its type is 0 and its start has a
    truthy [dateStr]; it then yields exactly one appointment per booked
    service, in order, each with the entry's date, the name of its
    service, the classifier's category for that name, the resolved
    price and the client name of the entry. *)
Theorem parse_appointment_shape str_other cls mega entry appts :
  parse_appointment str_other cls mega entry = Some appts ->
  exists e payload date_str services,
    entry = JDict e
    /\ eq_int (dict_get e (u "type") JNull) 0 = true
    /\ dict_get e (u "payload") (JDict []) = JDict payload
    /\ get (dict_get e (u "localStart") (JDict [])) (u "dateStr") JNull
       = Some date_str
    /\ truthy date_str = true
    /\ iterate (dict_get payload (u "bookedServices") (JList []))
       = Some services
    /\ length appts = length services
    /\ Forall2 (built_from str_other cls mega payload date_str)
         services appts.
Proof.
  unfold parse_appointment. intros H.
  destruct entry as [| | | | |e]; try discriminate.
  cbn [get mbind option_bind] in H.
  destruct (eq_int (dict_get e (u "type") JNull) 0) eqn:Ht; [|discriminate].
  cbn [negb] in H.
  destruct (get (dict_get e (u "localStart") (JDict [])) (u "dateStr") JNull)
    as [date_str|] eqn:Hd; [|discriminate].
  cbn [mbind option_bind] in H.
  destruct (truthy date_str) eqn:Htr; [|discriminate].
  cbn [negb] in H.
  destruct (dict_get e (u "payload") (JDict [])) as [| | | | |payload] eqn:Hp;
    try discriminate.
  cbn [get mbind option_bind] in H.
  destruct (iterate (dict_get payload (u "bookedServices") (JList [])))
    as [services|] eqn:Hi; [|discriminate].
  cbn [mbind option_bind] in H.
  apply mapM_Some_1 in H.
  exists e, payload, date_str, services. repeat split; auto.
  - symmetry. eapply Forall2_length, H.
  - eapply Forall2_impl; [exact H|].
    intros sv a. apply parse_service_built.
Qed.

Lemma parse_appointment_shape_witness :
  exists e payload date_str services,
    ana_entry = JDict e
    /\ eq_int (dict_get e (u "type") JNull) 0 = true
    /\ dict_get e (u "payload") (JDict []) = JDict payload
    /\ get (dict_get e (u "localStart") (JDict [])) (u "dateStr") JNull
       = Some date_str
    /\ truthy date_str = true
    /\ iterate (dict_get payload (u "bookedServices") (JList []))
       = Some services
    /\ length (default [] (Historical.parse_appointment (fun _ => []) ana_entry))
       = length services
    /\ Forall2
         (built_from (fun _ => []) Historical.extract_category
            (Some Historical.get_mega_category) payload date_str)
         services
         (default [] (Historical.parse_appointment (fun _ => []) ana_entry)).
Proof.
  apply parse_appointment_shape. vm_compute. reflexivity.
Defined.

(** X2: the client name of every parsed appointment has no white space
    at either end, and all appointments of one entry have the same
    client name. *)
Theorem parsed_client_is_stripped str_other cls mega entry appts :
  parse_appointment str_other cls mega entry = Some appts ->
  Forall (fun a => stripped (client a)) appts
  /\ forall a b, In a appts -> In b appts -> client a = client b.
Proof.
  intros H. apply parse_appointment_shape in H.
  destruct H as (e & payload & d & services & _ & _ & _ & _ & _ & _ & _ & H).
  assert (Hc : forall a, In a appts ->
               client_name str_other payload = Some (client a)).
  { intros a Ha.
    destruct (Forall2_In_r _ _ _ _ H Ha) as (sv & _ & Hb).
    destruct Hb as (? & ? & _ & _ & _ & _ & _ & _ & _ & Hcl). exact Hcl. }
  split.
  - apply Forall_forall. intros a Ha. apply list_elem_of_In in Ha.
    specialize (Hc a Ha). unfold client_name in Hc.
    destruct (assoc (u "client") payload) as [cl|].
    + destruct (get cl (u "firstname") (JStr [])) as [f|]; [|discriminate].
      cbn [mbind option_bind] in Hc.
      destruct (get cl (u "lastname") (JStr [])) as [l|]; [|discriminate].
      cbn [mbind option_bind] in Hc. injection Hc as <-.
      apply strip_stripped.
    + injection Hc as <-. split; exact I.
  - intros a b Ha Hb. assert (Ha' := Hc a Ha). assert (Hb' := Hc b Hb).
    congruence.
Qed.

Lemma parsed_client_is_stripped_witness :
  List.map client
    (default [] (Daily.parse_appointment (fun _ => []) ana_entry))
  = [u "Ana Pop"]
  /\ Forall (fun a => stripped (client a))
       (default [] (Daily.parse_appointment (fun _ => []) ana_entry)).
Proof.
  split; [vm_compute; reflexivity|].
  apply (parsed_client_is_stripped (fun _ => []) Daily.extract_category None
           ana_entry).
  vm_compute. reflexivity.
Defined.

Section RouteFacts.

Variable parse : json -> option (list appt).

Lemma capture_entry_appends captured entry :
  capture_entry parse captured entry = captured ++ yield parse entry.
Proof.
  unfold capture_entry, yield.
  destruct (parse entry) as [[|a l]|]; simpl;
    rewrite ?app_nil_r; reflexivity.
Qed.

Lemma capture_entries_appends entries captured :
  capture_entries parse entries captured
  = captured ++ flat_map (yield parse) entries.
Proof.
  unfold capture_entries. revert captured.
  induction entries as [|e entries IH]; intros captured; simpl.
  - rewrite app_nil_r. reflexivity.
  - rewrite IH, capture_entry_appends, <- app_assoc. reflexivity.
Qed.

(** Whatever the calendars are, what is captured is appended, and it
    comes from entries that were parsed. *)
Lemma capture_calendars_appends calendars captured :
  exists entries,
    capture_calendars parse calendars captured
    = captured ++ flat_map (yield parse) entries.
Proof.
  revert captured. induction calendars as [|c rest IH]; intros captured; simpl.
  - exists []. simpl. rewrite app_nil_r. reflexivity.
  - destruct (get c (u "entries") (JList []) ≫= iterate) as [entries|].
    + destruct (IH (capture_entries parse entries captured)) as [more Hm].
      exists (entries ++ more).
      rewrite Hm, capture_entries_appends, flat_map_app, app_assoc.
      reflexivity.
    + exists []. simpl. rewrite app_nil_r. reflexivity.
Qed.

Lemma handle_route_appends url body captured :
  exists entries,
    handle_route parse url body captured
    = captured ++ flat_map (yield parse) entries.
Proof.
  assert (Hnone : exists entries : list json,
             captured = captured ++ flat_map (yield parse) entries).
  { exists []. simpl. rewrite app_nil_r. reflexivity. }
  unfold handle_route.
  destruct (contains _ url); [|exact Hnone].
  destruct body as [[| | | | |d]|]; try exact Hnone.
  destruct (assoc (u "calendars") d) as [cals|]; [|exact Hnone].
  destruct (iterate cals) as [l|]; [|exact Hnone].
  apply capture_calendars_appends.
Qed.

Lemma capture_calendars_well_formed calendars entries_of captured :
  Forall2 calendar_entries calendars entries_of ->
  capture_calendars parse calendars captured
  = captured ++ flat_map (yield parse) (concat entries_of).
Proof.
  intros H. revert captured.
  induction H as [|c es calendars entries_of Hc _ IH]; intros captured; simpl.
  - rewrite app_nil_r. reflexivity.
  - destruct Hc as (d & -> & Hd). cbn [get mbind option_bind].
    rewrite Hd. cbn [iterate mbind option_bind].
    rewrite IH, capture_entries_appends, flat_map_app, app_assoc.
    reflexivity.
Qed.

(** X3: one entry that fails to parse does not stop the batch.  For a
    response of the calendar address whose calendars are dictionaries
    with lists of entries, the capture grows by the appointments of
    every entry that parses, in order; the entries that do not parse
    add nothing and take nothing away. *)
Theorem handle_route_skips_failed_entries url json_data calendars entries_of
    captured :
  contains (u "calendars-entries") url = true ->
  assoc (u "calendars") json_data = Some (JList calendars) ->
  Forall2 calendar_entries calendars entries_of ->
  handle_route parse url (Some (JDict json_data)) captured
  = captured ++ flat_map (yield parse) (concat entries_of).
Proof.
  intros Hu Hc Hw. unfold handle_route. rewrite Hu, Hc.
  cbn [iterate]. apply capture_calendars_well_formed, Hw.
Qed.

(** X4: a call of [handle_route] never drops or reorders what was
    captured before: it only appends appointments that
    [parse_appointment] returned for some entry, whatever the response
    holds; a response of another address, or one that cannot be
    decoded, changes nothing. *)
Theorem handle_route_only_appends url body captured :
  (exists added,
      handle_route parse url body captured = captured ++ added
      /\ Forall (fun a => exists entry appts,
                            parse entry = Some appts /\ In a appts) added)
  /\ (contains (u "calendars-entries") url = false ->
      handle_route parse url body captured = captured)
  /\ handle_route parse url None captured = captured.
Proof.
  split; [|split].
  - destruct (handle_route_appends url body captured) as [entries ->].
    eexists. split; [reflexivity|].
    apply Forall_forall. intros a Ha. apply list_elem_of_In in Ha.
    apply in_flat_map in Ha. destruct Ha as (entry & _ & Ha).
    unfold yield in Ha. destruct (parse entry) as [appts|] eqn:Hp;
      [|destruct Ha].
    exists entry, appts. auto.
  - intros Hu. unfold handle_route. rewrite Hu. reflexivity.
  - unfold handle_route. destruct (contains _ url); reflexivity.
Qed.

End RouteFacts.

Lemma handle_route_skips_failed_entries_witness :
  handle_route (Daily.parse_appointment (fun _ => []))
    (u "https://host/api/calendars-entries?week=1")
    (Some sample_response) []
  = default [] (Daily.parse_appointment (fun _ => []) ana_entry).
Proof.
  unfold sample_response.
  rewrite (handle_route_skips_failed_entries
             (Daily.parse_appointment (fun _ => []))
             (u "https://host/api/calendars-entries?week=1")
             [(u "calendars",
                JList
                  [JDict [(u "entries",
                            JList [JDict [(u "type", JInt 1)]; ana_entry;
                                   JNull])];
                   JDict [(u "name", JStr (u "second calendar"))]])]
             [JDict [(u "entries",
                       JList [JDict [(u "type", JInt 1)]; ana_entry; JNull])];
              JDict [(u "name", JStr (u "second calendar"))]]
             [[JDict [(u "type", JInt 1)]; ana_entry; JNull]; []] []).
  - vm_compute. reflexivity.
  - vm_compute. reflexivity.
  - reflexivity.
  - repeat constructor; eexists; (split; [reflexivity|reflexivity]).
Defined.

Lemma handle_route_only_appends_witness :
  handle_route (Daily.parse_appointment (fun _ => []))
    (u "https://host/api/profile") (Some sample_response) []
  = [].
Proof.
  apply (handle_route_only_appends (Daily.parse_appointment (fun _ => []))).
  vm_compute. reflexivity.
Defined.

(** X5: every appointment in the capture has a truthy date: if that
    holds before a call of [handle_route] of either script it holds
    after it, whatever the response is. *)
Theorem captured_appointments_have_a_date str_other url body captured :
  Forall (fun a => truthy (date a) = true) captured ->
  Forall (fun a => truthy (date a) = true)
    (handle_route (Daily.parse_appointment str_other) url body captured)
  /\ Forall (fun a => truthy (date a) = true)
       (handle_route (Historical.parse_appointment str_other) url body
          captured).
Proof.
  intros Hc.
  assert (Hgen : forall cls mega,
            Forall (fun a => truthy (date a) = true)
              (handle_route (parse_appointment str_other cls mega)
                 url body captured)).
  { intros cls mega.
    destruct (handle_route_appends (parse_appointment str_other cls mega)
                url body captured) as [entries ->].
    apply Forall_app. split; [exact Hc|].
    apply Forall_forall. intros a Ha. apply list_elem_of_In in Ha.
    apply in_flat_map in Ha. destruct Ha as (entry & _ & Ha).
    unfold yield in Ha.
    destruct (parse_appointment str_other cls mega entry) as [appts|] eqn:Hp;
      [|destruct Ha].
    apply ParserFacts.parse_appointment_dated in Hp.
    rewrite Forall_forall in Hp. apply Hp, list_elem_of_In, Ha. }
  split.
  - exact (Hgen Daily.extract_category None).
  - exact (Hgen Historical.extract_category (Some Historical.get_mega_category)).
Qed.

Lemma captured_appointments_have_a_date_witness :
  Forall (fun a => truthy (date a) = true)
    (handle_route (Daily.parse_appointment (fun _ => []))
       (u "https://host/api/calendars-entries?week=1")
       (Some sample_response) []).
Proof.
  apply (captured_appointments_have_a_date (fun _ => [])). constructor.
Defined.

End CaptureFacts.

(** ** More on the classifiers *)

Module TaxonomyFacts.

Import Classifier TaxonomySpec.

Lemma match_here_incl (p q : Re.pattern) (s : pystr) :
  incl p q -> Re.match_here p s = true -> Re.match_here q s = true.
Proof.
  unfold Re.match_here. intros Hi H. apply existsb_exists in H.
  destruct H as (alt & Hin & Hm). apply existsb_exists.
  exists alt. split; [apply Hi, Hin|exact Hm].
Qed.

(** A pattern with more alternatives is found wherever the smaller one
    is. *)
Lemma search_incl (p q : Re.pattern) (s : pystr) :
  incl p q -> Re.search p s = true -> Re.search q s = true.
Proof.
  intros Hi. induction s as [|c s IH]; simpl;
    rewrite !orb_true_iff; intros [H|H].
  - left. eapply match_here_incl; eauto.
  - discriminate.
  - left. eapply match_here_incl; eauto.
  - right. auto.
Qed.

Lemma probrows_implies_first_rule (s : pystr) :
  Re.search (Re.compile (u "ProBrows")) s = true ->
  Re.search (Re.compile (u "Pensat|ProBrows")) s = true.
Proof.
  apply search_incl. intros alt H. vm_compute in H. vm_compute.
  destruct H as [<-|[]]. right. left. reflexivity.
Qed.

(** X6: the daily classifier never answers ProBrows.  Its sixth rule
    is dead: a name in which ProBrows is found is taken by the first
    rule [Pensat|ProBrows] and classified Pensat. *)
Theorem daily_never_answers_probrows (service_name : pystr) :
  Daily.extract_category service_name <> u "ProBrows"
  /\ (Re.search (Re.compile (u "ProBrows")) service_name = true ->
      Daily.extract_category service_name = u "Pensat").
Proof.
  unfold Daily.extract_category, classify, Daily.categories.
  cbn [first_match]. split.
  - destruct (Re.search (Re.compile (u "Pensat|ProBrows")) service_name) eqn:H1;
      [vm_compute; discriminate|].
    repeat match goal with
    | |- context [Re.search (Re.compile (u "ProBrows")) service_name] =>
        destruct (Re.search (Re.compile (u "ProBrows")) service_name) eqn:Hp;
        [apply probrows_implies_first_rule in Hp; congruence|]
    | |- context [if Re.search ?p service_name then _ else _] =>
        destruct (Re.search p service_name); [vm_compute; discriminate|]
    end.
    vm_compute. discriminate.
  - intros Hp. apply probrows_implies_first_rule in Hp. rewrite Hp.
    reflexivity.
Qed.

Lemma sre_lower_upper (x : N) :
  Re.sre_lower_unicode
    (if ((97 <=? x) && (x <=? 122))%N then (x - 32)%N else x)
  = Re.sre_lower_unicode x.
Proof.
  unfold Re.sre_lower_unicode.
  destruct (N.leb_spec 97 x); destruct (N.leb_spec x 122); cbn [andb];
    try reflexivity.
  repeat match goal with
         | |- context [(?a <=? ?b)%N] => destruct (N.leb_spec a b)
         | |- context [(?a =? ?b)%N] => destruct (N.eqb_spec a b)
         end; cbn [andb]; lia.
Qed.

Lemma ci_match_upper c x :
  Re.ci_match c
    (if ((97 <=? x) && (x <=? 122))%N then (x - 32)%N else x)
  = Re.ci_match c x.
Proof. unfold Re.ci_match. rewrite sre_lower_upper. reflexivity. Qed.

Lemma atom_matches_upper a x :
  Re.atom_matches a
    (if ((97 <=? x) && (x <=? 122))%N then (x - 32)%N else x)
  = Re.atom_matches a x.
Proof.
  destruct a as [c|cs]; cbn [Re.atom_matches]; [apply ci_match_upper|].
  induction cs as [|c cs IH]; cbn [existsb]; [reflexivity|].
  rewrite ci_match_upper, IH. reflexivity.
Qed.

Lemma match_prefix_upper alt s :
  Re.match_prefix alt (ascii_upper s) = Re.match_prefix alt s.
Proof.
  revert s. induction alt as [|a alt IH]; intros [|x s]; simpl;
    try reflexivity.
  rewrite atom_matches_upper, IH. reflexivity.
Qed.

Lemma search_upper p s : Re.search p (ascii_upper s) = Re.search p s.
Proof.
  assert (Hh : forall t, Re.match_here p (ascii_upper t) = Re.match_here p t).
  { intros t. unfold Re.match_here. induction p as [|alt p IH]; simpl;
      [reflexivity|]. rewrite match_prefix_upper, IH. reflexivity. }
  induction s as [|x s IH].
  - reflexivity.
  - change (ascii_upper (x :: s)) with
      ((if ((97 <=? x) && (x <=? 122))%N then (x - 32)%N else x)
       :: ascii_upper s).
    cbn [Re.search].
    change ((if ((97 <=? x) && (x <=? 122))%N then (x - 32)%N else x)
            :: ascii_upper s) with (ascii_upper (x :: s)).
    rewrite Hh, IH. reflexivity.
Qed.

Lemma first_match_upper rules s :
  first_match rules (ascii_upper s) = first_match rules s.
Proof.
  induction rules as [|[c p] rules IH]; cbn [first_match]; [reflexivity|].
  rewrite search_upper, IH. reflexivity.
Qed.

Lemma classify_upper rules s : classify rules (ascii_upper s) = classify rules s.
Proof. unfold classify. rewrite first_match_upper. reflexivity. Qed.

(** X7: the classifiers ignore letter case: writing the ASCII letters
    of a service name in capitals changes neither script's category. *)
Theorem extract_category_ignores_case (service_name : pystr) :
  Daily.extract_category (ascii_upper service_name)
  = Daily.extract_category service_name
  /\ Historical.extract_category (ascii_upper service_name)
     = Historical.extract_category service_name.
Proof.
  split; apply classify_upper.
Qed.

Lemma existsb_eqb_false (c : pystr) (names : list pystr) :
  existsb (PyStr.eqb c) names = false ->
  forall k, In k names -> PyStr.eqb c k = false.
Proof.
  intros H k Hk. destruct (PyStr.eqb c k) eqn:E; [|reflexivity].
  assert (existsb (PyStr.eqb c) names = true); [|congruence].
  apply existsb_exists. exists k. auto.
Qed.

Lemma lookup_unlisted c m :
  (forall k, In k (List.map fst m) -> PyStr.eqb c k = false) ->
  Prepare.lookup c m = None.
Proof.
  induction m as [|[k v] m IH]; simpl; [reflexivity|]. intros H.
  rewrite (H k (or_introl eq_refl)). apply IH. intros k' Hk'.
  apply H. right. exact Hk'.
Qed.

Lemma mega_lookup_unlisted c table :
  (forall k, In k (concat (List.map snd table)) -> PyStr.eqb c k = false) ->
  Historical.mega_lookup table c = u "Altele".
Proof.
  induction table as [|[m cats] table IH]; simpl; [reflexivity|]. intros H.
  assert (Hc : existsb (PyStr.eqb c) cats = false).
  { destruct (existsb (PyStr.eqb c) cats) eqn:E; [|reflexivity].
    apply existsb_exists in E. destruct E as (k & Hk & Hek).
    rewrite H in Hek; [discriminate|]. apply in_or_app. left. exact Hk. }
  rewrite Hc. apply IH. intros k Hk. apply H. apply in_or_app. right. exact Hk.
Qed.

(** X8: the mega-category table of the report enhancer and the one of
    the historical script agree on every category text: the ten listed
    categories get the same mega-category and every other text gets
    Altele. *)
Theorem mega_category_tables_agree (category : pystr) :
  Prepare.mega_category category = Historical.get_mega_category category
  /\ In (Prepare.mega_category category) mega_names
  /\ (Prepare.mega_category category = u "Altele"
      <-> ~ In category listed_categories).
Proof.
  destruct (existsb (PyStr.eqb category) listed_categories) eqn:E.
  - apply existsb_exists in E. destruct E as (k & Hk & Hek).
    apply TotalsFacts.eqb_eq in Hek. subst k.
    vm_compute in Hk.
    repeat (destruct Hk as [<-|Hk];
            [split; [vm_compute; reflexivity|];
             split; [vm_compute; tauto|];
             split; [vm_compute; discriminate|];
             intros Hn; exfalso; apply Hn; vm_compute; tauto|]).
    destruct Hk.
  - assert (Hf := existsb_eqb_false _ _ E).
    assert (Hp : Prepare.mega_category category = u "Altele").
    { unfold Prepare.mega_category. rewrite lookup_unlisted; [reflexivity|].
      exact Hf. }
    rewrite Hp. split; [|split].
    + symmetry. apply mega_lookup_unlisted. intros k Hk. apply Hf.
      vm_compute in Hk. vm_compute. tauto.
    + vm_compute. tauto.
    + split; [|reflexivity]. intros _ Hin. apply Hf in Hin.
      rewrite TotalsFacts.eqb_refl in Hin. discriminate.
Qed.

Lemma mega_of_known_category (c : pystr) :
  In c (category_set ++ [u "DermaPen"]) ->
  In (Historical.get_mega_category c) mega_names
  /\ (Historical.get_mega_category c = u "Altele" <-> c = u "Other").
Proof.
  intros H. cbn [category_set app] in H.
  repeat (destruct H as [H|H];
          [subst c; split;
           [vm_compute; tauto
           |split; intros H'; vm_compute in H';
            first [discriminate H'|vm_compute; reflexivity]]|]).
  destruct H.
Qed.

(** X9: the historical script files every service under one of the
    four mega-categories, and under Altele exactly when its category is
    Other. *)
Theorem historical_mega_category_range (service_name : pystr) :
  In (Historical.get_mega_category
        (Historical.extract_category service_name)) mega_names
  /\ (Historical.get_mega_category
        (Historical.extract_category service_name) = u "Altele"
      <-> Historical.extract_category service_name = u "Other").
Proof.
  apply mega_of_known_category.
  apply ClassifierFacts.historical_names_in_set.
  apply ClassifierFacts.classify_range.
Qed.

End TaxonomyFacts.

(** ** More on the merge *)

Module AppendFacts.

Import Store MergeSpec AppendSpec.

Lemma ltb_irrefl (a : pystr) : PyStr.ltb a a = false.
Proof.
  induction a as [|x a IH]; simpl; [reflexivity|].
  rewrite N.ltb_irrefl, N.eqb_refl, IH. reflexivity.
Qed.

Lemma ltb_asym (a b : pystr) : PyStr.ltb a b = true -> PyStr.ltb b a = false.
Proof.
  revert b. induction a as [|x a IH]; intros [|y b]; simpl; try reflexivity;
    try discriminate.
  destruct (N.ltb_spec x y), (N.ltb_spec y x), (N.eqb_spec x y),
    (N.eqb_spec y x); simpl; try lia; try discriminate; try reflexivity.
  apply IH.
Qed.

Lemma ltb_false_trans (a b c : pystr) :
  PyStr.ltb b a = false -> PyStr.ltb c b = false -> PyStr.ltb c a = false.
Proof.
  revert b c. induction a as [|x a IH]; intros [|y b] [|z c]; simpl;
    try reflexivity; try discriminate.
  destruct (N.ltb_spec y x), (N.ltb_spec z y), (N.ltb_spec z x),
    (N.eqb_spec y x), (N.eqb_spec z y), (N.eqb_spec z x);
    simpl; try lia; try discriminate; try reflexivity.
  apply IH.
Qed.

Lemma filter_insert_sorted {A} (before : A -> A -> bool) (p : A -> bool) a l :
  (forall x y, p x = true -> p y = true -> before y x = false) ->
  List.filter p (Py.insert_sorted before a l)
  = List.filter p (a :: l).
Proof.
  intros Hp. induction l as [|b l IH]; [reflexivity|].
  cbn [Py.insert_sorted]. destruct (before b a) eqn:Hb; [|reflexivity].
  cbn [List.filter] in *. rewrite IH.
  destruct (p b) eqn:Epb; [|reflexivity].
  destruct (p a) eqn:Epa; [|reflexivity].
  rewrite (Hp a b Epa Epb) in Hb. discriminate.
Qed.

(** A stable sort: the elements that [p] selects, whose keys tie, keep
    their order. *)
Lemma filter_sorted {A} (before : A -> A -> bool) (p : A -> bool) l :
  (forall x y, p x = true -> p y = true -> before y x = false) ->
  List.filter p (Py.sorted before l) = List.filter p l.
Proof.
  intros Hp. induction l as [|a l IH]; [reflexivity|].
  cbn [Py.sorted fold_right]. fold (Py.sorted before l).
  rewrite (filter_insert_sorted before p a _ Hp).
  cbn [List.filter]. rewrite IH. reflexivity.
Qed.

Lemma sorted_by_date_stable d l :
  on_date d
    (Py.sorted (fun b a => PyStr.ltb (date b) (date a)) l)
  = on_date d l.
Proof.
  apply filter_sorted. intros x y Hx Hy.
  apply TotalsFacts.eqb_eq in Hx, Hy. rewrite Hx, Hy. apply ltb_irrefl.
Qed.

Lemma sorted_by_date_ordered l :
  StronglySorted not_after
    (Py.sorted (fun b a => PyStr.ltb (date b) (date a)) l).
Proof.
  apply (PyFacts.sorted_sorted (fun b a => PyStr.ltb (date b) (date a))).
  - intros x y. apply ltb_asym.
  - intros x y z. apply ltb_false_trans.
Qed.

(** X10: the rows [update_excel_file] appends are exactly the new
    appointments, in ascending date order, and the appointments of one
    date keep the order in which they were captured; the rows that were
    in the sheet stay in front, unchanged. *)
Theorem append_raw_data_sorts_stably (rows : list row)
    (new : list appointment) :
  exists block,
    Daily.append_raw_data rows new
    = rows ++ List.map Daily.raw_data_row block
    /\ Permutation block new
    /\ StronglySorted not_after block
    /\ forall d, on_date d block = on_date d new.
Proof.
  eexists. split; [reflexivity|]. split; [apply PyFacts.sorted_perm|].
  split; [apply sorted_by_date_ordered|].
  intros d. apply sorted_by_date_stable.
Qed.

(** A row with a date that the summary cannot read blocks the update:
    the summary is rebuilt, and fails, before the file is saved. *)
Lemma unread_row_blocks_update strptime_month month_name float_text
    rows captured r :
  In r rows -> has_date r ->
  strptime_month (row_date r) = None
  \/ Daily.read_price float_text (row_fifth r) = None ->
  Daily.run strptime_month month_name float_text rows captured = rows.
Proof.
  intros Hin Hd Hbad. unfold Daily.run, Daily.update_excel_file.
  destruct (Daily.new_appointments _ captured) as [|a new]; [reflexivity|].
  cbv zeta.
  destruct (Daily.rebuild_summary_sheets _ _ _ _) as [st|] eqn:Hr;
    [|reflexivity].
  exfalso.
  destruct (ReportFacts.rebuild_summary_sheets_reads
              strptime_month month_name float_text _ r
              (ex_intro _ st Hr)) as [[m Hm] [p Hp]].
  - unfold Daily.append_raw_data. apply in_or_app. left. exact Hin.
  - exact Hd.
  - destruct Hbad; congruence.
Qed.

(** X11: one dated row whose date does not parse blocks every update:
    whatever is captured, [run] leaves the sheet on disk as it was,
    because the summary is rebuilt, and fails, before the file is
    saved. *)
Theorem unparsable_date_blocks_update strptime_month month_name float_text
    rows captured r :
  In r rows -> has_date r -> strptime_month (row_date r) = None ->
  Daily.run strptime_month month_name float_text rows captured = rows.
Proof.
  intros Hin Hd Hs.
  apply (unread_row_blocks_update _ _ _ _ _ r); auto.
Qed.

Lemma unparsable_date_blocks_update_witness :
  Daily.run ten_chars plain_name no_number
    (sheet_of [ioana] ++ [undated_text]) [ana; maria]
  = sheet_of [ioana] ++ [undated_text].
Proof.
  apply (unparsable_date_blocks_update ten_chars _ _ _ _ undated_text).
  - right. left. reflexivity.
  - discriminate.
  - reflexivity.
Defined.

(** X12: running twice is running once for bookings with names.  For
    captured appointments that have a date, a client name and a service
    name, a second [run] over the same capture leaves the sheet exactly
    as the first one left it, whether the first one saved its rows or
    failed. *)
Theorem run_is_idempotent strptime_month month_name float_text
    rows captured :
  Forall dated captured ->
  Forall named captured ->
  Daily.run strptime_month month_name float_text
    (Daily.run strptime_month month_name float_text rows captured) captured
  = Daily.run strptime_month month_name float_text rows captured.
Proof.
  intros Hd Hn. unfold Daily.run at 2 3.
  destruct (Daily.update_excel_file _ _ _ rows _) as [rows'|] eqn:Hu.
  - unfold Daily.run.
    rewrite (MergeFacts.second_run_finds_nothing _ _ _ _ _ _ Hd Hn Hu).
    reflexivity.
  - unfold Daily.run. rewrite Hu. reflexivity.
Qed.

Lemma run_is_idempotent_witness :
  Daily.run iso_month plain_name no_number (sheet_of [ioana])
    [maria; ana; elena]
  = sheet_of [ioana; elena; maria; ana]
  /\ Daily.run iso_month plain_name no_number
       (Daily.run iso_month plain_name no_number (sheet_of [ioana])
          [maria; ana; elena])
       [maria; ana; elena]
     = Daily.run iso_month plain_name no_number (sheet_of [ioana])
         [maria; ana; elena].
Proof.
  split.
  - unfold Daily.run.
    assert (Hk : forall a, In a [maria; ana; elena] ->
                 key a ∉ Daily.load_existing_appointments (sheet_of [ioana])).
    { intros a Ha. rewrite MergeFacts.elem_of_load_existing.
      destruct Ha as [<-|[<-|[<-|[]]]]; vm_compute; intros [H|[]];
        discriminate. }
    rewrite !MergeFacts.new_appointments_fresh
      by (apply Hk; simpl; auto).
    change (Daily.new_appointments _ []) with (@nil appointment).
    vm_compute. reflexivity.
  - apply run_is_idempotent; repeat constructor; discriminate.
Defined.

(** X26: a dated row whose fifth cell holds a text that [float] does
    not read blocks every update.  The sheets the historical script
    writes have the mega-category in that cell, so the daily script
    adds nothing to them. *)
Theorem text_in_fifth_cell_blocks_update strptime_month month_name
    float_text rows captured r s :
  In r rows -> has_date r ->
  row_fifth r = Text s -> s <> [] -> float_text s = None ->
  Daily.run strptime_month month_name float_text rows captured = rows.
Proof.
  intros Hin Hd Hf Hs Hn.
  apply (unread_row_blocks_update _ _ _ _ _ r); auto.
  right. rewrite Hf. destruct s; [congruence|exact Hn].
Qed.

Lemma text_in_fifth_cell_blocks_update_witness :
  Daily.run iso_month plain_name no_number [six_column_row] [ana; maria]
  = [six_column_row].
Proof.
  apply (text_in_fifth_cell_blocks_update _ _ _ _ _ six_column_row
           (Historical.get_mega_category (u "Pensat"))).
  - left. reflexivity.
  - discriminate.
  - reflexivity.
  - vm_compute. discriminate.
  - reflexivity.
Defined.

End AppendFacts.

(** ** Ranking and counts of the totals sheets *)

Module RankingFacts.

Import Totals TotalsSpec TotalsFacts NumFacts ReportSpec RankingSpec.
Local Open Scope Q_scope.

Lemma In_keys_bump k' k p t :
  In k' (List.map fst (bump k p t)) <-> In k' (List.map fst t) \/ k' = k.
Proof.
  rewrite keys_bump.
  destruct (existsb (PyStr.eqb k) (List.map fst t)) eqn:E.
  - split; [auto|]. intros [H| ->]; [exact H|].
    apply existsb_exists in E. destruct E as (x & Hx & Hk).
    apply eqb_eq in Hk. subst x. exact Hx.
  - rewrite in_app_iff. simpl. intuition.
Qed.

Lemma In_keys_fold items t k :
  In k (List.map fst
          (fold_left (fun t kp => bump (fst kp) (snd kp) t) items t))
  <-> In k (List.map fst t) \/ In k (List.map fst items).
Proof.
  revert t. induction items as [|kp items IH]; intros t; simpl.
  - intuition.
  - rewrite IH, In_keys_bump. intuition.
Qed.

Lemma In_keys_accumulate items k :
  In k (List.map fst (accumulate items)) <-> In k (List.map fst items).
Proof.
  unfold accumulate. rewrite In_keys_fold. simpl. intuition.
Qed.

Lemma StronglySorted_map {A B} (f : A -> B) (R : B -> B -> Prop) l :
  StronglySorted (fun x y => R (f x) (f y)) l ->
  StronglySorted R (List.map f l).
Proof.
  induction 1 as [|a l _ IH Ha]; simpl; constructor; [exact IH|].
  apply Forall_forall. intros y Hy. apply list_elem_of_In, in_map_iff in Hy.
  destruct Hy as (x & <- & Hx). rewrite Forall_forall in Ha.
  apply Ha, list_elem_of_In, Hx.
Qed.

Lemma sorted_by_revenue (t : list (pystr * stats)) :
  StronglySorted (fun x y => revenue (snd y) <= revenue (snd x))
    (Py.sorted
       (fun b a => Py.Qltb (revenue (snd a)) (revenue (snd b))) t).
Proof.
  assert (H : StronglySorted
                (fun x y : pystr * stats =>
                   Py.Qltb (revenue (snd x)) (revenue (snd y)) = false)
                (Py.sorted
                   (fun b a => Py.Qltb (revenue (snd a)) (revenue (snd b)))
                   t)).
  { apply (PyFacts.sorted_sorted
             (fun b a : pystr * stats =>
                Py.Qltb (revenue (snd a)) (revenue (snd b)))).
    - intros x y Hxy. apply Qltb_lt in Hxy. apply Qltb_ge. lra.
    - intros x y z Hxy Hyz. apply Qltb_ge in Hxy, Hyz. apply Qltb_ge. lra. }
  induction H as [|x l _ IH Hx]; constructor; [exact IH|].
  eapply Forall_impl; [exact Hx|].
  intros y Hy. apply Qltb_ge in Hy. exact Hy.
Qed.

Lemma totals_rows_ranked (items : list (pystr * Q)) :
  ranked items (totals_rows (accumulate items)).
Proof.
  destruct (summed_accumulate items) as (Hn & _ & _).
  unfold ranked, totals_rows.
  set (t := accumulate items) in *.
  set (G := grand_total_revenue t).
  set (srt := Py.sorted _ t).
  assert (Hperm : Permutation srt t) by apply PyFacts.sorted_perm.
  assert (Hlab : List.map label (List.map (row_of G) srt) = List.map fst srt).
  { rewrite List.map_map. reflexivity. }
  split; [|split].
  - apply StronglySorted_map. simpl. apply sorted_by_revenue.
  - rewrite Hlab. eapply NoDup_Permutation_proper; [|exact Hn].
    apply Permutation_map, Hperm.
  - intros k. rewrite Hlab, <- In_keys_accumulate. fold t.
    split; apply Permutation_in, Permutation_map;
      [exact Hperm|symmetry; exact Hperm].
Qed.

Lemma held_count_bump k' k p t :
  held_count k' (bump k p t)
  = (held_count k' t + (if PyStr.eqb k k' then 1 else 0))%Z.
Proof.
  induction t as [|[k0 s] t IH]; simpl.
  - destruct (PyStr.eqb k k') eqn:E.
    + apply eqb_eq in E. subst k'. rewrite eqb_refl. reflexivity.
    + destruct (PyStr.eqb k' k) eqn:E'; [|reflexivity].
      apply eqb_eq in E'. subst k'. rewrite eqb_refl in E. discriminate.
  - destruct (PyStr.eqb k k0) eqn:E0; simpl.
    + apply eqb_eq in E0. subst k0.
      destruct (PyStr.eqb k' k) eqn:E'.
      * apply eqb_eq in E'. subst k'. rewrite eqb_refl. reflexivity.
      * destruct (PyStr.eqb k k') eqn:E''; [|lia].
        apply eqb_eq in E''. subst k'. rewrite eqb_refl in E'. discriminate.
    + destruct (PyStr.eqb k' k0) eqn:E'; [|exact IH].
      apply eqb_eq in E'. subst k'. rewrite E0. lia.
Qed.

Lemma Zsum_counts_bump k p t :
  Zsum (List.map (fun ks => count (snd ks)) (bump k p t))
  = (Zsum (List.map (fun ks => count (snd ks)) t) + 1)%Z.
Proof.
  induction t as [|[k0 s] t IH]; simpl; [reflexivity|].
  destruct (PyStr.eqb k k0); simpl; [lia|]. rewrite IH. lia.
Qed.

Lemma occurrences_snoc k items kp :
  occurrences k (items ++ [kp])
  = (occurrences k items + (if PyStr.eqb (fst kp) k then 1 else 0))%nat.
Proof.
  unfold occurrences. rewrite List.filter_app, length_app. simpl.
  destruct (PyStr.eqb (fst kp) k); reflexivity.
Qed.

(** What the accumulation loop keeps true of the counts. *)
Lemma counts_fold items seen t :
  (forall k, held_count k t = Z.of_nat (occurrences k seen)) ->
  Zsum (List.map (fun ks => count (snd ks)) t) = Z.of_nat (length seen) ->
  let t' := fold_left (fun t kp => bump (fst kp) (snd kp) t) items t in
  (forall k, held_count k t' = Z.of_nat (occurrences k (seen ++ items)))
  /\ Zsum (List.map (fun ks => count (snd ks)) t')
     = Z.of_nat (length (seen ++ items)).
Proof.
  revert seen t. induction items as [|kp items IH]; intros seen t Hk Hs; simpl.
  - rewrite app_nil_r. auto.
  - replace (seen ++ kp :: items) with ((seen ++ [kp]) ++ items)
      by (rewrite <- app_assoc; reflexivity).
    apply IH.
    + intros k. rewrite held_count_bump, occurrences_snoc, Hk.
      destruct (PyStr.eqb (fst kp) k); lia.
    + rewrite Zsum_counts_bump, Hs, length_app. simpl. lia.
Qed.

Lemma held_count_In k s t :
  NoDup (List.map fst t) -> In (k, s) t -> held_count k t = count s.
Proof.
  induction t as [|[k0 s0] t IH]; simpl; [intros _ []|].
  rewrite NoDup_cons. intros [Hk Hn] [[= -> ->]|Hin].
  - rewrite eqb_refl. reflexivity.
  - destruct (PyStr.eqb k k0) eqn:E; [|auto].
    apply eqb_eq in E. subst k0. exfalso. apply Hk.
    apply list_elem_of_In, in_map_iff. exists (k, s). auto.
Qed.

Lemma occurrences_pos k items :
  In k (List.map fst items) -> (1 <= occurrences k items)%nat.
Proof.
  unfold occurrences. intros H. apply in_map_iff in H.
  destruct H as (kp & <- & Hin).
  assert (Hf : In kp (List.filter (fun kp' => PyStr.eqb (fst kp') (fst kp))
                        items)).
  { apply filter_In. split; [exact Hin|apply eqb_refl]. }
  destruct (List.filter _ items); [destruct Hf|simpl; lia].
Qed.

Lemma Zsum_perm (l k : list Z) : Permutation l k -> Zsum l = Zsum k.
Proof.
  induction 1; simpl; lia.
Qed.

Lemma totals_rows_counted (items : list (pystr * Q)) :
  counted items (totals_rows (accumulate items)).
Proof.
  destruct (summed_accumulate items) as (Hn & _ & _).
  destruct (counts_fold items [] []) as (Hc & Hs);
    [reflexivity|reflexivity|]. cbn zeta in Hc, Hs. simpl app in Hc, Hs.
  fold (accumulate items) in Hc, Hs.
  unfold counted, totals_rows.
  set (t := accumulate items) in *.
  set (G := grand_total_revenue t).
  set (srt := Py.sorted _ t).
  assert (Hperm : Permutation srt t) by apply PyFacts.sorted_perm.
  split.
  - apply Forall_forall. intros r Hr.
    apply list_elem_of_In, in_map_iff in Hr.
    destruct Hr as ([k st] & <- & Hin).
    assert (Hin' : In (k, st) t) by (eapply Permutation_in; eauto).
    assert (Hcount : count st = Z.of_nat (occurrences k items)).
    { rewrite <- Hc. symmetry. apply held_count_In; auto. }
    assert (Hpos : (1 <= count st)%Z).
    { rewrite Hcount.
      assert (1 <= occurrences k items)%nat; [|lia].
      apply occurrences_pos, In_keys_accumulate. fold t.
      apply in_map_iff. exists (k, st). auto. }
    unfold row_of. cbn [fst snd label appointments avg_price total_revenue].
    repeat split; auto.
    assert (Hlt : (0 <? count st)%Z = true) by (apply Z.ltb_lt; lia).
    rewrite Hlt. field.
    assert (0 < inject_Z (count st)).
    { change 0 with (inject_Z 0). rewrite <- Zlt_Qlt. lia. }
    lra.
  - rewrite List.map_map. cbn [appointments row_of].
    rewrite <- Hs. apply Zsum_perm.
    apply (Permutation_map (fun ks => count (snd ks))), Hperm.
Qed.

(** X13: the Category Totals sheet of the daily script and both totals
    sheets of the historical script are ranked: the rows come in
    non-increasing order of revenue, and there is exactly one row for
    each category (mega-category) that occurs among the appointments. *)
Theorem totals_sheets_are_ranked
    (strptime_month month_name : pystr -> option pystr)
    (float_text : pystr -> option Q) :
  (forall rows sheet table,
      Daily.rebuild_summary_sheets strptime_month month_name float_text rows
      = Some (sheet, table) ->
      exists items,
        daily_items float_text rows = Some items /\ ranked items table)
  /\ (forall captured category_table mega_table,
      Historical.run_totals strptime_month captured
      = Some (category_table, mega_table) ->
      exists readings,
        mapM (Historical.reading strptime_month) captured = Some readings
        /\ ranked (List.map (fun r => (fst (fst r), snd r)) readings)
             category_table
        /\ ranked (List.map (fun r => (snd (fst r), snd r)) readings)
             mega_table).
Proof.
  split.
  - intros rows sheet table H.
    apply ReportFacts.rebuild_summary_sheets_rows in H.
    destruct H as (items & Hi & _ & ->).
    exists items. split; [exact Hi|]. apply totals_rows_ranked.
  - intros captured ct mt H. unfold Historical.run_totals in H.
    apply bind_Some in H. destruct H as (readings & Hr & [= <- <-]).
    exists readings. split; [exact Hr|].
    split; apply totals_rows_ranked.
Qed.

Lemma totals_sheets_are_ranked_witness :
  (exists sheet table,
      Daily.rebuild_summary_sheets MergeSpec.iso_month MergeSpec.plain_name
        MergeSpec.no_number
        (MergeSpec.sheet_of [MergeSpec.ioana; AppendSpec.maria; MergeSpec.ana])
      = Some (sheet, table)
      /\ List.map label table = [u "Epilat"; u "Pensat"]
      /\ exists items,
           daily_items MergeSpec.no_number
             (MergeSpec.sheet_of
                [MergeSpec.ioana; AppendSpec.maria; MergeSpec.ana])
           = Some items
           /\ ranked items table)
  /\ (exists category_table mega_table,
        Historical.run_totals MergeSpec.iso_month historical_capture
        = Some (category_table, mega_table)
        /\ List.map label category_table
           = [u "Epilat"; u "Laminare"; u "Pensat"]
        /\ List.map label mega_table
           = [u "Epilare"; Historical.get_mega_category (u "Pensat")]
        /\ exists readings,
             mapM (Historical.reading MergeSpec.iso_month) historical_capture
             = Some readings
             /\ ranked (List.map (fun r => (fst (fst r), snd r)) readings)
                  category_table
             /\ ranked (List.map (fun r => (snd (fst r), snd r)) readings)
                  mega_table).
Proof.
  split.
  - eexists. eexists. split; [vm_compute; reflexivity|].
    split; [vm_compute; reflexivity|].
    eapply (proj1 (totals_sheets_are_ranked MergeSpec.iso_month
                     MergeSpec.plain_name MergeSpec.no_number)).
    vm_compute. reflexivity.
  - eexists. eexists. split; [vm_compute; reflexivity|].
    split; [vm_compute; reflexivity|].
    split; [vm_compute; reflexivity|].
    apply (proj2 (totals_sheets_are_ranked MergeSpec.iso_month
                    MergeSpec.plain_name MergeSpec.no_number)).
    vm_compute. reflexivity.
Defined.

(** X14: in the same three sheets each row counts the appointments of
    its category, which is at least one, its average price times that
    count is its revenue, and the counts of all rows add up to the
    number of appointments that were read. *)
Theorem totals_sheets_count_every_appointment
    (strptime_month month_name : pystr -> option pystr)
    (float_text : pystr -> option Q) :
  (forall rows sheet table,
      Daily.rebuild_summary_sheets strptime_month month_name float_text rows
      = Some (sheet, table) ->
      Zsum (List.map appointments table)
      = Z.of_nat (length (MergeSpec.with_date rows))
      /\ exists items,
           daily_items float_text rows = Some items /\ counted items table)
  /\ (forall captured category_table mega_table,
      Historical.run_totals strptime_month captured
      = Some (category_table, mega_table) ->
      Zsum (List.map appointments category_table)
      = Z.of_nat (length captured)
      /\ Zsum (List.map appointments mega_table)
         = Z.of_nat (length captured)
      /\ exists readings,
           mapM (Historical.reading strptime_month) captured = Some readings
           /\ counted (List.map (fun r => (fst (fst r), snd r)) readings)
                category_table
           /\ counted (List.map (fun r => (snd (fst r), snd r)) readings)
                mega_table).
Proof.
  split.
  - intros rows sheet table H.
    apply ReportFacts.rebuild_summary_sheets_rows in H.
    destruct H as (items & Hi & Hl & ->).
    assert (Hc := totals_rows_counted items).
    split; [destruct Hc as [_ ->]; rewrite Hl; reflexivity|].
    exists items. split; [exact Hi|exact Hc].
  - intros captured ct mt H. unfold Historical.run_totals in H.
    apply bind_Some in H. destruct H as (readings & Hr & [= <- <-]).
    assert (Hlen : length readings = length captured).
    { apply mapM_Some_1 in Hr. symmetry. eapply Forall2_length, Hr. }
    assert (H1 := totals_rows_counted
                    (List.map (fun r => (fst (fst r), snd r)) readings)).
    assert (H2 := totals_rows_counted
                    (List.map (fun r => (snd (fst r), snd r)) readings)).
    split; [|split].
    + destruct H1 as [_ ->]. rewrite length_map, Hlen. reflexivity.
    + destruct H2 as [_ ->]. rewrite length_map, Hlen. reflexivity.
    + exists readings. auto.
Qed.

Lemma totals_sheets_count_every_appointment_witness :
  (exists sheet table,
      Daily.rebuild_summary_sheets MergeSpec.iso_month MergeSpec.plain_name
        MergeSpec.no_number
        (MergeSpec.sheet_of [MergeSpec.ioana; AppendSpec.maria; MergeSpec.ana])
      = Some (sheet, table)
      /\ List.map appointments table = [1; 2]%Z
      /\ Zsum (List.map appointments table) = 3%Z)
  /\ (exists category_table mega_table,
        Historical.run_totals MergeSpec.iso_month historical_capture
        = Some (category_table, mega_table)
        /\ List.map appointments category_table = [2; 1; 1]%Z
        /\ List.map appointments mega_table = [2; 2]%Z
        /\ Zsum (List.map appointments category_table) = 4%Z
        /\ Zsum (List.map appointments mega_table) = 4%Z).
Proof.
  split.
  - eexists. eexists. split; [vm_compute; reflexivity|].
    split; [vm_compute; reflexivity|].
    destruct (proj1 (totals_sheets_count_every_appointment
                       MergeSpec.iso_month MergeSpec.plain_name
                       MergeSpec.no_number)
                (MergeSpec.sheet_of
                   [MergeSpec.ioana; AppendSpec.maria; MergeSpec.ana])
                _ _ eq_refl) as (H1 & _).
    exact H1.
  - eexists. eexists. split; [vm_compute; reflexivity|].
    split; [vm_compute; reflexivity|].
    split; [vm_compute; reflexivity|].
    destruct (proj2 (totals_sheets_count_every_appointment
                       MergeSpec.iso_month MergeSpec.plain_name
                       MergeSpec.no_number)
                historical_capture _ _ eq_refl) as (H1 & H2 & _).
    split; [exact H1|exact H2].
Defined.

End RankingFacts.

(** ** The Monthly Summary sheet *)

Module MonthlyFacts.

Import Totals Monthly MonthlySpec TotalsFacts NumFacts RankingSpec
  RankingFacts ReportSpec.
Local Open Scope Q_scope.

Lemma fold_left_Zadd (l : list Z) (a : Z) :
  fold_left Z.add l a = (a + Zsum l)%Z.
Proof.
  revert a. induction l as [|x l IH]; intros a; simpl; [lia|].
  rewrite IH. lia.
Qed.

Lemma total_count_Zsum categories :
  total_count categories
  = Zsum (List.map (fun ks => count (snd ks)) categories).
Proof. unfold total_count. rewrite fold_left_Zadd. lia. Qed.

Lemma all_revenue_bump m k p t :
  all_revenue (bump_month m k p t) == all_revenue t + p.
Proof.
  unfold all_revenue. induction t as [|[m' cats] t IH]; simpl.
  - rewrite Qsum_cons, !Qsum_nil. simpl.
    assert (H := grand_bump k p []). simpl in H. rewrite H.
    unfold grand_total_revenue. simpl. rewrite Qsum_nil. lra.
  - destruct (PyStr.eqb m m'); simpl; rewrite !Qsum_cons; simpl.
    + rewrite grand_bump. lra.
    + rewrite IH. lra.
Qed.

Lemma all_count_bump m k p t :
  all_count (bump_month m k p t) = (all_count t + 1)%Z.
Proof.
  unfold all_count. induction t as [|[m' cats] t IH]; simpl.
  - reflexivity.
  - destruct (PyStr.eqb m m'); simpl.
    + rewrite !total_count_Zsum, Zsum_counts_bump. lia.
    + rewrite IH. lia.
Qed.

Lemma accumulate_conserves items t :
  let t' := fold_left
              (fun t i => bump_month (fst (fst i)) (snd (fst i)) (snd i) t)
              items t in
  all_revenue t' == all_revenue t + Py.Qsum (List.map snd items)
  /\ all_count t' = (all_count t + Z.of_nat (length items))%Z.
Proof.
  revert t. induction items as [|i items IH]; intros t; simpl.
  - rewrite Qsum_nil. split; [lra|lia].
  - destruct (IH (bump_month (fst (fst i)) (snd (fst i)) (snd i) t))
      as [Hr Hc].
    cbn zeta in Hr, Hc. rewrite Hr, Hc, all_revenue_bump, all_count_bump,
      Qsum_cons.
    split; [lra|lia].
Qed.

Section Lines.

Variable month_name : pystr -> option pystr.

Lemma total_lines_block mc block :
  month_block month_name mc = Some block ->
  total_lines block
  = [(total_count (snd mc), grand_total_revenue (snd mc))].
Proof.
  unfold month_block. cbv zeta. intros H.
  destruct (month_name (fst mc)) as [name|]; [|discriminate].
  cbn [mbind option_bind] in H. injection H as <-.
  unfold total_lines. rewrite flat_map_app. simpl.
  match goal with
  | |- ?l ++ _ = _ => assert (Hl : l = []); [|rewrite Hl; reflexivity]
  end.
  induction (Py.sorted _ (snd mc)) as [|ks l IH]; simpl; [reflexivity|].
  exact IH.
Qed.

Lemma category_lines_block mc block :
  month_block month_name mc = Some block ->
  category_lines block
  = List.map (fun ks => (count (snd ks), revenue (snd ks)))
      (Py.sorted
         (fun b a => Py.Qltb (revenue (snd a)) (revenue (snd b))) (snd mc)).
Proof.
  unfold month_block. cbv zeta. intros H.
  destruct (month_name (fst mc)) as [name|]; [|discriminate].
  cbn [mbind option_bind] in H. injection H as <-.
  unfold category_lines. rewrite flat_map_app. simpl.
  rewrite app_nil_r.
  induction (Py.sorted _ (snd mc)) as [|ks l IH]; simpl; [reflexivity|].
  rewrite IH. reflexivity.
Qed.

Lemma total_lines_rows t blocks :
  Forall2 (fun mc block => month_block month_name mc = Some block) t blocks ->
  total_lines (concat blocks)
  = List.map (fun mc => (total_count (snd mc), grand_total_revenue (snd mc))) t.
Proof.
  induction 1 as [|mc block t blocks Hb _ IH]; simpl; [reflexivity|].
  unfold total_lines in *. rewrite flat_map_app.
  fold (total_lines block).
  rewrite (total_lines_block mc block Hb), IH. reflexivity.
Qed.

Lemma category_lines_sums t blocks :
  Forall2 (fun mc block => month_block month_name mc = Some block) t blocks ->
  Py.Qsum (List.map snd (category_lines (concat blocks))) == all_revenue t
  /\ Zsum (List.map fst (category_lines (concat blocks))) = all_count t.
Proof.
  unfold all_revenue, all_count.
  induction 1 as [|mc block t blocks Hb _ [IHr IHc]]; simpl.
  - split; reflexivity.
  - unfold category_lines in *. rewrite flat_map_app.
    fold (category_lines block).
    rewrite (category_lines_block mc block Hb), !List.map_app, Qsum_app,
      Qsum_cons, IHr.
    rewrite !List.map_map. cbn [fst snd]. split.
    + assert (Hp : Py.Qsum
                     (List.map (fun ks : pystr * stats => revenue (snd ks))
                        (Py.sorted
                           (fun b a =>
                              Py.Qltb (revenue (snd a)) (revenue (snd b)))
                           (snd mc)))
                   == grand_total_revenue (snd mc)).
      { unfold grand_total_revenue. apply Qsum_perm, Permutation_map.
        apply PyFacts.sorted_perm. }
      rewrite Hp. reflexivity.
    + assert (Happ : forall l k, Zsum (l ++ k) = (Zsum l + Zsum k)%Z).
      { intros l k. induction l; simpl; lia. }
      rewrite Happ, IHc, total_count_Zsum. f_equal.
      apply Zsum_perm, Permutation_map, PyFacts.sorted_perm.
Qed.

End Lines.

(** X15: the Monthly Summary of the daily script accounts for every
    appointment once: the counts of its TOTAL lines add up to the number
    of dated rows and their revenues to the sum of all prices read, and
    the category lines add up to the same two numbers. *)
Theorem monthly_summary_conserves_totals
    (strptime_month month_name : pystr -> option pystr)
    (float_text : pystr -> option Q)
    (rows : list Store.row) (sheet : list sheet_row)
    (table : list totals_row) :
  Daily.rebuild_summary_sheets strptime_month month_name float_text rows
  = Some (sheet, table) ->
  exists prices,
    daily_prices float_text rows = Some prices
    /\ Zsum (List.map fst (total_lines sheet))
       = Z.of_nat (length (MergeSpec.with_date rows))
    /\ Py.Qsum (List.map snd (total_lines sheet)) == Py.Qsum prices
    /\ Zsum (List.map fst (category_lines sheet))
       = Z.of_nat (length (MergeSpec.with_date rows))
    /\ Py.Qsum (List.map snd (category_lines sheet)) == Py.Qsum prices.
Proof.
  intros H. apply ReportFacts.rebuild_summary_sheets_inv in H.
  destruct H as (items & Hread & H & _).
  apply ReportFacts.items_read_daily_items in Hread.
  destruct Hread as (_ & Hp & Hl).
  exists (List.map snd items). split; [exact Hp|].
  destruct (accumulate_conserves items []) as [Hr Hc].
  cbn zeta in Hr, Hc. fold (accumulate items) in Hr, Hc.
  unfold monthly_rows in H.
  set (srt := Py.sorted _ (accumulate items)) in H.
  apply bind_Some in H. destruct H as (blocks & Hblocks & [= <-]).
  apply mapM_Some_1 in Hblocks.
  assert (Hperm : Permutation srt (accumulate items))
    by apply PyFacts.sorted_perm.
  assert (Hsr : all_revenue srt == all_revenue (accumulate items)).
  { unfold all_revenue. apply Qsum_perm, Permutation_map, Hperm. }
  assert (Hsc : all_count srt = all_count (accumulate items)).
  { unfold all_count. apply Zsum_perm, Permutation_map, Hperm. }
  assert (Hr0 : all_revenue [] == 0) by reflexivity.
  destruct (category_lines_sums month_name srt blocks Hblocks) as [Hcr Hcc].
  rewrite (total_lines_rows month_name srt blocks Hblocks), !List.map_map.
  cbn [fst snd].
  fold (all_count srt). fold (all_revenue srt).
  rewrite Hcr, Hcc, Hsr, Hsc, Hr, Hc, Hl, Hr0.
  unfold all_count. simpl Zsum.
  repeat split; try lia; lra.
Qed.

Lemma monthly_summary_conserves_totals_witness :
  exists sheet table,
    Daily.rebuild_summary_sheets MergeSpec.iso_month MergeSpec.plain_name
      MergeSpec.no_number
      (MergeSpec.sheet_of [MergeSpec.ioana; dana; MergeSpec.ana])
    = Some (sheet, table)
    /\ total_lines sheet = [(2%Z, 0 + 60 + 150); (1%Z, 0 + 90)]
    /\ Zsum (List.map fst (total_lines sheet)) = 3%Z.
Proof.
  eexists. eexists. split; [vm_compute; reflexivity|].
  split; [vm_compute; reflexivity|].
  destruct (monthly_summary_conserves_totals MergeSpec.iso_month
              MergeSpec.plain_name MergeSpec.no_number
              (MergeSpec.sheet_of [MergeSpec.ioana; dana; MergeSpec.ana])
              _ _ eq_refl) as (prices & _ & H & _).
  exact H.
Defined.

End MonthlyFacts.

(** ** More on the forecast *)

Module HorizonFacts.

Import Enhancer NumFacts TotalsFacts ForecastSpec HorizonSpec.

Lemma carry_months_spec fuel y m :
  let r := carry_months fuel y m in
  ordinal r = 12 * y + m
  /\ (1 <= m -> 1 <= month r)
  /\ (m <= 12 * Z.of_nat fuel + 12 -> month r <= 12).
Proof.
  unfold ordinal. revert y m. induction fuel as [|fuel IH]; intros y m.
  - simpl. destruct (Z.ltb_spec 12 m); simpl; lia.
  - cbn [carry_months]. destruct (Z.ltb_spec 12 m).
    + destruct (IH (y + 1) (m - 12)) as (H1 & H2 & H3).
      cbn zeta in H1, H2, H3. repeat split; try lia.
    + simpl. lia.
Qed.

Lemma get_next_month_spec ym k :
  1 <= month ym -> 0 <= k ->
  valid (_get_next_month ym k)
  /\ ordinal (_get_next_month ym k) = ordinal ym + k.
Proof.
  intros Hm Hk. unfold _get_next_month, valid.
  destruct (carry_months_spec (Z.to_nat (month ym + k)) (year ym)
              (month ym + k)) as (H1 & H2 & H3).
  cbn zeta in H1, H2, H3. unfold ordinal in *. repeat split; try lia.
Qed.

(** X16: [_get_next_month] counts months correctly across years: from
    a label whose month is at least 1, going [months_ahead >= 0] months
    ahead gives a label with a month from 1 to 12 that lies exactly
    [months_ahead] months later. *)
Theorem get_next_month_is_months_later (ym : yearmonth) (months_ahead : Z) :
  1 <= month ym -> 0 <= months_ahead ->
  1 <= month (_get_next_month ym months_ahead) <= 12
  /\ 12 * year (_get_next_month ym months_ahead)
     + month (_get_next_month ym months_ahead)
     = 12 * year ym + month ym + months_ahead.
Proof.
  intros Hm Hk. exact (get_next_month_spec ym months_ahead Hm Hk).
Qed.

Lemma get_next_month_is_months_later_witness :
  _get_next_month {| year := 2024; month := 11 |} 27
  = {| year := 2027; month := 2 |}
  /\ 1 <= month (_get_next_month {| year := 2024; month := 11 |} 27) <= 12.
Proof.
  split; [reflexivity|].
  apply (get_next_month_is_months_later {| year := 2024; month := 11 |} 27);
    simpl; lia.
Defined.

Lemma In_remove_partial_months x l :
  In x (remove_partial_months l) -> In x l.
Proof.
  unfold remove_partial_months.
  destruct (3 <=? length l)%nat; [|auto].
  destruct (3 <=? length (List.filter _ l))%nat.
  - intros H. apply filter_In in H. tauto.
  - destruct l; simpl; auto.
Qed.

Lemma last_In {A} (l : list A) d : l <> [] -> In (List.last l d) l.
Proof.
  induction l as [|a l IH]; [congruence|]. intros _.
  destruct l as [|b l]; [left; reflexivity|].
  right. apply IH. discriminate.
Qed.

Lemma ym_geb_ordinal a b :
  valid a -> valid b -> (ym_geb a b = true <-> ordinal b <= ordinal a).
Proof.
  unfold valid, ym_geb, ordinal. intros Ha Hb.
  rewrite orb_true_iff, andb_true_iff, Z.ltb_lt, Z.eqb_eq, Z.leb_le. lia.
Qed.

Lemma forecast_month_one last_data baseline growth offset i :
  forecast_month (forecast_one last_data baseline growth offset i)
  = _get_next_month last_data i.
Proof. reflexivity. Qed.

(** X17: the forecast covers the three months that follow the later of
    the current month and the last month kept from the data, in order
    and without a gap; none of them is the current month or a past
    one. *)
Theorem forecast_months_follow_the_present (current : yearmonth)
    (monthly_data : list month_row) (summary : forecast_summary) :
  valid current ->
  Forall (fun r => valid (year_month r)) monthly_data ->
  create_forecast_sheet current monthly_data = Returns summary ->
  let last_data :=
    List.last (List.map year_month (remove_partial_months monthly_data))
      current in
  let present := Z.max (ordinal last_data) (ordinal current) in
  List.map (fun r => ordinal (forecast_month r)) (forecast summary)
  = [present + 1; present + 2; present + 3]
  /\ Forall (fun r => valid (forecast_month r)
                      /\ ordinal current < ordinal (forecast_month r))
       (forecast summary).
Proof.
  intros Hcur Hdata H. cbv zeta.
  apply ForecastFacts.create_forecast_sheet_returns in H.
  cbv zeta in H. destruct H as (Hlen & Hf & _).
  set (kept := remove_partial_months monthly_data) in *.
  set (last_data := List.last (List.map year_month kept) current) in *.
  assert (Hlast : valid last_data).
  { assert (Hin : In last_data (List.map year_month kept)).
    { apply last_In. destruct kept; [simpl in Hlen; lia|discriminate]. }
    apply in_map_iff in Hin. destruct Hin as (r & <- & Hr).
    apply In_remove_partial_months in Hr.
    rewrite Forall_forall in Hdata. apply Hdata, list_elem_of_In, Hr. }
  set (offset := start_month_offset last_data current) in *.
  assert (Hoff : 1 <= offset
                 /\ ordinal last_data + offset
                    = Z.max (ordinal last_data) (ordinal current) + 1).
  { unfold offset, start_month_offset.
    destruct (ym_geb last_data current) eqn:E.
    - apply ym_geb_ordinal in E; auto. lia.
    - assert (~ ordinal current <= ordinal last_data).
      { intros Hle. apply ym_geb_ordinal in Hle; auto. congruence. }
      unfold ordinal in *. lia. }
  destruct Hoff as [Hoff1 Hoff2].
  assert (Hm : 1 <= month last_data) by (unfold valid in Hlast; lia).
  destruct (get_next_month_spec last_data offset Hm) as [V0 O0]; [lia|].
  destruct (get_next_month_spec last_data (offset + 1) Hm) as [V1 O1]; [lia|].
  destruct (get_next_month_spec last_data (offset + 2) Hm) as [V2 O2]; [lia|].
  rewrite Hf. split.
  - cbn [List.map]. rewrite !forecast_month_one, O0, O1, O2.
    f_equal; [lia|]. f_equal; [lia|]. f_equal. lia.
  - do 3 (constructor; [rewrite forecast_month_one; split; [assumption|lia]|]).
    constructor.
Qed.

Lemma forecast_months_follow_the_present_witness :
  exists summary,
    create_forecast_sheet {| year := 2024; month := 12 |} steady_months
    = Returns summary
    /\ List.map forecast_month (forecast summary)
       = [{| year := 2025; month := 1 |}; {| year := 2025; month := 2 |};
          {| year := 2025; month := 3 |}]
    /\ List.map (fun r => ordinal (forecast_month r)) (forecast summary)
       = [24300 + 1; 24300 + 2; 24300 + 3].
Proof.
  eexists. split; [vm_compute; reflexivity|].
  split; [vm_compute; reflexivity|].
  apply (forecast_months_follow_the_present {| year := 2024; month := 12 |}
           steady_months).
  - unfold valid. simpl. lia.
  - repeat constructor; unfold valid; simpl; lia.
  - vm_compute. reflexivity.
Defined.

Local Open Scope Q_scope.

(** X18: how a call of [create_forecast_sheet] ends is decided by two
    counts.  It returns [None] exactly when fewer than six months are
    left after the partial months are removed, which includes every
    history shorter than six months; otherwise it raises exactly when
    one or two growth rates are kept, and returns a summary when none
    or at least three are kept. *)
Theorem forecast_outcome (current : yearmonth)
    (monthly_data : list month_row) :
  let kept := remove_partial_months monthly_data in
  let rates :=
    growth_rates
      (Py.tail (Nat.min 9 (length kept)) (List.map monthly_revenue kept)) in
  (create_forecast_sheet current monthly_data = ReturnsNone
   <-> (length kept < 6)%nat)
  /\ (create_forecast_sheet current monthly_data = Raises
      <-> (6 <= length kept)%nat /\ (0 < length rates < 3)%nat)
  /\ ((exists summary,
          create_forecast_sheet current monthly_data = Returns summary)
      <-> (6 <= length kept)%nat
          /\ (length rates = 0 \/ 3 <= length rates)%nat)
  /\ ((length monthly_data < 6)%nat ->
      create_forecast_sheet current monthly_data = ReturnsNone).
Proof.
  cbv zeta.
  assert (Hshort := ForecastFacts.remove_partial_months_length monthly_data).
  unfold create_forecast_sheet.
  set (kept := remove_partial_months monthly_data) in *.
  set (rates := growth_rates _).
  destruct (Nat.leb_spec 6 (length kept)) as [Hlen|Hlen].
  - destruct (Nat.ltb_spec 0 (length rates));
      destruct (Nat.leb_spec 3 (length rates)); cbn [option_map];
      (split; [split; [discriminate|lia]|]);
      (split; [split; [try discriminate; intros _; lia
                      |try reflexivity; lia]|]);
      (split; [split; [try (intros [? ?]; discriminate); intros _; lia
                      |try (intros _; eexists; reflexivity); lia]
              |lia]).
  - split; [split; [lia|reflexivity]|].
    split; [split; [discriminate|lia]|].
    split; [split; [intros [? ?]; discriminate|lia]|reflexivity].
Qed.

Lemma round_half_even_Qeq (x y : Q) :
  x == y -> Py.round_half_even x = Py.round_half_even y.
Proof.
  intros H. unfold Py.round_half_even.
  rewrite (Qfloor_comp _ _ H).
  assert (Hc : (x - inject_Z (Qfloor y) ?= 1 # 2)
               = (y - inject_Z (Qfloor y) ?= 1 # 2)).
  { apply Qcompare_comp; [rewrite H|]; reflexivity. }
  rewrite Hc. reflexivity.
Qed.

Lemma round_dp_Qeq (n : nat) (x y : Q) :
  x == y -> Py.round_dp n x = Py.round_dp n y.
Proof.
  intros H. unfold Py.round_dp.
  rewrite (round_half_even_Qeq (x * _) (y * inject_Z (10 ^ Z.of_nat n)));
    [reflexivity|]. rewrite H. reflexivity.
Qed.

(** X19: the growth rate a summary reports is within 3% on either side,
    and the same rate is written on each of its three forecast rows. *)
Theorem reported_growth_is_bounded (current : yearmonth)
    (monthly_data : list month_row) (summary : forecast_summary) :
  create_forecast_sheet current monthly_data = Returns summary ->
  -0.03 <= applied_growth_rate (stats summary) <= 0.03
  /\ Forall (fun r => monthly_growth_rate r
                      = applied_growth_rate (stats summary))
       (forecast summary).
Proof.
  intros H. apply ForecastFacts.create_forecast_sheet_returns in H.
  cbv zeta in H. destruct H as (_ & Hf & ->).
  match goal with
  | |- context [Py.round_dp 4 ?g] =>
      set (growth := g) in *
  end.
  assert (Hg : -0.03 <= growth <= 0.03).
  { unfold growth.
    match goal with
    | |- _ <= capped_growth ?r ?a ?b <= _ =>
        exact (proj2 (proj2 (proj2 (proj2
                 (ForecastFacts.capped_growth_cases r a b)))))
    end. }
  split.
  - split.
    + eapply Qle_trans;
        [|apply (round_dp_mono 4 (-0.03) growth); tauto].
      vm_compute. discriminate.
    + eapply Qle_trans;
        [apply (round_dp_mono 4 growth 0.03); tauto|].
      vm_compute. discriminate.
  - rewrite Hf. repeat constructor.
Qed.

Lemma reported_growth_is_bounded_witness :
  exists summary,
    create_forecast_sheet {| year := 2024; month := 9 |} steady_months
    = Returns summary
    /\ applied_growth_rate (stats summary) = 0.0267
    /\ -0.03 <= applied_growth_rate (stats summary) <= 0.03.
Proof.
  eexists. split; [vm_compute; reflexivity|].
  split; [vm_compute; reflexivity|].
  apply (reported_growth_is_bounded {| year := 2024; month := 9 |}
           steady_months).
  vm_compute. reflexivity.
Defined.

(** X20: when a summary reports a negative growth rate, its moderate
    scenario is flat: in each of the three months it equals the
    reported baseline. *)
Theorem negative_growth_keeps_moderate_flat (current : yearmonth)
    (monthly_data : list month_row) (summary : forecast_summary) :
  create_forecast_sheet current monthly_data = Returns summary ->
  applied_growth_rate (stats summary) < 0 ->
  Forall (fun r => moderate r = baseline_recent_median (stats summary))
    (forecast summary).
Proof.
  intros H Hneg.
  assert (Hret := ForecastFacts.create_forecast_sheet_returns _ _ _ H).
  cbv zeta in Hret. destruct Hret as (Hlen & Hf & Ha).
  unfold create_forecast_sheet in H.
  apply Nat.leb_le in Hlen. rewrite Hlen in H.
  destruct (if (0 <? length _)%nat then _ else _); [|discriminate].
  injection H as <-. cbn [stats baseline_recent_median forecast
                           applied_growth_rate] in *.
  match goal with
  | H : Py.round_dp 4 ?g < 0 |- _ => set (growth := g) in *
  end.
  assert (Hg : Qle_bool 0 growth = false).
  { destruct (Qle_bool 0 growth) eqn:E; [|reflexivity].
    apply Qle_bool_iff in E. exfalso.
    assert (H0 := round_dp_mono 4 0 growth E).
    rewrite round_dp_zero in H0. lra. }
  repeat constructor; unfold forecast_one; cbn [moderate];
    rewrite Hg; cbn [fst snd]; apply round_dp_Qeq; ring.
Qed.

Lemma negative_growth_keeps_moderate_flat_witness :
  exists summary,
    create_forecast_sheet {| year := 2024; month := 7 |} declining
    = Returns summary
    /\ applied_growth_rate (stats summary) = -0.0215
    /\ List.map moderate (forecast summary) = [920.00; 920.00; 920.00]
    /\ Forall (fun r => moderate r = baseline_recent_median (stats summary))
         (forecast summary).
Proof.
  eexists. split; [vm_compute; reflexivity|].
  split; [vm_compute; reflexivity|].
  split; [vm_compute; reflexivity|].
  apply (negative_growth_keeps_moderate_flat {| year := 2024; month := 7 |}
           declining).
  - vm_compute. reflexivity.
  - vm_compute. reflexivity.
Defined.

Lemma sublist_List_filter {A} (f : A -> bool) (l : list A) :
  sublist (List.filter f l) l.
Proof.
  induction l as [|a l IH]; simpl; [constructor|].
  destruct (f a); [apply sublist_skip|apply sublist_cons]; exact IH.
Qed.

Lemma filter_all {A} (f : A -> bool) (l : list A) :
  (forall x, In x l -> f x = true) -> List.filter f l = l.
Proof.
  induction l as [|a l IH]; intros H; simpl; [reflexivity|].
  rewrite (H a (or_introl eq_refl)), IH; [reflexivity|].
  intros x Hx. apply H. right. exact Hx.
Qed.

Lemma nth_all_equal (b : Q) (s : list Q) (i : nat) :
  (forall x, In x s -> x = b) -> (i < length s)%nat -> nth i s 0 = b.
Proof.
  intros H Hi. apply H, nth_In, Hi.
Qed.

Lemma median_all_equal (b : Q) (l : list Q) :
  l <> [] -> (forall x, In x l -> x = b) -> Py.median l == b.
Proof.
  intros Hne Hall. unfold Py.median.
  set (s := Py.sorted Py.Qltb l).
  assert (Hs : forall x, In x s -> x = b).
  { intros x Hx. apply Hall.
    eapply Permutation_in; [apply PyFacts.sorted_perm|exact Hx]. }
  assert (Hlen : length s = length l) by apply PyFacts.sorted_length.
  assert (Hpos : (0 < length l)%nat).
  { destruct l; [congruence|simpl; lia]. }
  assert (Hhalf : (length l / 2 < length l)%nat).
  { apply Nat.div_lt; lia. }
  destruct (Nat.even (length l)).
  - rewrite !(nth_all_equal b s); try assumption; try lia. field.
  - rewrite (nth_all_equal b s); try assumption; try lia. reflexivity.
Qed.

(** X21: removing partial months never invents or reorders months (the
    result is a subsequence of the input), and a history in which every
    month has the same number of bookings loses no month. *)
Theorem remove_partial_months_keeps_steady_history
    (monthly_data : list month_row) :
  sublist (remove_partial_months monthly_data) monthly_data
  /\ forall bookings,
       (0 <= bookings)%Z ->
       Forall (fun r => monthly_bookings r = bookings) monthly_data ->
       remove_partial_months monthly_data = monthly_data.
Proof.
  split.
  - unfold remove_partial_months.
    destruct (3 <=? length monthly_data)%nat; [|reflexivity].
    destruct (3 <=? length (List.filter _ monthly_data))%nat.
    + apply sublist_List_filter.
    + destruct monthly_data; simpl; [constructor|].
      apply sublist_cons. reflexivity.
  - intros b Hb Hall. unfold remove_partial_months.
    destruct (Nat.leb_spec 3 (length monthly_data)) as [Hlen|Hlen];
      [|reflexivity].
    rewrite Forall_forall in Hall.
    assert (Hmed : Py.median
                     (List.map (fun r => inject_Z (monthly_bookings r))
                        monthly_data) == inject_Z b).
    { apply median_all_equal.
      - destruct monthly_data; [simpl in Hlen; lia|discriminate].
      - intros x Hx. apply in_map_iff in Hx. destruct Hx as (r & <- & Hr).
        rewrite (Hall r); [reflexivity|]. apply list_elem_of_In, Hr. }
    rewrite filter_all.
    + apply Nat.leb_le in Hlen. rewrite Hlen. reflexivity.
    + intros r Hr. apply Qle_bool_iff. rewrite Hmed, (Hall r);
        [|apply list_elem_of_In, Hr].
      assert (0 <= inject_Z b).
      { change 0 with (inject_Z 0). rewrite <- Zle_Qle. exact Hb. }
      lra.
Qed.

Lemma remove_partial_months_keeps_steady_history_witness :
  remove_partial_months steady_months = steady_months
  /\ remove_partial_months partial_last = removelast steady_months.
Proof.
  split; [|vm_compute; reflexivity].
  apply (proj2 (remove_partial_months_keeps_steady_history steady_months) 40%Z).
  - lia.
  - repeat constructor.
Defined.

End HorizonFacts.

(** ** Cookies *)

Module CookieFacts.

Import Cookies CookieSpec TotalsFacts.

Lemma assoc_dict_set_same k v d : assoc k (dict_set k v d) = Some v.
Proof.
  induction d as [|[k0 v0] d IH]; simpl.
  - rewrite eqb_refl. reflexivity.
  - destruct (PyStr.eqb k k0) eqn:E; simpl; rewrite E; [reflexivity|exact IH].
Qed.

Lemma assoc_dict_set_other k' k v d :
  k' <> k -> assoc k' (dict_set k v d) = assoc k' d.
Proof.
  intros Hne. induction d as [|[k0 v0] d IH]; simpl.
  - destruct (PyStr.eqb k' k) eqn:E; [|reflexivity].
    apply eqb_eq in E. contradiction.
  - destruct (PyStr.eqb k k0) eqn:E; simpl.
    + apply eqb_eq in E. subst k0.
      destruct (PyStr.eqb k' k) eqn:E'; [|reflexivity].
      apply eqb_eq in E'. contradiction.
    + rewrite IH. reflexivity.
Qed.

Lemma dict_set_twice k v d : dict_set k v (dict_set k v d) = dict_set k v d.
Proof.
  induction d as [|[k0 v0] d IH]; simpl.
  - rewrite eqb_refl. reflexivity.
  - destruct (PyStr.eqb k k0) eqn:E; simpl; rewrite E; [reflexivity|].
    rewrite IH. reflexivity.
Qed.

Lemma dict_get_dict_set k v d default :
  dict_get (dict_set k v d) k default = v.
Proof. unfold dict_get. rewrite assoc_dict_set_same. reflexivity. Qed.

Lemma keys_dict_set k v d :
  List.map fst (dict_set k v d)
  = if existsb (PyStr.eqb k) (List.map fst d)
    then List.map fst d else List.map fst d ++ [k].
Proof.
  induction d as [|[k0 v0] d IH]; simpl; [reflexivity|].
  destruct (PyStr.eqb k k0); simpl; [reflexivity|].
  rewrite IH. destruct (existsb _ _); reflexivity.
Qed.

(** What [normalize_dict] does, by the value [sameSite] has. *)
Lemma normalize_dict_cases (cookie : list (pystr * json)) :
  (exists v, In v canonical
             /\ normalize_dict cookie = dict_set (u "sameSite") v cookie)
  \/ (exists s, dict_get cookie (u "sameSite") JNull = JStr s
                /\ s <> []
                /\ lower_is s (u "strict") = false
                /\ lower_is s (u "lax") = false
                /\ lower_is s (u "none") = false
                /\ normalize_dict cookie = cookie).
Proof.
  unfold normalize_dict, canonical.
  destruct (truthy (dict_get cookie (u "sameSite") JNull)) eqn:Ht; cbn [negb].
  - destruct (dict_get cookie (u "sameSite") JNull) as [| | |s| |] eqn:Hv;
      try (left; eexists; split; [|reflexivity]; simpl; tauto).
    destruct (lower_is s (u "strict")) eqn:E1;
      [left; eexists; split; [|reflexivity]; simpl; tauto|].
    destruct (lower_is s (u "lax")) eqn:E2;
      [left; eexists; split; [|reflexivity]; simpl; tauto|].
    destruct (lower_is s (u "none")) eqn:E3;
      [left; eexists; split; [|reflexivity]; simpl; tauto|].
    right. exists s. repeat split; auto.
    intros ->. discriminate Ht.
  - left. eexists. split; [|reflexivity]. simpl. tauto.
Qed.

Lemma normalize_canonical v d :
  In v canonical ->
  normalize_dict (dict_set (u "sameSite") v d) = dict_set (u "sameSite") v d.
Proof.
  intros Hv. unfold normalize_dict. rewrite dict_get_dict_set.
  unfold canonical in Hv.
  destruct Hv as [<-|[<-|[<-|[]]]]; cbn [truthy negb u];
    vm_compute lower_is; cbv iota; apply dict_set_twice.
Qed.

(** X22: [normalize_cookie] is idempotent and touches one key only.
    After it the cookie has a truthy [sameSite], which is Strict, Lax or
    None unless the cookie came with another non-empty text, kept as it
    is; every other key keeps its value and its place, and [sameSite]
    is added at the end when it was missing. *)
Theorem normalize_cookie_fixes_samesite_only (cookie : list (pystr * json)) :
  normalize_dict (normalize_dict cookie) = normalize_dict cookie
  /\ (forall k, k <> u "sameSite" ->
                assoc k (normalize_dict cookie) = assoc k cookie)
  /\ truthy (dict_get (normalize_dict cookie) (u "sameSite") JNull) = true
  /\ (In (dict_get (normalize_dict cookie) (u "sameSite") JNull) canonical
      \/ dict_get (normalize_dict cookie) (u "sameSite") JNull
         = dict_get cookie (u "sameSite") JNull)
  /\ (List.map fst (normalize_dict cookie) = List.map fst cookie
      \/ List.map fst (normalize_dict cookie)
         = List.map fst cookie ++ [u "sameSite"]).
Proof.
  destruct (normalize_dict_cases cookie)
    as [(v & Hv & ->)|(s & Hs & Hne & E1 & E2 & E3 & Hn)].
  - split; [apply normalize_canonical, Hv|].
    split; [intros k Hk; apply assoc_dict_set_other, Hk|].
    rewrite dict_get_dict_set.
    split; [unfold canonical in Hv;
            destruct Hv as [<-|[<-|[<-|[]]]]; reflexivity|].
    split; [left; exact Hv|].
    rewrite keys_dict_set. destruct (existsb _ _); auto.
  - rewrite !Hn. split; [reflexivity|]. split; [reflexivity|].
    rewrite Hs. split; [destruct s; [congruence|reflexivity]|].
    split; [right; reflexivity|left; reflexivity].
Qed.

(** X23: [load_cookies_json] hands the browser either nothing or the
    whole file: when it adds cookies, the file held a list of
    dictionaries and each one is passed on normalized, in order; one
    stored value that is not a dictionary makes it add none. *)
Theorem load_cookies_is_all_or_nothing (content : option json)
    (cookies : list json) :
  load_cookies_json content = Some cookies ->
  exists items,
    (content ≫= iterate) = Some items
    /\ items <> []
    /\ Forall2 (fun stored added =>
                  exists d, stored = JDict d
                            /\ added = JDict (normalize_dict d))
         items cookies.
Proof.
  unfold load_cookies_json. intros H.
  destruct content as [c|]; [|discriminate].
  cbn [mbind option_bind] in H |- *.
  destruct (truthy c) eqn:Ht; [|discriminate].
  destruct (iterate c) as [items|] eqn:Hi; [|discriminate].
  cbn [mbind option_bind] in H.
  exists items. split; [reflexivity|]. split.
  - intros ->. destruct c; try discriminate; simpl in Hi, Ht.
    + destruct s; [discriminate|discriminate].
    + injection Hi as ->. discriminate.
    + destruct d; [discriminate|discriminate].
  - apply mapM_Some_1 in H. eapply Forall2_impl; [exact H|].
    intros stored added Hn. destruct stored; try discriminate.
    injection Hn as <-. eexists. split; reflexivity.
Qed.

Lemma load_cookies_is_all_or_nothing_witness :
  load_cookies_json (Some (JList [session_cookie; plain_cookie]))
  = Some
      [JDict [(u "name", JStr (u "sid")); (u "sameSite", JStr (u "Strict"));
              (u "secure", JBool true)];
       JDict [(u "name", JStr (u "lang")); (u "value", JStr (u "ro"));
              (u "sameSite", JStr (u "Lax"))]]
  /\ load_cookies_json (Some (JList [session_cookie; JStr (u "lang=ro")]))
     = None
  /\ exists items,
       (Some (JList [session_cookie; plain_cookie]) ≫= iterate) = Some items
       /\ items <> []
       /\ Forall2 (fun stored added =>
                     exists d, stored = JDict d
                               /\ added = JDict (normalize_dict d))
            items
            (default []
               (load_cookies_json
                  (Some (JList [session_cookie; plain_cookie])))).
Proof.
  split; [vm_compute; reflexivity|].
  split; [vm_compute; reflexivity|].
  apply load_cookies_is_all_or_nothing. vm_compute. reflexivity.
Defined.

End CookieFacts.

(** ** Client tiers and the weekly trend *)

Module TierFacts.

Import Clients Weekly TierSpec NumFacts TotalsFacts.
Local Open Scope Q_scope.

Lemma quantile_index_bounds (q : Q) (n : nat) :
  0 <= q <= 1 -> (0 < n)%nat ->
  let pos := inject_Z (Z.of_nat (n - 1)) * q in
  (Z.to_nat (Qfloor pos) < n)%nat
  /\ 0 <= pos - inject_Z (Qfloor pos) <= 1.
Proof.
  intros Hq Hn pos.
  assert (Hn1 : 0 <= inject_Z (Z.of_nat (n - 1))).
  { change 0 with (inject_Z 0). rewrite <- Zle_Qle. lia. }
  assert (Hpos0 : 0 <= pos) by (unfold pos; nra).
  assert (Hpos1 : pos <= inject_Z (Z.of_nat (n - 1))) by (unfold pos; nra).
  assert (Hf0 : (0 <= Qfloor pos)%Z).
  { rewrite <- (Qfloor_Z 0). apply Qfloor_resp_le. exact Hpos0. }
  assert (Hf1 : (Qfloor pos <= Z.of_nat (n - 1))%Z).
  { rewrite <- (Qfloor_Z (Z.of_nat (n - 1))). apply Qfloor_resp_le.
    exact Hpos1. }
  split; [lia|].
  assert (Hlo := Qfloor_le pos). assert (Hhi := Qlt_floor pos).
  rewrite inject_Z_plus in Hhi. change (inject_Z 1) with 1 in Hhi.
  split; lra.
Qed.

(** A quantile never exceeds the largest value. *)
Lemma quantile_le_max (q x : Q) (values : list Q) :
  0 <= q <= 1 -> values <> [] ->
  (forall y, In y values -> y <= x) ->
  quantile q values <= x.
Proof.
  intros Hq Hne Hmax. unfold quantile.
  set (s := Py.sorted Py.Qltb values).
  set (n := length values).
  assert (Hn : (0 < n)%nat).
  { unfold n. destruct values; [congruence|simpl; lia]. }
  destruct (quantile_index_bounds q n Hq Hn) as [Hb Hfrac].
  cbv zeta in Hb, Hfrac.
  set (pos := inject_Z (Z.of_nat (n - 1)) * q) in *.
  set (below := Z.to_nat (Qfloor pos)) in *.
  set (frac := pos - inject_Z (Qfloor pos)) in *.
  assert (Hlen : length s = n) by apply PyFacts.sorted_length.
  assert (Hs : forall i, (i < n)%nat -> nth i s 0 <= x).
  { intros i Hi. apply Hmax.
    eapply Permutation_in; [apply PyFacts.sorted_perm|].
    apply nth_In. change (i < length s)%nat. rewrite Hlen. exact Hi. }
  assert (Ha := Hs below Hb).
  assert (Hab := Hs (Nat.min (below + 1) (n - 1)) ltac:(lia)).
  set (a := nth below s 0) in *.
  set (b := nth (Nat.min (below + 1) (n - 1)) s 0) in *.
  nra.
Qed.

(** X24: the client tiers follow the spending: a client who spent at
    least as much as another is in the same tier or a higher one, and
    the client who spent most is always VIP, so a single client is
    VIP. *)
Theorem client_tiers_follow_spending (total_spent : list Q) :
  (forall x y, y <= x ->
     (tier_rank (client_tier total_spent y)
      <= tier_rank (client_tier total_spent x))%nat)
  /\ (forall x, In x total_spent ->
        (forall y, In y total_spent -> y <= x) ->
        client_tier total_spent x = VIP)
  /\ (forall x, client_tiers [x] = [VIP]).
Proof.
  assert (Htop : forall values x, In x values ->
            (forall y, In y values -> y <= x) ->
            client_tier values x = VIP).
  { intros values x Hin Hmax. unfold client_tier.
    assert (Hq : quantile 0.8 values <= x).
    { apply quantile_le_max; auto.
      - split; [vm_compute; discriminate|vm_compute; discriminate].
      - intros ->. destruct Hin. }
    apply Qle_bool_iff in Hq. rewrite Hq. reflexivity. }
  split; [|split].
  - intros x y Hyx. unfold client_tier.
    destruct (Qle_bool (quantile 0.8 total_spent) y) eqn:Y8;
      destruct (Qle_bool (quantile 0.8 total_spent) x) eqn:X8;
      destruct (Qle_bool (quantile 0.5 total_spent) y) eqn:Y5;
      destruct (Qle_bool (quantile 0.5 total_spent) x) eqn:X5;
      destruct (Qle_bool (quantile 0.2 total_spent) y) eqn:Y2;
      destruct (Qle_bool (quantile 0.2 total_spent) x) eqn:X2;
      cbn [tier_rank]; try lia; exfalso;
      repeat match goal with
        | H : Qle_bool _ _ = true |- _ => apply Qle_bool_iff in H
        | H : Qle_bool _ _ = false |- _ =>
            apply not_true_iff_false in H; rewrite Qle_bool_iff in H
        end;
      try (apply X8; lra); try (apply X5; lra); try (apply X2; lra).
  - apply Htop.
  - intros x. unfold client_tiers. cbn [List.map].
    rewrite (Htop [x] x); [reflexivity|left; reflexivity|].
    intros y [<-|[]]. lra.
Qed.

Lemma client_tiers_follow_spending_witness :
  client_tiers five_clients = [VIP; Regular; Regular; Occasional; NewLow]
  /\ client_tier five_clients 900 = VIP.
Proof.
  split; [vm_compute; reflexivity|].
  apply (proj1 (proj2 (client_tiers_follow_spending five_clients))).
  - left. reflexivity.
  - intros y Hy. unfold five_clients in Hy.
    repeat (destruct Hy as [<-|Hy]; [vm_compute; discriminate|]).
    destruct Hy.
Defined.

Lemma Qsum_lower_bound (c : Q) (l : list Q) :
  (forall x, In x l -> c <= x) ->
  inject_Z (Z.of_nat (length l)) * c <= Py.Qsum l.
Proof.
  induction l as [|x l IH]; intros H.
  - rewrite Qsum_nil. cbn [length].
    change (inject_Z (Z.of_nat 0)) with 0. lra.
  - cbn [length]. rewrite Qsum_cons, Nat2Z.inj_succ. unfold Z.succ.
    rewrite inject_Z_plus. change (inject_Z 1) with 1.
    assert (H1 := H x (or_introl eq_refl)).
    assert (H2 := IH (fun y Hy => H y (or_intror Hy))). lra.
Qed.

Lemma mean_lower_bound (c : Q) (l : list Q) :
  l <> [] -> (forall x, In x l -> c <= x) -> c <= Py.mean l.
Proof.
  intros Hne H. unfold Py.mean.
  assert (Hn : 0 < inject_Z (Z.of_nat (length l))).
  { change 0 with (inject_Z 0). rewrite <- Zlt_Qlt.
    destruct l; [congruence|simpl; lia]. }
  apply Qle_shift_div_l; [exact Hn|].
  rewrite Qmult_comm. apply Qsum_lower_bound, H.
Qed.

Lemma window_facts (revenues : list Q) (i : nat) :
  (i < length revenues)%nat ->
  Py.tail 4 (firstn (S i) revenues) <> []
  /\ forall x, In x (Py.tail 4 (firstn (S i) revenues)) -> In x revenues.
Proof.
  intros Hi. unfold Py.tail. split.
  - intros H. apply (f_equal (@length Q)) in H.
    rewrite length_skipn, !length_firstn in H. cbn [length] in H. lia.
  - intros x Hx.
    rewrite <- (firstn_skipn (S i) revenues). apply in_or_app. left.
    rewrite <- (firstn_skipn (length (firstn (S i) revenues) - 4)
                  (firstn (S i) revenues)).
    apply in_or_app. right. exact Hx.
Qed.

(** X25: the weekly trend never divides by zero and never drops a week.
    A week without revenue gets no growth figure; when every week has a
    revenue of at least 0.01, every week gets a moving average of at
    least 0.01 and a growth figure. *)
Theorem weekly_growth_is_recorded (revenues : list Q) :
  length (trend_columns revenues) = length revenues
  /\ (forall i, nth i revenues 0 <= 0 ->
        snd (nth i (trend_columns revenues) (0, None)) = None)
  /\ ((forall r, In r revenues -> 0.01 <= r) ->
      Forall (fun row => 0.01 <= fst row /\ is_Some (snd row))
        (trend_columns revenues)).
Proof.
  unfold trend_columns. split; [|split].
  - rewrite length_map, length_seq. reflexivity.
  - intros i Hi.
    destruct (Nat.lt_ge_cases i (length revenues)) as [Hlt|Hge].
    + match goal with |- context [List.map ?g _] => set (f := g) end.
      rewrite (nth_indep _ _ (f 0%nat));
        [|rewrite length_map, length_seq; exact Hlt].
      rewrite (map_nth f), seq_nth; [|exact Hlt].
      subst f. cbv beta zeta. cbn [Nat.add snd].
      unfold growth_vs_ma.
      assert (Hc : Py.Qltb 0 (nth i revenues 0) = false)
        by (apply Qltb_ge; exact Hi).
      rewrite Hc, andb_false_r. reflexivity.
    + rewrite nth_overflow; [reflexivity|].
      rewrite length_map, length_seq. exact Hge.
  - intros Hall. apply Forall_forall. intros row Hrow.
    apply list_elem_of_In, in_map_iff in Hrow.
    destruct Hrow as (i & <- & Hi). apply in_seq in Hi.
    destruct (window_facts revenues i) as [Hne Hin]; [lia|].
    assert (Hma : 0.01 <= moving_average revenues i).
    { unfold moving_average.
      eapply Qle_trans;
        [|apply round_dp_mono, (mean_lower_bound 0.01); auto].
      vm_compute. discriminate. }
    cbn [fst snd]. split; [exact Hma|].
    unfold growth_vs_ma.
    assert (H1 : Py.Qltb 0 (moving_average revenues i) = true)
      by (apply Qltb_lt; lra).
    assert (H2 : Py.Qltb 0 (nth i revenues 0) = true).
    { apply Qltb_lt. assert (0.01 <= nth i revenues 0); [|lra].
      apply Hall, nth_In. lia. }
    rewrite H1, H2. eexists. reflexivity.
Qed.

Lemma weekly_growth_is_recorded_witness :
  List.map snd (trend_columns six_weeks)
  = [Some 0.0000; Some 0.2000; None; Some 0.3451; Some 0.3226;
     Some 0.5878]
  /\ snd (nth 2 (trend_columns six_weeks) (0, None)) = None.
Proof.
  split; [vm_compute; reflexivity|].
  apply (proj1 (proj2 (weekly_growth_is_recorded six_weeks)) 2%nat).
  vm_compute. discriminate.
Defined.

End TierFacts.
